(** * CMS analytics: the fetch, filter and aggregate pipeline, and the charts

    A shallow embedding of [cms_data_fetcher.py] (class [CMSDataFetcher]) and
    of the chart constructors of [cms_data_visualizer.py] and
    [cms_data_visualizer_simple.py], with the properties of the
    specification proved, or refuted and amended, on it.

    Conventions of the embedding.
    - A pandas [DataFrame] is a list of column labels and a list of rows; a
      row is the list of its cells, in column order.  Column labels are
      unique (as [read_csv] makes them); a label is looked up at its first
      position.
    - A cell is a text, an integer or the missing value [NaN].  Floating
      point is outside the embedding: volumes are integers, and a mean is
      the exact rational.
    - Text is ASCII: [str.upper] and case-insensitive matching fold the
      letters [a] to [z] only.
    - The columns probed with the [.str] accessor are of object dtype (as
      [read_csv] yields for names, cities and street addresses): a cell that
      is not a text does not match ([na=False]).  On a column of another
      dtype the accessor raises [AttributeError]; the model is read on
      tables whose probed columns hold text ([str_defined], [str_ready]),
      and the theorems that state what a match returns assume it.
    - An integer column is of dtype [int64]: [sum] wraps around.  A numeric
      column with a missing value is of dtype [float64] in pandas; its sums
      are the model's while the numbers stay below [2 ^ 53] in all
      ([Group.exact]), which the theorems that state a sum assume.
    - Code that can raise returns [Res]; printing is left out.
    - The file system is a map from paths to contents; the network, the CSV
      parser and the charting library are parameters ([Env], [Plotly]). *)

From Stdlib Require Import String Ascii List ZArith Bool Lia QArith DecimalString.
From Stdlib Require Import Permutation Sorted.
From stdpp Require Import base list strings gmap.
Import ListNotations.

#[local] Open Scope string_scope.
#[local] Open Scope list_scope.

(** ** Text helpers *)

Module Text.

(** [p in s] of Python: [p] occurs in [s] as a substring. *)
Fixpoint contains (p s : string) : bool :=
  String.prefix p s ||
  match s with
  | EmptyString => false
  | String _ s' => contains p s'
  end.

Definition upper_ascii (c : ascii) : ascii :=
  let n := nat_of_ascii c in
  if (97 <=? n)%nat && (n <=? 122)%nat then ascii_of_nat (n - 32) else c.

(** [s.upper()] *)
Fixpoint upper (s : string) : string :=
  match s with
  | EmptyString => EmptyString
  | String c s' => String (upper_ascii c) (upper s')
  end.

(** ['|'.join(parts)] *)
Fixpoint join (sep : string) (parts : list string) : string :=
  match parts with
  | [] => EmptyString
  | [p] => p
  | p :: rest => p ++ sep ++ join sep rest
  end.

(** [str(z)] for an integer. *)
Definition of_Z (z : Z) : string := NilEmpty.string_of_int (Z.to_int z).

(** The search patterns of the program are alternations ['|'.join(words)]
    of plain words (no word holds a regular-expression metacharacter, see
    [words_are_literal] below), so [re.search] succeeds exactly when one
    of the words occurs.  [case=False] compares letters up to case. *)
Definition search (words : list string) (s : string) : bool :=
  existsb (fun w => contains w s) words.

Definition search_nocase (words : list string) (s : string) : bool :=
  existsb (fun w => contains (upper w) (upper s)) words.

Definition metachars : list ascii :=
  list_ascii_of_string ".^$*+?{}[]\|()".

Definition is_literal (w : string) : bool :=
  forallb (fun c => negb (existsb (Ascii.eqb c) metachars))
          (list_ascii_of_string w).

End Text.

(** ** Data frames *)

Inductive Cell : Type :=
| CStr (s : string)
| CInt (z : Z)
| CNaN.

#[global] Instance Cell_eq_dec : EqDecision Cell.
Proof. solve_decision. Defined.

Definition Row : Type := list Cell.

Record DataFrame : Type := mkDataFrame {
  columns : list string;
  rows : list Row
}.

(** Exceptions of the Python run time that the embedded code can raise. *)
Inductive Exn : Type :=
| KeyError (label : string)
| IndexError
| TypeError
| IOError (what : string).

Inductive Res (A : Type) : Type :=
| Ok (a : A)
| Raise (e : Exn).
Arguments Ok {A} a.
Arguments Raise {A} e.

Definition bind {A B : Type} (m : Res A) (k : A -> Res B) : Res B :=
  match m with
  | Ok a => k a
  | Raise e => Raise e
  end.

Notation "'try' x <- m 'in' k" := (bind m (fun x => k))
  (at level 10, x name, m at level 100, k at level 200).

Module Frame.

Definition cell_eqb (a b : Cell) : bool :=
  match a, b with
  | CStr s, CStr t => String.eqb s t
  | CInt x, CInt y => Z.eqb x y
  | CNaN, CNaN => true
  | _, _ => false
  end.

(** [col in df.columns] *)
Definition has_column (df : DataFrame) (col : string) : bool :=
  existsb (String.eqb col) (columns df).

Fixpoint position (col : string) (cols : list string) : option nat :=
  match cols with
  | [] => None
  | c :: cols' =>
      if String.eqb col c then Some 0%nat
      else option_map S (position col cols')
  end.

(** The cell of [row] under the label [col] ([NaN] when there is none:
    the code reads a column after it has tested [col in df.columns], or
    the model raises [KeyError] in its place). *)
Definition cell (df : DataFrame) (col : string) (row : Row) : Cell :=
  match position col (columns df) with
  | Some i => nth i row CNaN
  | None => CNaN
  end.

(** [df[col]] as a series, for a label that is a column. *)
Definition series (df : DataFrame) (col : string) : list Cell :=
  map (cell df col) (rows df).

(** [len(df)] *)
Definition len (df : DataFrame) : nat := length (rows df).

(** [df.empty]: one of the two axes has length zero. *)
Definition empty (df : DataFrame) : bool :=
  match rows df, columns df with
  | [], _ => true
  | _, [] => true
  | _, _ => false
  end.

(** [pd.DataFrame()] *)
Definition blank : DataFrame := mkDataFrame [] [].

(** [df.head(0)]: the same columns and no row. *)
Definition head0 (df : DataFrame) : DataFrame := mkDataFrame (columns df) [].

(** Selection of the rows at which a boolean mask holds. *)
Fixpoint select {A : Type} (mask : list bool) (xs : list A) : list A :=
  match mask, xs with
  | b :: mask', x :: xs' => if b then x :: select mask' xs' else select mask' xs'
  | _, _ => []
  end.

(** [df[mask]] *)
Definition boolean_index (df : DataFrame) (mask : list bool) : DataFrame :=
  mkDataFrame (columns df) (select mask (rows df)).

(** [mask |= other] *)
Fixpoint mask_or (mask other : list bool) : list bool :=
  match mask, other with
  | b :: mask', c :: other' => (b || c) :: mask_or mask' other'
  | _, _ => []
  end.

(** [mask & other] *)
Fixpoint mask_and (mask other : list bool) : list bool :=
  match mask, other with
  | b :: mask', c :: other' => (b && c) :: mask_and mask' other'
  | _, _ => []
  end.

(** [series == text] *)
Definition eq_text (text : string) (c : Cell) : bool :=
  match c with
  | CStr s => String.eqb s text
  | _ => false
  end.

(** [series.astype(str)] on one cell. *)
Definition astype_str (c : Cell) : string :=
  match c with
  | CStr s => s
  | CInt z => Text.of_Z z
  | CNaN => "nan"
  end.

(** [series.str.contains(pattern, case=False, na=False)] on one cell of a
    column that holds text ([holds_text] below). *)
Definition str_contains_nocase (words : list string) (c : Cell) : bool :=
  match c with
  | CStr s => Text.search_nocase words s
  | _ => false
  end.

(** [series.str.upper().str.contains(pattern, na=False)] on one cell of a
    column that holds text. *)
Definition str_upper_contains (words : list string) (c : Cell) : bool :=
  match c with
  | CStr s => Text.search words (Text.upper s)
  | _ => false
  end.

(** A column the [.str] accessor reads: it holds a text, so that its dtype
    is object.  On a column without any text the accessor may raise
    [AttributeError]. *)
Definition holds_text (df : DataFrame) (col : string) : bool :=
  existsb (fun c => match c with CStr _ => true | _ => false end) (series df col).

(** A column of which every selection of rows can be read with [.str] as
    well: it holds a text, and texts and missing values only. *)
Definition text_column (df : DataFrame) (col : string) : bool :=
  holds_text df col
  && forallb (fun c => match c with CInt _ => false | _ => true end) (series df col).

(** The loop [for col in candidates: if col in df.columns: found = col; break]. *)
Fixpoint first_present (candidates : list string) (df : DataFrame) : option string :=
  match candidates with
  | [] => None
  | col :: rest => if has_column df col then Some col else first_present rest df
  end.

End Frame.

(** ** [CMSDataFetcher]: configuration *)

Definition upstate_ny_counties : list string :=
  [ "ALBANY"; "SCHENECTADY"; "RENSSELAER"; "SARATOGA";
    "COLUMBIA"; "GREENE"; "WARREN"; "WASHINGTON";
    "FULTON"; "MONTGOMERY"; "SCHOHARIE"; "DELAWARE" ].

Definition ny_state_code : string := "NY".

Definition possible_state_cols : list string :=
  [ "Rndrng_Prvdr_State_Abrvtn"; "Rndrng_Prvdr_State"; "State_Abrvtn"; "State" ].

Definition possible_county_cols : list string :=
  [ "Rndrng_Prvdr_State_FIPS"; "Rndrng_Prvdr_County"; "County"; "County_FIPS" ].

(** ** [filter_upstate_ny_providers] *)

(** [df[df[state_col] == self.ny_state_code]] *)
Definition ny_state_rows (df : DataFrame) (state_col : string) : DataFrame :=
  Frame.boolean_index df (map (Frame.eq_text ny_state_code) (Frame.series df state_col)).

(** [lambda x: any(county in x for county in self.upstate_ny_counties)] *)
Definition in_upstate_county (x : string) : bool :=
  existsb (fun county => Text.contains county x) upstate_ny_counties.

(** [ny_providers[county_col].astype(str).str.upper().apply(...)] *)
Definition upstate_mask (ny_providers : DataFrame) (county_col : string) : list bool :=
  map (fun c => in_upstate_county (Text.upper (Frame.astype_str c)))
      (Frame.series ny_providers county_col).

Definition filter_upstate_ny_providers (df : DataFrame) : DataFrame :=
  match Frame.first_present possible_state_cols df with
  | None => Frame.head0 df
  | Some state_col =>
      let ny_providers := ny_state_rows df state_col in
      match Frame.first_present possible_county_cols df with
      | Some county_col =>
          let upstate_providers :=
            Frame.boolean_index ny_providers (upstate_mask ny_providers county_col) in
          if (0 <? Frame.len upstate_providers)%nat then upstate_providers
          else ny_providers
      | None => ny_providers
      end
  end.

(** ** [find_community_care_providers] *)

Definition community_care_practices : list string :=
  [ "COMMUNITY CARE"; "COMMUNITYCARE"; "COMMUNITY CARE PHYSICIANS";
    "CCP"; "COMMUNITY CARE FAMILY MEDICINE"; "COMMUNITY CARE PEDIATRICS";
    "COMMUNITY CARE INTERNAL MEDICINE"; "LATHAM MEDICAL GROUP";
    "CAPITAL REGION FAMILY HEALTH"; "FAMILY CARE PHYSICIANS";
    "SCHOOLHOUSE ROAD PEDIATRICS"; "ALBANY FAMILY PRACTICE";
    "CAPITAL CARE"; "CAPITALCARE"; "CAPITAL CARE MEDICAL GROUP";
    "CAPITAL DISTRICT INTERNAL MEDICINE"; "CAPITAL DISTRICT RENAL";
    "UROLOGICAL INSTITUTE OF NORTHEASTERN NY"; "UROLOGY INSTITUTE";
    "ALBANY GASTROENTEROLOGY"; "ALBANY GASTRO"; "ALBANY UROLOGY";
    "ALBANY OBSTETRICS & GYNECOLOGY"; "ALBANY OB GYN"; "ALBANY OB-GYN";
    "UPSTATE INFECTIOUS DISEASES"; "UPSTATE NEUROLOGY";
    "NEUROLOGY GROUP OF UPSTATE NY"; "NEUROLOGY GROUP";
    "CAPITAL REGION MIDWIFERY"; "CAPITAL REGION WOMEN'S CARE";
    "WOMEN'S CARE"; "WOMENS CARE"; "CAPITAL CARDIOLOGY";
    "CARDIOLOGY ASSOCIATES OF SCHENECTADY"; "CARDIOLOGY ASSOCIATES";
    "Advanced Gastroenterology";
    "Albany Family Medicine";
    "Burnt Hills Pediatrics and Internal Medicine";
    "Capital Healthcare Associates";
    "Capital Region Family Medicine";
    "Capital Region Gastroenterology";
    "Capital Region Women's Care";
    "CapitalCare Charlton Family Medicine";
    "CapitalCare Developmental Pediatrics";
    "CapitalCare Family MedEsthetics";
    "Community Care Physicians";
    "CommunityCarePCP" ].

Definition org_name_cols : list string :=
  [ "Rndrng_Prvdr_Org_Name"; "Org_Name"; "Rndrng_Prvdr_Org_Lgl_Name";
    "Rndrng_Prvdr_Org_DBA_Name" ].

Definition group_id_col : string := "Rndrng_Prvdr_Grp_Pac_ID".

Definition upstate_cities : list string :=
  [ "ALBANY"; "LATHAM"; "CLIFTON PARK"; "DELMAR"; "SARATOGA SPRINGS";
    "SCHENECTADY"; "NISKAYUNA"; "TROY"; "EAST GREENBUSH"; "SLINGERLANDS";
    "BALLSTON SPA"; "MALTA"; "GUILDERLAND"; "COHOES"; "COLONIE";
    "GLENVILLE"; "GLENS FALLS"; "QUEENSBURY"; "BURNT HILLS"; "MECHANICVILLE" ].

Definition city_cols : list string := [ "Rndrng_Prvdr_City"; "City" ].

Definition common_specialties : list string :=
  [ "FAMILY PRACTICE"; "INTERNAL MEDICINE"; "PEDIATRICS";
    "OBSTETRICS/GYNECOLOGY"; "GASTROENTEROLOGY"; "UROLOGY";
    "CARDIOLOGY"; "NEUROLOGY"; "NEPHROLOGY"; "INFECTIOUS DISEASE";
    "FAMILY MEDICINE"; "GENERAL PRACTICE"; "PRIMARY CARE" ].

Definition specialty_cols : list string :=
  [ "Rndrng_Prvdr_Type"; "Provider_Type"; "Specialty" ].

Definition address_patterns : list string :=
  [ "1 PINNACLE"; "711 TROY-SCHENECTADY"; "2 CHELSEA"; "2 PALISADES";
    "1785 WESTERN"; "1444 WESTERN"; "1201 NOTT"; "2546 BALLTOWN";
    "1 TALLOW WOOD"; "6 EXECUTIVE PARK"; "4 PALISADES"; "1 COLUMBIA" ].

Definition address_cols : list string :=
  [ "Rndrng_Prvdr_St1"; "Rndrng_Prvdr_St2"; "Street1"; "Street2" ].

(** The columns that the match rules and the fallback of
    [analyze_provider_service_data] read with [.str]. *)
Definition probed_cols : list string :=
  org_name_cols ++ [ group_id_col ] ++ city_cols ++ specialty_cols ++ address_cols.


(** Every probed column that the table has is a text column: no [.str]
    accessor raises, on a selection of the rows either. *)
Definition str_ready (df : DataFrame) : bool :=
  forallb (fun col => negb (Frame.has_column df col) || Frame.text_column df col)
    probed_cols.

(** The loop
    [for col in cols: if col in df.columns:
         mask |= df[col].str.contains(pattern, case=False, na=False)]. *)
Fixpoint or_contains_nocase (df : DataFrame) (words cols : list string)
    (mask : list bool) : list bool :=
  match cols with
  | [] => mask
  | col :: rest =>
      let mask' :=
        if Frame.has_column df col
        then Frame.mask_or mask
               (map (Frame.str_contains_nocase words) (Frame.series df col))
        else mask in
      or_contains_nocase df words rest mask'
  end.

(** The inner loop over [specialty_cols]:
    [mask |= (city_mask & specialty_mask)]. *)
Fixpoint or_specialty (df : DataFrame) (city_mask : list bool)
    (cols : list string) (mask : list bool) : list bool :=
  match cols with
  | [] => mask
  | spec_col :: rest =>
      let mask' :=
        if Frame.has_column df spec_col
        then
          let specialty_mask :=
            map (Frame.str_upper_contains common_specialties)
                (Frame.series df spec_col) in
          Frame.mask_or mask (Frame.mask_and city_mask specialty_mask)
        else mask in
      or_specialty df city_mask rest mask'
  end.

(** The outer loop over [city_cols], guarded by [city_mask.any()]. *)
Fixpoint or_city_specialty (df : DataFrame) (cols : list string)
    (mask : list bool) : list bool :=
  match cols with
  | [] => mask
  | col :: rest =>
      let mask' :=
        if Frame.has_column df col
        then
          let city_mask :=
            map (Frame.str_upper_contains upstate_cities) (Frame.series df col) in
          if existsb (fun b => b) city_mask
          then or_specialty df city_mask specialty_cols mask
          else mask
        else mask in
      or_city_specialty df rest mask'
  end.

Definition community_care_mask (df : DataFrame) : list bool :=
  let mask := repeat false (Frame.len df) in
  let mask := or_contains_nocase df community_care_practices org_name_cols mask in
  let mask :=
    if Frame.has_column df group_id_col
    then Frame.mask_or mask
           (map (Frame.str_contains_nocase community_care_practices)
                (Frame.series df group_id_col))
    else mask in
  let mask := or_city_specialty df city_cols mask in
  or_contains_nocase df address_patterns address_cols mask.

Definition find_community_care_providers (df : DataFrame) : DataFrame :=
  if Frame.empty df then df
  else Frame.boolean_index df (community_care_mask df).

(** The four match rules, read on one row. *)
Module Rule.

Definition some_col (df : DataFrame) (cols : list string)
    (test : Cell -> bool) (r : Row) : bool :=
  existsb (fun col => Frame.has_column df col && test (Frame.cell df col r)) cols.

(** (a) an organization-name column holds one of the practice names. *)
Definition org_name (df : DataFrame) (r : Row) : bool :=
  some_col df org_name_cols (Frame.str_contains_nocase community_care_practices) r.

(** (b) the group-identifier column holds one of the practice names. *)
Definition group_id (df : DataFrame) (r : Row) : bool :=
  some_col df [group_id_col] (Frame.str_contains_nocase community_care_practices) r.

(** (c) a city column names a known city and a specialty column names a
    known specialty. *)
Definition city_specialty (df : DataFrame) (r : Row) : bool :=
  some_col df city_cols (Frame.str_upper_contains upstate_cities) r
  && some_col df specialty_cols (Frame.str_upper_contains common_specialties) r.

(** (d) a street-address column holds one of the known addresses. *)
Definition address (df : DataFrame) (r : Row) : bool :=
  some_col df address_cols (Frame.str_contains_nocase address_patterns) r.

Definition any (df : DataFrame) (r : Row) : bool :=
  org_name df r || group_id df r || city_specialty df r || address df r.

End Rule.

(** ** [analyze_provider_metrics] *)

Definition column_mappings : list (string * list string) :=
  [ ("provider_id", [ "Rndrng_Prvdr_NPI"; "NPI"; "Provider_NPI" ]);
    ("provider_last_name",
       [ "Rndrng_Prvdr_Last_Org_Name"; "Last_Name"; "Rndrng_Prvdr_Last_Name" ]);
    ("provider_first_name", [ "Rndrng_Prvdr_First_Name"; "First_Name" ]);
    ("provider_middle_initial", [ "Rndrng_Prvdr_MI"; "MI"; "Middle_Initial" ]);
    ("provider_credentials", [ "Rndrng_Prvdr_Crdntls"; "Credentials"; "Crdntls" ]);
    ("provider_gender", [ "Rndrng_Prvdr_Gndr"; "Gender"; "Gndr" ]);
    ("provider_entity_code", [ "Rndrng_Prvdr_Ent_Cd"; "Entity_Code"; "Ent_Cd" ]);
    ("provider_entity_description",
       [ "Rndrng_Prvdr_Ent_Desc"; "Entity_Description"; "Ent_Desc" ]);
    ("provider_type", [ "Rndrng_Prvdr_Type"; "Provider_Type"; "Specialty" ]);
    ("total_beneficiaries", [ "Tot_Benes"; "Beneficiaries"; "Bene_Cnt" ]);
    ("total_services", [ "Tot_Srvcs"; "Services"; "Srvc_Cnt" ]);
    ("total_bene_day_services", [ "Tot_Bene_Day_Srvcs"; "Bene_Day_Srvcs" ]);
    ("avg_submitted_charge", [ "Avg_Sbmtd_Chrg"; "Submitted_Charge"; "Sbmtd_Chrg" ]);
    ("avg_medicare_allowed_amount",
       [ "Avg_Mdcr_Alowd_Amt"; "Medicare_Allowed"; "Alowd_Amt" ]);
    ("avg_medicare_payment_amount",
       [ "Avg_Mdcr_Pymt_Amt"; "Medicare_Payment"; "Pymt_Amt" ]);
    ("avg_medicare_standardized_amount",
       [ "Avg_Mdcr_Stdzd_Amt"; "Medicare_Standardized"; "Stdzd_Amt" ]) ].

(** The state of the scan: the list [available_cols] and the dictionary
    [col_mapping]. *)
Definition Scan : Type := (list string * gmap string string)%type.

(** The inner loop
    [for col in possible_cols:
         if col in df.columns:
             available_cols.append(col); col_mapping[col] = standard_col; break]. *)
Fixpoint scan_aliases (df : DataFrame) (standard_col : string)
    (possible_cols : list string) (st : Scan) : Scan :=
  match possible_cols with
  | [] => st
  | col :: rest =>
      if Frame.has_column df col
      then (fst st ++ [col], <[col := standard_col]> (snd st))
      else scan_aliases df standard_col rest st
  end.

(** The outer loop [for standard_col, possible_cols in column_mappings.items()]. *)
Fixpoint scan_mappings (df : DataFrame) (mappings : list (string * list string))
    (st : Scan) : Scan :=
  match mappings with
  | [] => st
  | (standard_col, possible_cols) :: rest =>
      scan_mappings df rest (scan_aliases df standard_col possible_cols st)
  end.

(** [df[cols]] for labels that are columns of [df]. *)
Definition project (df : DataFrame) (cols : list string) : DataFrame :=
  mkDataFrame cols (map (fun r => map (fun col => Frame.cell df col r) cols) (rows df)).

(** [df.rename(columns=mapping)] *)
Definition rename (df : DataFrame) (mapping : gmap string string) : DataFrame :=
  mkDataFrame (map (fun col => default col (mapping !! col)) (columns df)) (rows df).

Definition analyze_provider_metrics (df : DataFrame) : DataFrame :=
  if Frame.empty df then Frame.blank
  else
    let st := scan_mappings df column_mappings ([], ∅) in
    let available_cols := fst st in
    let col_mapping := snd st in
    match available_cols with
    | [] => Frame.head0 df
    | _ => rename (project df available_cols) col_mapping
    end.

(** The binding of one canonical field, in the words of the specification:
    the first alias of its candidate list that is a column of the table. *)
Definition first_alias (df : DataFrame) (possible_cols : list string) : option string :=
  List.find (Frame.has_column df) possible_cols.

Definition bindings_of (df : DataFrame) (mappings : list (string * list string))
    : list (string * string) :=
  flat_map
    (fun m => match first_alias df (snd m) with
              | Some alias => [ (fst m, alias) ]
              | None => []
              end)
    mappings.

(** The standardized table the specification describes: one column per
    bound canonical field, holding the cells of its alias. *)
Definition standardized (df : DataFrame) : DataFrame :=
  let bs := bindings_of df column_mappings in
  mkDataFrame (map fst bs)
    (map (fun r => map (fun b => Frame.cell df (snd b) r) bs) (rows df)).

(** The dictionary [col_mapping] after the bindings [bs] were entered. *)
Definition dict_of (bs : list (string * string)) (m : gmap string string)
    : gmap string string :=
  fold_left (fun m b => <[snd b := fst b]> m) bs m.

(** ** Sorting and grouping *)

Module Sort.

Fixpoint insert {A : Type} (le : A -> A -> bool) (x : A) (l : list A) : list A :=
  match l with
  | [] => [x]
  | y :: l' => if le x y then x :: l else y :: insert le x l'
  end.

(** A stable sort: equal elements keep their order. *)
Fixpoint sort {A : Type} (le : A -> A -> bool) (l : list A) : list A :=
  match l with
  | [] => []
  | x :: l' => insert le x (sort le l')
  end.

End Sort.

Module Group.

Definition is_nan (c : Cell) : bool :=
  match c with
  | CNaN => true
  | _ => false
  end.

(** The order of group keys: integers first, then texts. *)
Definition cell_leb (a b : Cell) : bool :=
  match a, b with
  | CInt x, CInt y => (x <=? y)%Z
  | CInt _, _ => true
  | CStr _, CInt _ => false
  | CStr s, CStr t => String.leb s t
  | CStr _, CNaN => true
  | CNaN, CNaN => true
  | CNaN, _ => false
  end.

Fixpoint key_eqb (k1 k2 : list Cell) : bool :=
  match k1, k2 with
  | [], [] => true
  | a :: k1', b :: k2' => Frame.cell_eqb a b && key_eqb k1' k2'
  | _, _ => false
  end.

Fixpoint key_leb (k1 k2 : list Cell) : bool :=
  match k1, k2 with
  | [], _ => true
  | _ :: _, [] => false
  | a :: k1', b :: k2' =>
      if Frame.cell_eqb a b then key_leb k1' k2' else cell_leb a b
  end.

(** Adds an item to the group of its key; a new key opens a group at the end. *)
Fixpoint add {A : Type} (k : list Cell) (a : A) (groups : list (list Cell * list A))
    : list (list Cell * list A) :=
  match groups with
  | [] => [ (k, [a]) ]
  | (k', items) :: rest =>
      if key_eqb k k' then (k', items ++ [a]) :: rest
      else (k', items) :: add k a rest
  end.

(** Files [items] into [groups]; an item whose key holds a missing value
    belongs to no group. *)
Definition collect_from {A : Type} (groups : list (list Cell * list A))
    (items : list (list Cell * A)) : list (list Cell * list A) :=
  fold_left
    (fun groups item =>
       if existsb is_nan (fst item) then groups else add (fst item) (snd item) groups)
    items groups.

(** The groups of [items], in the order in which the keys first occur. *)
Definition collect {A : Type} (items : list (list Cell * A)) : list (list Cell * list A) :=
  collect_from [] items.

(** The members of the group of [k]: the items filed under that key. *)
Definition members {A : Type} (k : list Cell) (items : list (list Cell * A)) : list A :=
  map snd (List.filter (fun item => key_eqb (fst item) k) items).

Fixpoint lookup {A : Type} (k : list Cell) (groups : list (list Cell * list A))
    : option (list A) :=
  match groups with
  | [] => None
  | (k', items) :: rest => if key_eqb k k' then Some items else lookup k rest
  end.

Definition filed {A : Type} (k : list Cell) (items : list (list Cell * A)) : list A :=
  if existsb is_nan k then [] else members k items.

Definition nonempty {A : Type} (l : list A) : option (list A) :=
  match l with
  | [] => None
  | _ => Some l
  end.

(** The rows of a table with their group keys. *)
Definition keyed (df : DataFrame) (keys : list string) : list (list Cell * Row) :=
  map (fun r => (map (fun k => Frame.cell df k r) keys, r)) (rows df).

(** [df.groupby(keys)]: the groups of rows, sorted by key.  A key that is
    no column raises [KeyError]; but when the keys are as many as the rows
    of the table and one of them is no column, pandas reads the list of
    keys as an array of labels, one per row, and groups by these: that
    case is outside the model. *)
Definition groupby (df : DataFrame) (keys : list string)
    : Res (list (list Cell * list Row)) :=
  match List.find (fun k => negb (Frame.has_column df k)) keys with
  | Some missing => Raise (KeyError missing)
  | None =>
      Ok (Sort.sort (fun g1 g2 => key_leb (fst g1) (fst g2)) (collect (keyed df keys)))
  end.

(** A 64-bit signed integer: the value of [z] in two's complement. *)
Definition int64 (z : Z) : Z := ((z + 2 ^ 63) mod 2 ^ 64 - 2 ^ 63)%Z.

(** [sum] of a numeric series: missing values are skipped; a text is not a
    number.  The series is of dtype [int64], and the addition wraps around
    as the machine's does. *)
Fixpoint sum (cells : list Cell) : Res Z :=
  match cells with
  | [] => Ok 0%Z
  | CInt z :: rest => try s <- sum rest in Ok (int64 (z + s))
  | CNaN :: rest => sum rest
  | CStr _ :: _ => Raise TypeError
  end.

(** The sum of the integers of a series, in unbounded arithmetic: the
    numerator of the mean, which pandas does not compute in [int64]. *)
Fixpoint exact_sum (cells : list Cell) : Res Z :=
  match cells with
  | [] => Ok 0%Z
  | CInt z :: rest => try s <- exact_sum rest in Ok (z + s)%Z
  | CNaN :: rest => exact_sum rest
  | CStr _ :: _ => Raise TypeError
  end.

(** The sum of the integers of a series. *)
Fixpoint total (cells : list Cell) : Z :=
  match cells with
  | [] => 0%Z
  | CInt z :: rest => (z + total rest)%Z
  | _ :: rest => total rest
  end.

(** The magnitudes of the integers of a series, summed. *)
Fixpoint magnitude (cells : list Cell) : Z :=
  match cells with
  | [] => 0%Z
  | CInt z :: rest => (Z.abs z + magnitude rest)%Z
  | _ :: rest => magnitude rest
  end.

(** The numbers of column [col] are small enough for every sum of them to
    be exact: below [2 ^ 53] in all, no sum over rows of the table wraps
    around in [int64], and none is rounded in [float64], the dtype of a
    numeric column that has a missing value. *)
Definition exact (df : DataFrame) (col : string) : bool :=
  (magnitude (map (Frame.cell df col) (rows df)) <? 2 ^ 53)%Z.

Definition is_text (c : Cell) : bool :=
  match c with
  | CStr _ => true
  | _ => false
  end.

(** The column [col] of [df] holds numbers and missing values only. *)
Definition numeric (df : DataFrame) (col : string) : bool :=
  forallb (fun r => negb (is_text (Frame.cell df col r))) (rows df).

(** The number of values that are not missing. *)
Definition count (cells : list Cell) : nat :=
  length (List.filter (fun c => negb (is_nan c)) cells).

(** [mean]: [None] stands for [NaN], the mean of no value. *)
Definition mean (cells : list Cell) : Res (option Q) :=
  try s <- exact_sum cells in
  match count cells with
  | O => Ok None
  | S n => Ok (Some (Qred (Qmake s (Pos.of_succ_nat n))))
  end.

(** [series.value_counts()]: the values that are not missing with their
    number of occurrences, most frequent first. *)
Definition value_counts (cells : list Cell) : list (Cell * nat) :=
  Sort.sort (fun a b => (snd b <=? snd a)%nat)
    (map (fun g => (hd CNaN (fst g), length (snd g)))
         (collect (map (fun c => ([c], c)) cells))).

(** [series.nlargest(n)] with [keep='first'] on a series indexed by keys. *)
Definition nlargest {K : Type} (n : nat) (s : list (K * Z)) : list (K * Z) :=
  firstn n (Sort.sort (fun a b => (snd b <=? snd a)%Z) s).

End Group.

(** ** The aggregate views of the provider path *)

(** The sums of [col] over the groups; a text in [col] is not a number. *)
Fixpoint group_sums (df : DataFrame) (col : string)
    (groups : list (list Cell * list Row)) : Res (list (list Cell * Z)) :=
  match groups with
  | [] => Ok []
  | (k, members) :: rest =>
      try s <- Group.sum (map (Frame.cell df col) members) in
      try sums <- group_sums df col rest in
      Ok ((k, s) :: sums)
  end.

(** [df.groupby(keys)[col].sum()] *)
Definition groupby_sum (df : DataFrame) (keys : list string) (col : string)
    : Res (list (list Cell * Z)) :=
  try groups <- Group.groupby df keys in
  if Frame.has_column df col then group_sums df col groups
  else Raise (KeyError col).

Definition get_specialty_distribution (providers_df : DataFrame) : DataFrame :=
  if negb (Frame.has_column providers_df "provider_type") || Frame.empty providers_df
  then Frame.blank
  else
    let specialty_counts :=
      Group.value_counts (Frame.series providers_df "provider_type") in
    mkDataFrame [ "Specialty"; "Count" ]
      (map (fun vc => [ fst vc; CInt (Z.of_nat (snd vc)) ]) specialty_counts).

(** The label a column of the grouped table gets in the output. *)
Definition volume_renames (col : string) : string :=
  if String.eqb col "provider_last_name" then "Provider Last/Org Name"
  else if String.eqb col "provider_first_name" then "Provider First Name"
  else if String.eqb col "provider_type" then "Specialty"
  else if String.eqb col "total_services" then "Total Services"
  else col.

Definition get_service_volume_by_provider (providers_df : DataFrame) : Res DataFrame :=
  if negb (Frame.has_column providers_df "total_services") || Frame.empty providers_df
  then Ok Frame.blank
  else if Frame.has_column providers_df "provider_last_name" then
    let group_cols :=
      [ "provider_last_name" ]
      ++ (if Frame.has_column providers_df "provider_first_name"
          then [ "provider_first_name" ] else [])
      ++ (if Frame.has_column providers_df "provider_type"
          then [ "provider_type" ] else []) in
    try sums <- groupby_sum providers_df group_cols "total_services" in
    let sorted := Sort.sort (fun a b => (snd b <=? snd a)%Z) sums in
    Ok (mkDataFrame (map volume_renames (group_cols ++ [ "total_services" ]))
          (map (fun ks => fst ks ++ [ CInt (snd ks) ]) sorted))
  else Ok Frame.blank.

(** ** The aggregate views of the provider-service path *)

Definition get_top_services (df : DataFrame) : Res DataFrame :=
  if Frame.empty df || negb (Frame.has_column df "HCPCS_Cd") then Ok Frame.blank
  else if Frame.has_column df "Tot_Srvcs" then
    try service_counts <- groupby_sum df [ "HCPCS_Cd"; "HCPCS_Desc" ] "Tot_Srvcs" in
    let service_counts := Sort.sort (fun a b => (snd b <=? snd a)%Z) service_counts in
    Ok (mkDataFrame [ "HCPCS Code"; "HCPCS Description"; "Total Services" ]
          (map (fun ks => fst ks ++ [ CInt (snd ks) ]) service_counts))
  else Ok Frame.blank.

(** [series.nunique()]: the number of distinct values that are not missing. *)
Definition nunique (cells : list Cell) : nat :=
  length (Group.collect (map (fun c => ([c], c)) cells)).

Definition get_specialty_distribution_from_services (df : DataFrame) : Res DataFrame :=
  if Frame.empty df || negb (Frame.has_column df "Rndrng_Prvdr_Type") then Ok Frame.blank
  else
    try groups <- Group.groupby df [ "Rndrng_Prvdr_Type" ] in
    if Frame.has_column df "Rndrng_NPI" then
      let specialty_counts :=
        map (fun g => (fst g, nunique (map (Frame.cell df "Rndrng_NPI") (snd g)))) groups in
      let specialty_counts :=
        Sort.sort (fun a b => (snd b <=? snd a)%nat) specialty_counts in
      Ok (mkDataFrame [ "Specialty"; "Provider Count" ]
            (map (fun kc => fst kc ++ [ CInt (Z.of_nat (snd kc)) ]) specialty_counts))
    else Raise (KeyError "Rndrng_NPI").

(** *** [get_payment_comparison] *)

(** One row of the comparison table.  A number that pandas leaves missing
    or not finite (the mean of no value, a division by zero) is [None]. *)
Record PaymentRow : Type := mkPaymentRow {
  hcpcs_code : Cell;                       (* HCPCS Code *)
  description : Cell;                      (* Description *)
  cc_allowed_amt : option Q;               (* CC Allowed Amt *)
  cc_payment_amt : option Q;               (* CC Payment Amt *)
  total_services : Z;                      (* Total Services *)
  ny_allowed_amt : option Q;               (* NY Allowed Amt *)
  ny_payment_amt : option Q;               (* NY Payment Amt *)
  allowed_difference : option Q;           (* Allowed Difference *)
  allowed_pct_difference : option Q;       (* Allowed % Difference *)
  payment_difference : option Q;           (* Payment Difference *)
  payment_pct_difference : option Q        (* Payment % Difference *)
}.

Inductive PaymentComparison : Type :=
| NoComparison                 (* pd.DataFrame() *)
| Comparison (table : list PaymentRow).

Definition required_cols : list string :=
  [ "HCPCS_Cd"; "Avg_Mdcr_Alowd_Amt"; "Avg_Mdcr_Pymt_Amt" ].

Definition q_sub (a b : option Q) : option Q :=
  match a, b with
  | Some x, Some y => Some (Qred (x - y))
  | _, _ => None
  end.

(** [(diff / base) * 100] *)
Definition q_pct (diff base : option Q) : option Q :=
  match diff, base with
  | Some d, Some b => if Qeq_bool b 0 then None else Some (Qred (d / b * 100))
  | _, _ => None
  end.

(** [groupby('HCPCS_Cd')['Tot_Srvcs'].sum()]: the summed volume per code. *)
Definition volume_by_code (df : DataFrame) : Res (list (Cell * Z)) :=
  try sums <- groupby_sum df [ "HCPCS_Cd" ] "Tot_Srvcs" in
  Ok (map (fun ks => (hd CNaN (fst ks), snd ks)) sums).


(** The distinct service codes of a table. *)
Definition service_codes (df : DataFrame) : list Cell :=
  remove_dups
    (List.filter (fun c => negb (Group.is_nan c)) (Frame.series df "HCPCS_Cd")).

(** [....nlargest(20).index.tolist()] *)
Definition top_services_of (volumes : list (Cell * Z)) : list Cell :=
  map fst (Group.nlargest 20 volumes).

(** [df[df['HCPCS_Cd'].isin(top_services)]] *)
Definition isin_rows (df : DataFrame) (top_services : list Cell) : DataFrame :=
  Frame.boolean_index df
    (map (fun c => existsb (Frame.cell_eqb c) top_services) (Frame.series df "HCPCS_Cd")).

Record CcPayment : Type := mkCcPayment {
  cc_code : Cell; cc_desc : Cell;
  cc_allowed : option Q; cc_payment : option Q; cc_services : Z
}.

Record NyPayment : Type := mkNyPayment {
  ny_code : Cell; ny_allowed : option Q; ny_payment : option Q
}.

(** The aggregation of the community-care rows by code and description. *)
Fixpoint cc_agg (df : DataFrame) (groups : list (list Cell * list Row))
    : Res (list CcPayment) :=
  match groups with
  | [] => Ok []
  | (k, members) :: rest =>
      try allowed <- Group.mean (map (Frame.cell df "Avg_Mdcr_Alowd_Amt") members) in
      try payment <- Group.mean (map (Frame.cell df "Avg_Mdcr_Pymt_Amt") members) in
      try services <- Group.sum (map (Frame.cell df "Tot_Srvcs") members) in
      try others <- cc_agg df rest in
      Ok (mkCcPayment (nth 0 k CNaN) (nth 1 k CNaN) allowed payment services :: others)
  end.

(** The aggregation of the state rows by code. *)
Fixpoint ny_agg (df : DataFrame) (groups : list (list Cell * list Row))
    : Res (list NyPayment) :=
  match groups with
  | [] => Ok []
  | (k, members) :: rest =>
      try allowed <- Group.mean (map (Frame.cell df "Avg_Mdcr_Alowd_Amt") members) in
      try payment <- Group.mean (map (Frame.cell df "Avg_Mdcr_Pymt_Amt") members) in
      try others <- ny_agg df rest in
      Ok (mkNyPayment (nth 0 k CNaN) allowed payment :: others)
  end.

(** A label that [agg] finds missing. *)
Definition require_columns (df : DataFrame) (cols : list string) : Res unit :=
  match List.find (fun c => negb (Frame.has_column df c)) cols with
  | Some missing => Raise (KeyError missing)
  | None => Ok tt
  end.

Definition compare_payments (cc : CcPayment) (ny : NyPayment) : PaymentRow :=
  let allowed_diff := q_sub (cc_allowed cc) (ny_allowed ny) in
  let payment_diff := q_sub (cc_payment cc) (ny_payment ny) in
  mkPaymentRow (cc_code cc) (cc_desc cc) (cc_allowed cc) (cc_payment cc)
    (cc_services cc) (ny_allowed ny) (ny_payment ny)
    allowed_diff (q_pct allowed_diff (ny_allowed ny))
    payment_diff (q_pct payment_diff (ny_payment ny)).

(** [cc_payments.merge(ny_payments, on='HCPCS_Cd')]: an inner join. *)
Definition merge_on_code (cc_payments : list CcPayment) (ny_payments : list NyPayment)
    : list PaymentRow :=
  flat_map
    (fun cc =>
       map (compare_payments cc)
           (List.filter (fun ny => Frame.cell_eqb (cc_code cc) (ny_code ny)) ny_payments))
    cc_payments.

Definition get_payment_comparison (community_care_df ny_providers_df : DataFrame)
    : Res PaymentComparison :=
  if Frame.empty community_care_df || Frame.empty ny_providers_df then Ok NoComparison
  else if negb (forallb (Frame.has_column community_care_df) required_cols)
  then Ok NoComparison
  else
    try top_services <-
      (if Frame.has_column community_care_df "Tot_Srvcs"
       then
         try volumes <- volume_by_code community_care_df in
         Ok (top_services_of volumes)
       else
         Ok (map fst (firstn 20
               (Group.value_counts (Frame.series community_care_df "HCPCS_Cd"))))) in
    try cc_groups <-
      Group.groupby (isin_rows community_care_df top_services)
        [ "HCPCS_Cd"; "HCPCS_Desc" ] in
    try _ <- require_columns community_care_df
               [ "Avg_Mdcr_Alowd_Amt"; "Avg_Mdcr_Pymt_Amt"; "Tot_Srvcs" ] in
    try cc_payments <- cc_agg community_care_df cc_groups in
    try _ <- require_columns ny_providers_df [ "HCPCS_Cd" ] in
    try ny_groups <-
      Group.groupby (isin_rows ny_providers_df top_services) [ "HCPCS_Cd" ] in
    try _ <- require_columns ny_providers_df
               [ "Avg_Mdcr_Alowd_Amt"; "Avg_Mdcr_Pymt_Amt" ] in
    try ny_payments <- ny_agg ny_providers_df ny_groups in
    let payment_comparison := merge_on_code cc_payments ny_payments in
    Ok (Comparison
          (Sort.sort (fun a b => (total_services b <=? total_services a)%Z)
             payment_comparison)).

(** ** [analyze_provider_service_data]: the population *)

Definition fallback_cities : list string :=
  [ "ALBANY"; "LATHAM"; "CLIFTON PARK"; "DELMAR"; "SARATOGA SPRINGS";
    "SCHENECTADY"; "NISKAYUNA"; "TROY"; "EAST GREENBUSH"; "SLINGERLANDS" ].

Definition fallback_specialties : list string :=
  [ "FAMILY PRACTICE"; "INTERNAL MEDICINE"; "PEDIATRICS";
    "OBSTETRICS/GYNECOLOGY"; "FAMILY MEDICINE"; "GENERAL PRACTICE" ].

(** The records of the state, or the whole table when it has no state column. *)
Definition ny_service_records (df : DataFrame) : DataFrame :=
  if Frame.has_column df "Rndrng_Prvdr_State_Abrvtn"
  then ny_state_rows df "Rndrng_Prvdr_State_Abrvtn"
  else df.

(** The population the views are computed on: the strict match, or the
    broader match when the strict one finds nobody. *)
Definition service_population (ny_providers : DataFrame) : DataFrame :=
  let community_care_providers := find_community_care_providers ny_providers in
  if (Frame.len community_care_providers =? 0)%nat then
    if Frame.has_column ny_providers "Rndrng_Prvdr_City" then
      let city_mask :=
        map (Frame.str_upper_contains fallback_cities)
            (Frame.series ny_providers "Rndrng_Prvdr_City") in
      let upstate_providers := Frame.boolean_index ny_providers city_mask in
      if Frame.has_column upstate_providers "Rndrng_Prvdr_Type" then
        let specialty_mask :=
          map (Frame.str_upper_contains fallback_specialties)
              (Frame.series upstate_providers "Rndrng_Prvdr_Type") in
        Frame.boolean_index upstate_providers specialty_mask
      else upstate_providers
    else Frame.head0 ny_providers
  else community_care_providers.

(** The broader match, read on one row: a known city and a primary-care
    specialty. *)
Definition fallback_match (df : DataFrame) (r : Row) : bool :=
  Rule.some_col df [ "Rndrng_Prvdr_City" ] (Frame.str_upper_contains fallback_cities) r
  && Rule.some_col df [ "Rndrng_Prvdr_Type" ]
       (Frame.str_upper_contains fallback_specialties) r.

(** ** [get_payment_statistics] *)

Record PaymentStats : Type := mkPaymentStats {
  stat_mean : Q;
  stat_median : Q;
  stat_min : Z;
  stat_max : Z
}.

Definition payment_cols : list string :=
  [ "avg_submitted_charge"; "avg_medicare_allowed_amount";
    "avg_medicare_payment_amount"; "avg_medicare_standardized_amount" ].

(** [series.dropna()] of a numeric series. *)
Fixpoint dropna (cells : list Cell) : Res (list Z) :=
  match cells with
  | [] => Ok []
  | CInt z :: rest => try zs <- dropna rest in Ok (z :: zs)
  | CNaN :: rest => dropna rest
  | CStr _ :: _ => Raise TypeError
  end.

Definition median (sorted : list Z) : Q :=
  let n := length sorted in
  if Nat.even n
  then Qred (Qmake (nth (n / 2 - 1) sorted 0%Z + nth (n / 2) sorted 0%Z) 2)
  else inject_Z (nth (n / 2) sorted 0%Z).

Definition describe (values : list Z) : PaymentStats :=
  let sorted := Sort.sort Z.leb values in
  mkPaymentStats
    (Qred (Qmake (fold_right Z.add 0%Z values) (Pos.of_nat (length values))))
    (median sorted)
    (hd 0%Z sorted)
    (List.last sorted 0%Z).

Fixpoint payment_stats_of (df : DataFrame) (cols : list string)
    : Res (list (string * PaymentStats)) :=
  match cols with
  | [] => Ok []
  | col :: rest =>
      try col_data <- dropna (Frame.series df col) in
      try stats <- payment_stats_of df rest in
      match col_data with
      | [] => Ok stats
      | _ => Ok ((col, describe col_data) :: stats)
      end
  end.

Definition get_payment_statistics (providers_df : DataFrame)
    : Res (list (string * PaymentStats)) :=
  if Frame.empty providers_df then Ok []
  else
    let available_cols := List.filter (Frame.has_column providers_df) payment_cols in
    match available_cols with
    | [] => Ok []
    | _ => payment_stats_of providers_df available_cols
    end.

(** ** Files, the network and the clock *)

(** The state the fetch stage acts on: the files, by path, and the URLs
    requested from the network so far. *)
Record World : Type := mkWorld {
  files : gmap string string;
  requests : list string
}.

(** What the stage takes from outside the repository: the CSV parser of
    pandas, the remote server, the text of a floating-point number, and the
    two views that no property below reads. *)
Record Env : Type := mkEnv {
  read_csv : string -> Res DataFrame;
  http_get : string -> Res string;
  float_repr : Q -> string;
  get_provider_metrics : DataFrame -> Res DataFrame;
  get_quality_metrics : DataFrame -> Res DataFrame
}.

(** [dir / name] of [pathlib]: an absolute [name] replaces [dir].  The
    paths are joined as they are written; [pathlib] also drops the
    components [.] and the repeated or trailing slashes, so the model is the
    code's on plain names ([plain_name]), which have none. *)
Definition is_absolute (name : string) : bool :=
  match name with
  | String c _ => Ascii.eqb c "/"
  | EmptyString => false
  end.

Definition path_join (dir name : string) : string :=
  if is_absolute name then name else dir ++ "/" ++ name.

(** A name of one path component, as the default data directory [data] and
    the names of the two data files are: of 1 to 255 characters, none of
    them a slash or the null character, and neither [.] nor [..]. *)
Definition plain_name (name : string) : bool :=
  negb (String.eqb name EmptyString) && negb (String.eqb name ".")
  && negb (String.eqb name "..")
  && (String.length name <=? 255)%nat
  && forallb (fun c => negb (Ascii.eqb c "/") && negb (Ascii.eqb c zero))
       (list_ascii_of_string name).

Definition latest_dataset_url : string :=
  "https://data.cms.gov/sites/default/files/2024-05/1570d9f0-59ef-416f-bb37-e78a7afe6f88/MUP_PHY_R24_P05_V10_D22_Prov_Svc.csv".

Definition provider_dataset_url : string :=
  "https://data.cms.gov/sites/default/files/2024-06/5aed74f7-d04e-48b4-93b3-d396a2e59c87/MUP_PHY_R24_P07_V10_D22_Prov.csv".

Definition results_dir : string := "results".

(** [download_file]: the file is written in the directory of [local_path],
    which exists when [local_filename] is a plain name ([__init__] creates
    the data directory); in a directory that does not exist [open] raises
    [FileNotFoundError], which the model leaves out. *)
Definition download_file (env : Env) (base_dir url local_filename : string) (w : World)
    : Res (string * World) :=
  let local_path := path_join base_dir local_filename in
  match files w !! local_path with
  | Some _ => Ok (local_path, w)
  | None =>
      try body <- http_get env url in
      Ok (local_path,
          mkWorld (<[local_path := body]> (files w)) (requests w ++ [url]))
  end.

(** [pd.read_csv(path)] *)
Definition read_table (env : Env) (path : string) (w : World) : Res DataFrame :=
  match files w !! path with
  | Some content => read_csv env content
  | None => Raise (IOError path)
  end.

Definition get_medicare_providers (env : Env) (base_dir : string) (w : World)
    : Res (DataFrame * World) :=
  let cached_file := path_join base_dir "medicare_providers.csv" in
  match files w !! cached_file with
  | Some _ =>
      try providers_df <- read_table env cached_file w in
      Ok (providers_df, w)
  | None =>
      try downloaded <- download_file env base_dir provider_dataset_url cached_file w in
      try providers_df <- read_table env cached_file (snd downloaded) in
      Ok (providers_df, snd downloaded)
  end.

Definition load_provider_data (env : Env) (base_dir : string) (w : World)
    : Res (DataFrame * World) :=
  try downloaded <-
    download_file env base_dir provider_dataset_url "medicare_providers.csv" w in
  try df <- read_table env (fst downloaded) (snd downloaded) in
  Ok (df, snd downloaded).

Definition load_service_data (env : Env) (base_dir : string) (w : World)
    : Res (DataFrame * World) :=
  try downloaded <-
    download_file env base_dir latest_dataset_url "medicare_services.csv" w in
  try df <- read_table env (fst downloaded) (snd downloaded) in
  Ok (df, snd downloaded).

(** *** Results and their files *)

Inductive ResultValue : Type :=
| Table (df : DataFrame)
| Payments (comparison : PaymentComparison)
| Stats (stats : list (string * PaymentStats)).

(** The dictionary [results], in insertion order. *)
Definition Results : Type := list (string * ResultValue).

(** [isinstance(value, pd.DataFrame)] *)
Definition is_frame (v : ResultValue) : bool :=
  match v with
  | Table _ | Payments _ => true
  | Stats _ => false
  end.

(** [value.empty] *)
Definition frame_empty (v : ResultValue) : bool :=
  match v with
  | Table df => Frame.empty df
  | Payments NoComparison => true
  | Payments (Comparison []) => true
  | Payments (Comparison (_ :: _)) => false
  | Stats _ => false
  end.

(** [len(value)] *)
Definition frame_len (v : ResultValue) : nat :=
  match v with
  | Table df => Frame.len df
  | Payments NoComparison => 0
  | Payments (Comparison table) => length table
  | Stats stats => length stats
  end.

Module Csv.

Definition dquote : string := String (ascii_of_nat 34) EmptyString.

Definition special (c : ascii) : bool :=
  existsb (Ascii.eqb c)
    [ ","%char; ascii_of_nat 34; ascii_of_nat 10; ascii_of_nat 13 ].

Fixpoint needs_quote (s : string) : bool :=
  match s with
  | EmptyString => false
  | String c s' => special c || needs_quote s'
  end.

(** Doubles the quotes of a field. *)
Fixpoint escape (s : string) : string :=
  match s with
  | EmptyString => EmptyString
  | String c s' =>
      if Ascii.eqb c (ascii_of_nat 34) then String c (String c (escape s'))
      else String c (escape s')
  end.

Definition field (s : string) : string :=
  if needs_quote s then dquote ++ escape s ++ dquote else s.

(** One record and its line end; a lone empty field is written quoted. *)
Definition record (fields : list string) : string :=
  match fields with
  | [ EmptyString ] => dquote ++ dquote
  | _ => Text.join "," (map field fields)
  end ++ String (ascii_of_nat 10) EmptyString.

Definition cell_text (c : Cell) : string :=
  match c with
  | CStr s => s
  | CInt z => Text.of_Z z
  | CNaN => EmptyString
  end.

(** [df.to_csv(path, index=False)] *)
Definition to_csv (df : DataFrame) : string :=
  record (columns df)
  ++ fold_right String.append EmptyString
       (map (fun r => record (map cell_text r)) (rows df)).

Definition number_text (env : Env) (q : option Q) : string :=
  match q with
  | Some x => float_repr env x
  | None => EmptyString
  end.

Definition payment_columns : list string :=
  [ "HCPCS Code"; "Description"; "CC Allowed Amt"; "CC Payment Amt";
    "Total Services"; "NY Allowed Amt"; "NY Payment Amt";
    "Allowed Difference"; "Allowed % Difference";
    "Payment Difference"; "Payment % Difference" ].

Definition payment_record (env : Env) (row : PaymentRow) : string :=
  record
    [ cell_text (hcpcs_code row); cell_text (description row);
      number_text env (cc_allowed_amt row); number_text env (cc_payment_amt row);
      Text.of_Z (total_services row);
      number_text env (ny_allowed_amt row); number_text env (ny_payment_amt row);
      number_text env (allowed_difference row);
      number_text env (allowed_pct_difference row);
      number_text env (payment_difference row);
      number_text env (payment_pct_difference row) ].

Definition payments_to_csv (env : Env) (table : list PaymentRow) : string :=
  record payment_columns
  ++ fold_right String.append EmptyString (map (payment_record env) table).

(** The text [to_csv] writes for a result that is a table. *)
Definition of_result (env : Env) (v : ResultValue) : string :=
  match v with
  | Table df => to_csv df
  | Payments NoComparison => to_csv Frame.blank
  | Payments (Comparison table) => payments_to_csv env table
  | Stats _ => EmptyString
  end.

End Csv.

(** [output_dir / f"{result_name}.csv"] *)
Definition csv_path (result_name : string) : string :=
  path_join results_dir (result_name ++ ".csv").

Definition summary_path : string := path_join results_dir "analysis_summary.csv".

(** The first loop of [save_results]: the files of the results, in order. *)
Fixpoint result_files (env : Env) (results : Results) : list (string * string) :=
  match results with
  | [] => []
  | (result_name, result_df) :: rest =>
      (if is_frame result_df && negb (frame_empty result_df)
       then [ (csv_path result_name, Csv.of_result env result_df) ]
       else [])
      ++ result_files env rest
  end.

(** [d[key] = value] on a dictionary kept in insertion order. *)
Fixpoint dict_set (key : string) (value : Cell) (d : list (string * Cell))
    : list (string * Cell) :=
  match d with
  | [] => [ (key, value) ]
  | (k, v) :: rest =>
      if String.eqb k key then (k, value) :: rest
      else (k, v) :: dict_set key value rest
  end.

Fixpoint dict_get (key : string) (d : list (string * Cell)) : option Cell :=
  match d with
  | [] => None
  | (k, v) :: rest => if String.eqb k key then Some v else dict_get key rest
  end.

(** The second loop of [save_results]: the row counts. *)
Fixpoint summary_counts (results : Results) (summary : list (string * Cell))
    : list (string * Cell) :=
  match results with
  | [] => summary
  | (result_name, result_df) :: rest =>
      summary_counts rest
        (if is_frame result_df
         then dict_set (result_name ++ "_count")
                (CInt (Z.of_nat (frame_len result_df))) summary
         else summary)
  end.

(** The dictionary [summary]; [now] is the text of
    [pd.Timestamp.now().strftime('%Y-%m-%d %H:%M:%S')]. *)
Definition summary_of (results : Results) (now : string) : list (string * Cell) :=
  summary_counts results
    [ ("timestamp", CStr now);
      ("dataset",
       CStr (if existsb (fun entry => String.eqb (fst entry) "top_services") results
             then "Provider-Service" else "Provider")) ].

(** Two summaries with the same keys and the same values, the time stamp
    apart. *)
Definition same_but_timestamp (d1 d2 : list (string * Cell)) : Prop :=
  map fst d1 = map fst d2
  /\ forall key, key <> "timestamp" -> dict_get key d1 = dict_get key d2.

(** [pd.DataFrame([summary])] *)
Definition summary_df (summary : list (string * Cell)) : DataFrame :=
  mkDataFrame (map fst summary) [ map snd summary ].

(** [save_results]: the files it writes, in order, as (path, content). *)
Definition save_results (env : Env) (results : Results) (now : string)
    : list (string * string) :=
  result_files env results
  ++ [ (summary_path, Csv.to_csv (summary_df (summary_of results now))) ].

(** The files after the writes. *)
Definition commit (writes : list (string * string)) (w : World) : World :=
  mkWorld (fold_left (fun fs wr => <[fst wr := snd wr]> fs) writes (files w))
          (requests w).

(** ** [run_analysis] *)

Definition service_file : string := "MUP_PHY_R24_P05_V10_D22_Prov_Svc.csv".

Definition analyze_provider_service_data (env : Env) (df : DataFrame) : Res Results :=
  let ny_providers := ny_service_records df in
  let community_care_providers := service_population ny_providers in
  try top_services <- get_top_services community_care_providers in
  try specialty_distribution <-
    get_specialty_distribution_from_services community_care_providers in
  try payment_comparison <-
    get_payment_comparison community_care_providers ny_providers in
  try provider_metrics <- get_provider_metrics env community_care_providers in
  try quality_metrics <- get_quality_metrics env community_care_providers in
  Ok [ ("top_services", Table top_services);
       ("specialty_distribution", Table specialty_distribution);
       ("payment_comparison", Payments payment_comparison);
       ("provider_metrics", Table provider_metrics);
       ("quality_metrics", Table quality_metrics) ].

Definition analyze_providers (medicare_providers : DataFrame) : Res Results :=
  let upstate_ny_providers := filter_upstate_ny_providers medicare_providers in
  let community_care_providers := find_community_care_providers upstate_ny_providers in
  let provider_metrics := analyze_provider_metrics community_care_providers in
  let specialty_distribution := get_specialty_distribution provider_metrics in
  try payment_stats <- get_payment_statistics provider_metrics in
  try service_volume <- get_service_volume_by_provider provider_metrics in
  Ok [ ("provider_metrics", Table provider_metrics);
       ("specialty_distribution", Table specialty_distribution);
       ("payment_stats", Stats payment_stats);
       ("service_volume", Table service_volume) ].

(** The run of the fetch stage at the time [now]: the results and the
    world it leaves. *)
Definition run_analysis (env : Env) (base_dir now : string) (w : World)
    : Res (Results * World) :=
  match files w !! path_join base_dir service_file with
  | Some content =>
      try provider_service_data <- read_csv env content in
      try results <- analyze_provider_service_data env provider_service_data in
      Ok (results, commit (save_results env results now) w)
  | None =>
      try loaded <- get_medicare_providers env base_dir w in
      try results <- analyze_providers (fst loaded) in
      Ok (results, commit (save_results env results now) (snd loaded))
  end.

(** ** The chart constructors *)

(** What the insight line of the services chart reports. *)
Record ServiceInsight : Type := mkServiceInsight {
  top_code : Cell;
  top_description : string;       (* the first 30 characters *)
  top_share : option Q;           (* the top service over the total volume *)
  top_10_share : option Q         (* the ten charted services over the total *)
}.

(** The charting library.  A figure is opaque; the library draws one from
    a table, or raises. *)
Record Plotly (Figure : Type) : Type := mkPlotly {
  draw_top_providers : DataFrame -> Res Figure;
  draw_correlation_heatmap : DataFrame -> Res Figure;
  draw_specialty_distribution : DataFrame -> Res Figure;
  draw_top_services : DataFrame -> Res Figure;
  draw_provider_metrics : DataFrame -> Res Figure;
  draw_performance_matrix : DataFrame -> Res Figure;
  draw_specialty_benchmarking : DataFrame -> Res Figure;
  draw_quality_dashboard : DataFrame -> Res Figure;
  px_bar : DataFrame -> Res Figure;
  add_annotation : Figure -> ServiceInsight -> Figure
}.
Arguments draw_top_providers {Figure} _ _.
Arguments draw_correlation_heatmap {Figure} _ _.
Arguments draw_specialty_distribution {Figure} _ _.
Arguments draw_top_services {Figure} _ _.
Arguments draw_provider_metrics {Figure} _ _.
Arguments draw_performance_matrix {Figure} _ _.
Arguments draw_specialty_benchmarking {Figure} _ _.
Arguments draw_quality_dashboard {Figure} _ _.
Arguments px_bar {Figure} _ _.
Arguments add_annotation {Figure} _ _ _.

(** [cms_data_visualizer.py], class [CMSDataVisualizer]: every constructor
    starts with [if df.empty: return None]. *)
Module Visualizer.

Definition guarded {Figure : Type} (draw : DataFrame -> Res Figure) (df : DataFrame)
    : Res (option Figure) :=
  if Frame.empty df then Ok None
  else try fig <- draw df in Ok (Some fig).

Definition create_top_providers_chart {Figure : Type} (plt : Plotly Figure)
    (df : DataFrame) : Res (option Figure) :=
  guarded (draw_top_providers plt) df.

Definition create_correlation_heatmap {Figure : Type} (plt : Plotly Figure)
    (df : DataFrame) : Res (option Figure) :=
  guarded (draw_correlation_heatmap plt) df.

Definition create_specialty_distribution_chart {Figure : Type} (plt : Plotly Figure)
    (df : DataFrame) : Res (option Figure) :=
  guarded (draw_specialty_distribution plt) df.

Definition create_top_services_chart {Figure : Type} (plt : Plotly Figure)
    (df : DataFrame) : Res (option Figure) :=
  guarded (draw_top_services plt) df.

Definition create_provider_metrics_chart {Figure : Type} (plt : Plotly Figure)
    (df : DataFrame) : Res (option Figure) :=
  guarded (draw_provider_metrics plt) df.

Definition create_provider_performance_matrix {Figure : Type} (plt : Plotly Figure)
    (df : DataFrame) : Res (option Figure) :=
  guarded (draw_performance_matrix plt) df.

Definition create_specialty_benchmarking_chart {Figure : Type} (plt : Plotly Figure)
    (df : DataFrame) : Res (option Figure) :=
  guarded (draw_specialty_benchmarking plt) df.

Definition create_quality_metrics_dashboard {Figure : Type} (plt : Plotly Figure)
    (df : DataFrame) : Res (option Figure) :=
  guarded (draw_quality_dashboard plt) df.

End Visualizer.

(** [cms_data_visualizer_simple.py], class [CMSVisualizer]: no constructor
    looks at [df.empty]. *)
Module SimpleVisualizer.

(** The order of [sort_values(ascending=False)]: missing values last. *)
Definition desc_leb (a b : Cell) : bool :=
  match a, b with
  | _, CNaN => true
  | CNaN, _ => false
  | _, _ => Group.cell_leb b a
  end.

(** [df.sort_values(col, ascending=False)] *)
Definition sort_values_desc (df : DataFrame) (col : string) : Res DataFrame :=
  if Frame.has_column df col
  then Ok (mkDataFrame (columns df)
             (Sort.sort (fun r1 r2 => desc_leb (Frame.cell df col r1) (Frame.cell df col r2))
                (rows df)))
  else Raise (KeyError col).

(** [df.head(n)] *)
Definition head (n : nat) (df : DataFrame) : DataFrame :=
  mkDataFrame (columns df) (firstn n (rows df)).

(** [df.iloc[i]] *)
Definition iloc (df : DataFrame) (i : nat) : Res Row :=
  match nth_error (rows df) i with
  | Some r => Ok r
  | None => Raise IndexError
  end.

(** [row[col]] *)
Definition item (df : DataFrame) (r : Row) (col : string) : Res Cell :=
  if Frame.has_column df col then Ok (Frame.cell df col r) else Raise (KeyError col).

(** [text[:30]]; a cell that is not a text cannot be sliced. *)
Definition first_30 (c : Cell) : Res string :=
  match c with
  | CStr s => Ok (String.substring 0 30 s)
  | _ => Raise TypeError
  end.

(** [part / whole], [None] when the quotient is not finite. *)
Definition share (part whole : Z) : option Q :=
  if (whole =? 0)%Z then None else Some (Qred (Qmake part 1 / Qmake whole 1)).

Definition number (c : Cell) : Res Z :=
  match c with
  | CInt z => Ok z
  | CNaN => Ok 0%Z
  | CStr _ => Raise TypeError
  end.

Definition create_services_chart {Figure : Type} (plt : Plotly Figure)
    (df : DataFrame) : Res (option Figure) :=
  try sorted <- sort_values_desc df "Total Services" in
  let df_sorted := head 10 sorted in
  try fig <- px_bar plt df_sorted in
  try top_service <- iloc df_sorted 0 in
  try total_volume <- Group.sum (Frame.series df "Total Services") in
  try top_10_volume <- Group.sum (Frame.series df_sorted "Total Services") in
  try code <- item df_sorted top_service "HCPCS Code" in
  try desc <- item df_sorted top_service "HCPCS Description" in
  try desc30 <- first_30 desc in
  try top_volume_cell <- item df_sorted top_service "Total Services" in
  try top_volume <- number top_volume_cell in
  Ok (Some (add_annotation plt fig
              (mkServiceInsight code desc30
                 (share top_volume total_volume)
                 (share top_10_volume total_volume)))).

End SimpleVisualizer.

(** ** Read-offs used by the further properties *)

(** The state test and the county test of the region filter, on one row. *)
Definition is_ny (df : DataFrame) (state_col : string) (r : Row) : bool :=
  Frame.eq_text ny_state_code (Frame.cell df state_col r).

Definition in_county (df : DataFrame) (county_col : string) (r : Row) : bool :=
  in_upstate_county (Text.upper (Frame.astype_str (Frame.cell df county_col r))).

(** The rows [filter_upstate_ny_providers] returns. *)
Definition region_rows (df : DataFrame) : list Row :=
  match Frame.first_present possible_state_cols df with
  | None => []
  | Some state_col =>
      let ny := List.filter (is_ny df state_col) (rows df) in
      match Frame.first_present possible_county_cols df with
      | None => ny
      | Some county_col =>
          match List.filter (in_county df county_col) ny with
          | [] => ny
          | upstate => upstate
          end
      end
  end.

(** The number of cells of a series equal to [c]. *)
Definition occurrences (c : Cell) (cells : list Cell) : nat :=
  length (List.filter (fun x => Frame.cell_eqb x c) cells).

(** The number of items filed in a list of groups. *)
Definition filed_items {A : Type} (groups : list (list Cell * list A)) : nat :=
  list_sum (map (fun g => length (snd g)) groups).

(** The key of a row under the grouping columns [keys]. *)
Definition key_of (df : DataFrame) (keys : list string) (r : Row) : list Cell :=
  map (fun k => Frame.cell df k r) keys.

(** A key without missing value. *)
Definition complete (k : list Cell) : bool := negb (existsb Group.is_nan k).

(** The sum of the integers of the column [col] over [members]. *)
Definition column_total (df : DataFrame) (col : string) (members : list Row) : Z :=
  Group.total (map (Frame.cell df col) members).

Definition zsum (l : list Z) : Z := fold_right Z.add 0%Z l.

(** The sum of the column [col] over all the groups of a grouping. *)
Definition group_volume (df : DataFrame) (col : string)
  (groups : list (list Cell * list Row)) : Z :=
  zsum (map (fun g => column_total df col (snd g)) groups).

(** The grouping columns of [get_service_volume_by_provider]. *)
Definition volume_group_cols (providers_df : DataFrame) : list string :=
  [ "provider_last_name" ]
  ++ (if Frame.has_column providers_df "provider_first_name"
      then [ "provider_first_name" ] else [])
  ++ (if Frame.has_column providers_df "provider_type"
      then [ "provider_type" ] else []).

(** The distinct values of a series, missing values apart. *)
Definition distinct (cells : list Cell) : list Cell :=
  remove_dups (List.filter (fun c => negb (Group.is_nan c)) cells).

(** ** The report stage *)

(** Both visualizers read from [results] and write the page
    [visualizations/cms_analysis.html]. *)
Definition output_dir : string := "visualizations".

Definition report_path : string := path_join output_dir "cms_analysis.html".

(** [self.results_dir / name] *)
Definition results_file (name : string) : string := path_join results_dir name.

Definition write_file (path content : string) (w : World) : World :=
  mkWorld (<[path := content]> (files w)) (requests w).

(** The parts of [CMSDataVisualizer] that stay abstract: the statistics of
    [perform_analysis] (the dictionary [analysis_results] is an [Analysis]),
    the derived columns that [create_visualizations] adds to the copy of the
    provider table, and the text of the page that [create_html_report]
    builds before it opens the file. *)
Record Dashboard (Figure Analysis : Type) : Type := mkDashboard {
  perform_analysis :
    DataFrame -> DataFrame -> DataFrame -> DataFrame -> DataFrame -> Res Analysis;
  provider_services_of : DataFrame -> Res DataFrame;
  html_content_of : list (option Figure) -> Analysis -> Res string
}.
Arguments perform_analysis {Figure Analysis} _ _ _ _ _ _.
Arguments provider_services_of {Figure Analysis} _ _.
Arguments html_content_of {Figure Analysis} _ _ _.

(** [create_html_report]: the whole body is under [try]; an exception is
    printed and nothing is written. *)
Definition create_html_report {Figure Analysis : Type} (dash : Dashboard Figure Analysis)
    (figures : list (option Figure)) (analysis_results : Analysis) (w : World) : World :=
  match html_content_of dash figures analysis_results with
  | Ok html_content => write_file report_path html_content w
  | Raise _ => w
  end.

Definition create_visualizations {Figure Analysis : Type} (env : Env) (plt : Plotly Figure)
    (dash : Dashboard Figure Analysis) (w : World) : Res World :=
  try data <- read_table env (results_file "provider_metrics.csv") w in
  try top_services <- read_table env (results_file "top_services.csv") w in
  try payment_comparison <- read_table env (results_file "payment_comparison.csv") w in
  try specialty_distribution <-
    read_table env (results_file "specialty_distribution.csv") w in
  try quality_metrics <- read_table env (results_file "quality_metrics.csv") w in
  try analysis_results <-
    perform_analysis dash data top_services payment_comparison
      specialty_distribution quality_metrics in
  try provider_services <- provider_services_of dash data in
  try top_providers <- Visualizer.create_top_providers_chart plt provider_services in
  try heatmap <- Visualizer.create_correlation_heatmap plt provider_services in
  try specialties <-
    Visualizer.create_specialty_distribution_chart plt specialty_distribution in
  try services <- Visualizer.create_top_services_chart plt top_services in
  try metrics <- Visualizer.create_provider_metrics_chart plt provider_services in
  try matrix <- Visualizer.create_provider_performance_matrix plt provider_services in
  try benchmarking <-
    Visualizer.create_specialty_benchmarking_chart plt provider_services in
  try quality <- Visualizer.create_quality_metrics_dashboard plt provider_services in
  Ok (create_html_report dash
        [ top_providers; heatmap; specialties; services;
          metrics; matrix; benchmarking; quality ]
        analysis_results w).

(** The chart constructors of [CMSVisualizer] other than
    [create_services_chart], and the text of the page that [generate_html]
    builds before it opens the file. *)
Record SimpleCharts (Figure : Type) : Type := mkSimpleCharts {
  create_specialty_chart : DataFrame -> Res Figure;
  create_payment_chart : DataFrame -> Res Figure;
  create_provider_chart : DataFrame -> Res Figure;
  create_physician_vs_average_chart : DataFrame -> Res Figure;
  create_specialty_performance_chart : DataFrame -> Res Figure;
  create_outliers_chart : DataFrame -> Res Figure;
  create_efficiency_chart : DataFrame -> Res Figure;
  create_quality_comparison_chart : DataFrame -> Res Figure;
  simple_html_content_of : list (option Figure) -> DataFrame -> Res string
}.
Arguments create_specialty_chart {Figure} _ _.
Arguments create_payment_chart {Figure} _ _.
Arguments create_provider_chart {Figure} _ _.
Arguments create_physician_vs_average_chart {Figure} _ _.
Arguments create_specialty_performance_chart {Figure} _ _.
Arguments create_outliers_chart {Figure} _ _.
Arguments create_efficiency_chart {Figure} _ _.
Arguments create_quality_comparison_chart {Figure} _ _.
Arguments simple_html_content_of {Figure} _ _ _.

Definition generate_html {Figure : Type} (charts : SimpleCharts Figure)
    (figures : list (option Figure)) (data : DataFrame) (w : World) : Res World :=
  try html_content <- simple_html_content_of charts figures data in
  Ok (write_file report_path html_content w).

(** [CMSVisualizer.create_report]: [True] with the page written, or [False]
    after any exception. *)
Definition create_report {Figure : Type} (env : Env) (plt : Plotly Figure)
    (charts : SimpleCharts Figure) (w : World) : bool * World :=
  let attempt :=
    try provider_metrics <- read_table env (results_file "provider_metrics.csv") w in
    try top_services <- read_table env (results_file "top_services.csv") w in
    try payment_comparison <- read_table env (results_file "payment_comparison.csv") w in
    try specialty_distribution <-
      read_table env (results_file "specialty_distribution.csv") w in
    try specialty_fig <- create_specialty_chart charts specialty_distribution in
    try top_services_fig <- SimpleVisualizer.create_services_chart plt top_services in
    try payment_fig <- create_payment_chart charts payment_comparison in
    try provider_fig <- create_provider_chart charts provider_metrics in
    try physician_vs_avg_fig <-
      create_physician_vs_average_chart charts provider_metrics in
    try specialty_performance_fig <-
      create_specialty_performance_chart charts provider_metrics in
    try outliers_fig <- create_outliers_chart charts provider_metrics in
    try efficiency_fig <- create_efficiency_chart charts provider_metrics in
    try quality_comparison_fig <-
      create_quality_comparison_chart charts provider_metrics in
    generate_html charts
      [ Some specialty_fig; top_services_fig; Some payment_fig; Some provider_fig;
        Some physician_vs_avg_fig; Some specialty_performance_fig; Some outliers_fig;
        Some efficiency_fig; Some quality_comparison_fig ]
      provider_metrics w in
  match attempt with
  | Ok w' => (true, w')
  | Raise _ => (false, w)
  end.

(** The number under [Total Services] in a row of the table of services. *)
Definition services_of (df : DataFrame) (r : Row) : Z :=
  match Frame.cell df "Total Services" r with
  | CInt z => z
  | _ => 0%Z
  end.

(** ** [get_provider_metrics] and [get_quality_metrics] *)

Definition lower_ascii (c : ascii) : ascii :=
  let n := nat_of_ascii c in
  if (65 <=? n)%nat && (n <=? 90)%nat then ascii_of_nat (n + 32) else c.

(** [s.lower()] *)
Fixpoint lower (s : string) : string :=
  match s with
  | EmptyString => EmptyString
  | String c s' => String (lower_ascii c) (lower s')
  end.

(** [df[cols]], for labels that are columns: the rows cut to these columns. *)
Definition take_columns (df : DataFrame) (cols : list string) : list Row :=
  map (key_of df cols) (rows df).

(** [drop_duplicates()]: the first occurrence of every row is kept; two
    missing values count as equal. *)
Fixpoint drop_duplicates_from (seen : list Row) (rs : list Row) : list Row :=
  match rs with
  | [] => []
  | r :: rest =>
      if existsb (Group.key_eqb r) seen then drop_duplicates_from seen rest
      else r :: drop_duplicates_from (r :: seen) rest
  end.

Definition drop_duplicates (rs : list Row) : list Row := drop_duplicates_from [] rs.

(** [df.groupby(keys)['HCPCS_Cd'].nunique()] *)
Definition unique_services_of (df : DataFrame) (groups : list (list Cell * list Row))
    : list (list Cell * nat) :=
  map (fun g => (fst g, nunique (map (Frame.cell df "HCPCS_Cd") (snd g)))) groups.

(** *** [get_provider_metrics] *)

Definition provider_group_cols : list string :=
  [ "Rndrng_NPI"; "Rndrng_Prvdr_Last_Org_Name"; "Rndrng_Prvdr_First_Name";
    "Rndrng_Prvdr_Type" ].

Inductive How : Type := HowSum | HowMean.

(** The dictionary [agg_metrics] with every metric the code knows. *)
Definition known_metrics : list (string * How) :=
  [ ("Tot_Srvcs", HowSum); ("Tot_Benes", HowSum);
    ("Avg_Mdcr_Alowd_Amt", HowMean); ("Avg_Mdcr_Pymt_Amt", HowMean) ].

(** An aggregated value: a sum, or a mean ([None] for the mean of no value). *)
Inductive Agg : Type :=
| Sum (z : Z)
| Mean (q : option Q).

Definition aggregate (df : DataFrame) (members : list Row) (metric : string * How)
    : Res Agg :=
  match snd metric with
  | HowSum =>
      try s <- Group.sum (map (Frame.cell df (fst metric)) members) in Ok (Sum s)
  | HowMean =>
      try m <- Group.mean (map (Frame.cell df (fst metric)) members) in Ok (Mean m)
  end.

Fixpoint aggregate_all (df : DataFrame) (members : list Row)
    (metrics : list (string * How)) : Res (list Agg) :=
  match metrics with
  | [] => Ok []
  | metric :: rest =>
      try a <- aggregate df members metric in
      try others <- aggregate_all df members rest in
      Ok (a :: others)
  end.

(** [df.groupby(keys).agg(agg_metrics)] *)
Fixpoint agg_groups (df : DataFrame) (groups : list (list Cell * list Row))
    (metrics : list (string * How)) : Res (list (list Cell * list Agg)) :=
  match groups with
  | [] => Ok []
  | (k, members) :: rest =>
      try aggs <- aggregate_all df members metrics in
      try others <- agg_groups df rest metrics in
      Ok ((k, aggs) :: others)
  end.

(** One row of the aggregated table: the values of the grouping columns,
    the aggregated metrics, and the cell under [Unique Services] when the
    table has that column. *)
Record MetricRow : Type := mkMetricRow {
  provider_key : list Cell;
  metric_values : list Agg;
  unique_services : option Cell
}.

(** What [get_provider_metrics] returns: a plain table (the empty one, or
    the count of services alone, under the labels of the source table), or
    the aggregated table under its labels. *)
Inductive ProviderMetrics : Type :=
| PlainTable (table : DataFrame)
| MetricTable (labels : list string) (records : list MetricRow).

Definition metric_renames (col : string) : string :=
  if String.eqb col "Rndrng_NPI" then "NPI"
  else if String.eqb col "Rndrng_Prvdr_Last_Org_Name" then "Last Name"
  else if String.eqb col "Rndrng_Prvdr_First_Name" then "First Name"
  else if String.eqb col "Rndrng_Prvdr_Type" then "Specialty"
  else if String.eqb col "Tot_Srvcs" then "Total Services"
  else if String.eqb col "Tot_Benes" then "Total Beneficiaries"
  else if String.eqb col "Avg_Mdcr_Alowd_Amt" then "Avg Allowed Amount"
  else if String.eqb col "Avg_Mdcr_Pymt_Amt" then "Avg Payment Amount"
  else if String.eqb col "Unique_Services" then "Unique Services"
  else col.

(** [provider_metrics.merge(unique_services[['Rndrng_NPI', 'Unique_Services']],
    on='Rndrng_NPI', how='left')]: every row of the left table, once for
    every row of the right table with the same identifier.  The identifier
    is the first grouping column. *)
Definition merge_unique_services (provider_metrics : list (list Cell * list Agg))
    (unique_services : list (Cell * nat)) : list MetricRow :=
  flat_map
    (fun pm =>
       match List.filter (fun us => Frame.cell_eqb (hd CNaN (fst pm)) (fst us))
               unique_services with
       | [] => [ mkMetricRow (fst pm) (snd pm) (Some CNaN) ]
       | matches =>
           map (fun us => mkMetricRow (fst pm) (snd pm) (Some (CInt (Z.of_nat (snd us)))))
               matches
       end)
    provider_metrics.

(** *** [get_quality_metrics] *)

Definition quality_words : list string :=
  [ "qual"; "outcome"; "complication"; "readmission" ].

(** [any(q in col.lower() for q in [...])] *)
Definition is_quality_col (col : string) : bool :=
  existsb (fun q => Text.contains q (lower col)) quality_words.

Definition name_cols : list string :=
  [ "Rndrng_Prvdr_Last_Org_Name"; "Rndrng_Prvdr_First_Name"; "Rndrng_Prvdr_Type" ].

(** One row of the table of quality averages: the identifier, the mean of
    every quality column, and the cells of the name columns. *)
Record QualityRow : Type := mkQualityRow {
  quality_npi : Cell;
  quality_means : list (option Q);
  quality_names : list Cell
}.

(** What [get_quality_metrics] returns: a plain table (the empty one, or
    the service diversity), or the table of averages under its labels. *)
Inductive QualityMetrics : Type :=
| DiversityTable (table : DataFrame)
| QualityTable (labels : list string) (records : list QualityRow).

Fixpoint mean_all (df : DataFrame) (members : list Row) (cols : list string)
    : Res (list (option Q)) :=
  match cols with
  | [] => Ok []
  | col :: rest =>
      try m <- Group.mean (map (Frame.cell df col) members) in
      try others <- mean_all df members rest in
      Ok (m :: others)
  end.

(** [df[cols].groupby('Rndrng_NPI').mean()] *)
Fixpoint mean_groups (df : DataFrame) (groups : list (list Cell * list Row))
    (cols : list string) : Res (list (Cell * list (option Q))) :=
  match groups with
  | [] => Ok []
  | (k, members) :: rest =>
      try means <- mean_all df members cols in
      try others <- mean_groups df rest cols in
      Ok ((hd CNaN k, means) :: others)
  end.

(** [left.merge(provider_names, ...)] on the identifier, an inner join:
    every row of the left table, once for every row of names with the same
    identifier; the identifier is the first cell of a row of names. *)
Definition merge_names {A B : Type} (make : Cell -> A -> list Cell -> B)
    (left : list (Cell * A)) (provider_names : list Row) : list B :=
  flat_map
    (fun l =>
       map (fun names => make (fst l) (snd l) (tl names))
           (List.filter (fun names => Frame.cell_eqb (fst l) (hd CNaN names))
              provider_names))
    left.

(** The views of the service path that [Env] leaves open. *)
Module Metrics.

Definition get_provider_metrics (df : DataFrame) : Res ProviderMetrics :=
  if Frame.empty df then Ok (PlainTable Frame.blank)
  else
    let available_cols := List.filter (Frame.has_column df) provider_group_cols in
    match available_cols with
    | [] => Ok (PlainTable Frame.blank)
    | _ =>
        let agg_metrics := List.filter (fun m => Frame.has_column df (fst m)) known_metrics in
        match agg_metrics with
        | [] =>
            try groups <- Group.groupby df available_cols in
            if Frame.has_column df "HCPCS_Cd" then
              Ok (PlainTable
                    (mkDataFrame (available_cols ++ [ "Unique_Services" ])
                       (map (fun kn => fst kn ++ [ CInt (Z.of_nat (snd kn)) ])
                            (unique_services_of df groups))))
            else Raise (KeyError "HCPCS_Cd")
        | _ =>
            try groups <- Group.groupby df available_cols in
            try provider_metrics <- agg_groups df groups agg_metrics in
            if Frame.has_column df "HCPCS_Cd" then
              try groups' <- Group.groupby df available_cols in
              let unique_services := unique_services_of df groups' in
              if existsb (String.eqb "Rndrng_NPI") available_cols then
                Ok (MetricTable
                      (map metric_renames
                         (available_cols ++ map fst agg_metrics ++ [ "Unique_Services" ]))
                      (merge_unique_services provider_metrics
                         (map (fun kn => (hd CNaN (fst kn), snd kn)) unique_services)))
              else Raise (KeyError "Rndrng_NPI")
            else
              Ok (MetricTable
                    (map metric_renames (available_cols ++ map fst agg_metrics))
                    (map (fun pm => mkMetricRow (fst pm) (snd pm) None) provider_metrics))
        end
    end.

Definition get_quality_metrics (df : DataFrame) : Res QualityMetrics :=
  if Frame.empty df then Ok (DiversityTable Frame.blank)
  else
    let quality_cols := List.filter is_quality_col (columns df) in
    let available_name_cols := List.filter (Frame.has_column df) name_cols in
    let provider_names :=
      drop_duplicates (take_columns df ("Rndrng_NPI" :: available_name_cols)) in
    if match quality_cols with [] => true | _ => false end
       && Frame.has_column df "Rndrng_NPI" && Frame.has_column df "HCPCS_Cd"
    then
      try groups <- Group.groupby df [ "Rndrng_NPI" ] in
      let service_diversity :=
        map (fun kn => (hd CNaN (fst kn), snd kn)) (unique_services_of df groups) in
      match available_name_cols with
      | [] =>
          Ok (DiversityTable
                (mkDataFrame [ "NPI"; "Service Diversity" ]
                   (map (fun sd => [ fst sd; CInt (Z.of_nat (snd sd)) ]) service_diversity)))
      | _ =>
          Ok (DiversityTable
                (mkDataFrame ([ "NPI"; "Service Diversity" ] ++ available_name_cols)
                   (merge_names
                      (fun npi n names => [ npi; CInt (Z.of_nat n) ] ++ names)
                      service_diversity provider_names)))
      end
    else
      try _ <- require_columns df ("Rndrng_NPI" :: quality_cols) in
      try groups <- Group.groupby df [ "Rndrng_NPI" ] in
      try quality_metrics <- mean_groups df groups quality_cols in
      match available_name_cols with
      | [] =>
          Ok (QualityTable ("Rndrng_NPI" :: quality_cols)
                (map (fun qm => mkQualityRow (fst qm) (snd qm) []) quality_metrics))
      | _ =>
          Ok (QualityTable ("Rndrng_NPI" :: quality_cols ++ available_name_cols)
                (merge_names mkQualityRow quality_metrics provider_names))
      end.

End Metrics.

(** The distinct combinations of the grouping columns of
    [get_provider_metrics] under which a provider is listed in the table,
    those with a missing value apart. *)
Definition provider_keys (df : DataFrame) : list (list Cell) :=
  remove_dups
    (List.filter complete
       (map (key_of df (List.filter (Frame.has_column df) provider_group_cols))
            (rows df))).

(** The number of keys that start with the identifier [npi]. *)
Definition listings (npi : Cell) (keys : list (list Cell)) : nat :=
  length (List.filter (fun k => Frame.cell_eqb (hd CNaN k) npi) keys).

(** ** Sample tables *)

Module Sample.

Definition region : DataFrame :=
  mkDataFrame [ "NPI"; "State"; "County" ]
    [ [ CInt 1; CStr "NY"; CStr "Kings" ];
      [ CInt 2; CStr "CA"; CStr "Albany" ];
      [ CInt 3; CStr "NY"; CNaN ] ].

Definition providers : DataFrame :=
  mkDataFrame
    [ "Rndrng_Prvdr_Org_Name"; "Rndrng_Prvdr_City"; "Rndrng_Prvdr_Type"; "Rndrng_Prvdr_St1" ]
    [ [ CStr "Community Care Physicians PC"; CStr "Buffalo"; CStr "Dermatology"; CStr "10 Main St" ];
      [ CStr "Smith Clinic"; CStr "Albany"; CStr "Family Practice"; CStr "5 Elm St" ];
      [ CStr "Jones Office"; CStr "Buffalo"; CStr "Dermatology"; CStr "711 Troy-Schenectady Rd" ];
      [ CStr "Doe Office"; CStr "Buffalo"; CStr "Dermatology"; CNaN ] ].

Definition address_only_row : Row :=
  [ CStr "Jones Office"; CStr "Buffalo"; CStr "Dermatology"; CStr "711 Troy-Schenectady Rd" ].

Definition unmatched : DataFrame := mkDataFrame [ "Foo" ] [ [ CInt 1 ] ].

Definition no_rows : DataFrame := mkDataFrame [ "NPI"; "Specialty" ] [].

Definition two_aliases : DataFrame :=
  mkDataFrame [ "Foo"; "Provider_Type"; "NPI"; "Rndrng_Prvdr_Type" ]
    [ [ CInt 7; CStr "second"; CInt 1003; CStr "first" ];
      [ CInt 8; CStr "zweite"; CInt 1004; CStr "erste" ] ].

(** A service table with 25 distinct codes; the code 99201 occurs twice. *)
Definition services25 : DataFrame :=
  mkDataFrame
    [ "Rndrng_NPI"; "HCPCS_Cd"; "HCPCS_Desc"; "Tot_Srvcs";
      "Avg_Mdcr_Alowd_Amt"; "Avg_Mdcr_Pymt_Amt" ]
    (map (fun n : nat =>
            [ CInt 1003000126; CInt (99200 + Z.of_nat n); CStr "Office visit";
              CInt (10 * Z.of_nat n); CInt 120; CInt 90 ])
         (seq 1 25)
     ++ [ [ CInt 1003000134; CInt 99201; CStr "Office visit"; CInt 1000; CInt 100; CNaN ] ]).

(** State records in which the strict match finds nobody. *)
Definition strangers : DataFrame :=
  mkDataFrame [ "Rndrng_Prvdr_City"; "Rndrng_Prvdr_Type" ]
    [ [ CStr "Buffalo"; CStr "Dermatology" ];
      [ CStr "Albany"; CStr "Dermatology" ];
      [ CStr "Rochester"; CStr "Family Practice" ] ].

(** State records without a specialty column. *)
Definition cities_only : DataFrame :=
  mkDataFrame [ "Rndrng_NPI"; "Rndrng_Prvdr_City" ]
    [ [ CInt 1; CStr "Buffalo" ]; [ CInt 2; CStr "Troy" ] ].

Definition service_records : DataFrame :=
  mkDataFrame
    [ "Rndrng_NPI"; "Rndrng_Prvdr_City"; "Rndrng_Prvdr_State_Abrvtn"; "Rndrng_Prvdr_Type";
      "HCPCS_Cd"; "HCPCS_Desc"; "Tot_Srvcs"; "Avg_Mdcr_Alowd_Amt"; "Avg_Mdcr_Pymt_Amt" ]
    [ [ CInt 1003000126; CStr "Albany"; CStr "NY"; CStr "Family Practice";
        CStr "99213"; CStr "Office visit, established"; CInt 120; CInt 90; CInt 70 ];
      [ CInt 1003000126; CStr "Albany"; CStr "NY"; CStr "Family Practice";
        CStr "G0008"; CStr "Flu vaccine administration"; CInt 40; CInt 30; CInt 30 ];
      [ CInt 1003000134; CStr "Troy"; CStr "NY"; CStr "Internal Medicine";
        CStr "99213"; CStr "Office visit, established"; CInt 80; CInt 100; CInt 75 ];
      [ CInt 1003000142; CStr "Buffalo"; CStr "NY"; CStr "Dermatology";
        CStr "99213"; CStr "Office visit, established"; CInt 10; CInt 110; CInt 80 ];
      [ CInt 1003000159; CStr "Albany"; CStr "CA"; CStr "Family Practice";
        CStr "99213"; CStr "Office visit, established"; CInt 500; CInt 95; CInt 72 ] ].

(** An environment without network: every file parses to [service_records]. *)
Definition env : Env :=
  mkEnv (fun _ => Ok service_records)
        (fun url => Raise (IOError url))
        (fun q => (Text.of_Z (Qnum q) ++ "/" ++ Text.of_Z (Z.pos (Qden q)))%string)
        (fun _ => Ok Frame.blank)
        (fun _ => Ok Frame.blank).

Definition results : Results :=
  [ ("provider_metrics", Table two_aliases);
    ("specialty_distribution", Table Frame.blank);
    ("payment_stats", Stats []);
    ("service_volume", Table no_rows) ].

(** A data directory that holds the provider-service file. *)
Definition cached : World :=
  mkWorld {[ "data/MUP_PHY_R24_P05_V10_D22_Prov_Svc.csv" := "Rndrng_NPI,..." ]} [].

(** A charting library that draws a figure, named by its kind, from any table. *)
Definition plotly : Plotly string :=
  mkPlotly string
    (fun _ => Ok "bar") (fun _ => Ok "heatmap") (fun _ => Ok "pie") (fun _ => Ok "bar")
    (fun _ => Ok "scatter") (fun _ => Ok "scatter") (fun _ => Ok "bar")
    (fun _ => Ok "dashboard") (fun _ => Ok "bar") (fun fig _ => fig).

(** [top_services.csv] read back with its header and no record. *)
Definition no_services : DataFrame :=
  mkDataFrame [ "HCPCS Code"; "HCPCS Description"; "Total Services" ] [].

Definition with_provider_type : DataFrame :=
  mkDataFrame [ "provider_id"; "provider_type" ]
    [ [ CInt 1; CStr "Family Practice" ];
      [ CInt 2; CStr "Cardiology" ];
      [ CInt 3; CStr "Family Practice" ] ].

(** Service records without the description of the service. *)
Definition no_description : DataFrame :=
  mkDataFrame [ "Rndrng_NPI"; "HCPCS_Cd"; "Tot_Srvcs" ]
    [ [ CInt 1003000126; CStr "99213"; CInt 120 ];
      [ CInt 1003000134; CStr "99213"; CInt 80 ];
      [ CInt 1003000134; CStr "G0008"; CInt 40 ] ].

(** Service records without the number of services. *)
Definition no_volumes : DataFrame :=
  mkDataFrame
    [ "Rndrng_NPI"; "HCPCS_Cd"; "HCPCS_Desc"; "Avg_Mdcr_Alowd_Amt"; "Avg_Mdcr_Pymt_Amt" ]
    [ [ CInt 1003000126; CStr "99213"; CStr "Office visit, established"; CInt 90; CInt 70 ];
      [ CInt 1003000134; CStr "G0008"; CStr "Flu vaccine administration"; CInt 30; CInt 30 ] ].

(** The records of one practice; the state records above have no 36415. *)
Definition practice_records : DataFrame :=
  mkDataFrame
    [ "Rndrng_NPI"; "HCPCS_Cd"; "HCPCS_Desc"; "Tot_Srvcs";
      "Avg_Mdcr_Alowd_Amt"; "Avg_Mdcr_Pymt_Amt" ]
    [ [ CInt 1003000126; CStr "99213"; CStr "Office visit, established";
        CInt 120; CInt 90; CInt 70 ];
      [ CInt 1003000134; CStr "99213"; CStr "Office visit, established";
        CInt 80; CInt 100; CInt 75 ];
      [ CInt 1003000126; CStr "36415"; CStr "Blood draw"; CInt 300; CInt 3; CInt 3 ];
      [ CInt 1003000126; CStr "G0008"; CStr "Flu vaccine administration";
        CInt 40; CInt 30; CInt 30 ] ].

(** Standardized provider records; the organization has no first name. *)
Definition volume_records : DataFrame :=
  mkDataFrame
    [ "provider_last_name"; "provider_first_name"; "provider_type"; "total_services" ]
    [ [ CStr "Smith"; CStr "Ann"; CStr "Family Practice"; CInt 120 ];
      [ CStr "CommunityCare Physicians"; CNaN; CStr "Internal Medicine"; CInt 900 ];
      [ CStr "Smith"; CStr "Ann"; CStr "Family Practice"; CInt 30 ];
      [ CStr "Jones"; CStr "Bo"; CStr "Cardiology"; CInt 200 ] ].

(** An environment with a network: every URL answers with the same file. *)
Definition online : Env :=
  mkEnv (fun _ => Ok service_records)
        (fun _ => Ok "Rndrng_NPI,...")
        (fun q => (Text.of_Z (Qnum q) ++ "/" ++ Text.of_Z (Z.pos (Qden q)))%string)
        (fun _ => Ok Frame.blank)
        (fun _ => Ok Frame.blank).

(** A data directory without any file. *)
Definition cold : World := mkWorld ∅ [].

(** Standardized provider records; no payment amount is known. *)
Definition charges : DataFrame :=
  mkDataFrame [ "provider_id"; "avg_submitted_charge"; "avg_medicare_payment_amount" ]
    [ [ CInt 1; CInt 150; CNaN ];
      [ CInt 2; CNaN; CNaN ];
      [ CInt 3; CInt 90; CNaN ];
      [ CInt 4; CInt 210; CNaN ] ].

(** A dashboard and charts that succeed on every table. *)
Definition dashboard : Dashboard string unit :=
  mkDashboard string unit
    (fun _ _ _ _ _ => Ok tt) (fun data => Ok data) (fun _ _ => Ok "<html>").

Definition simple_charts : SimpleCharts string :=
  mkSimpleCharts string
    (fun _ => Ok "pie") (fun _ => Ok "bar") (fun _ => Ok "scatter") (fun _ => Ok "scatter")
    (fun _ => Ok "bar") (fun _ => Ok "scatter") (fun _ => Ok "scatter")
    (fun _ => Ok "scatter") (fun _ _ => Ok "<html>").

(** A data directory that holds the provider file and no other. *)
Definition providers_cached : World :=
  mkWorld {[ "data/medicare_providers.csv" := "Rndrng_NPI,..." ]} [].

(** An environment in which every file parses to the provider table. *)
Definition provider_env : Env :=
  mkEnv (fun _ => Ok providers)
        (fun url => Raise (IOError url))
        (fun q => (Text.of_Z (Qnum q) ++ "/" ++ Text.of_Z (Z.pos (Qden q)))%string)
        (fun _ => Ok Frame.blank)
        (fun _ => Ok Frame.blank).

(** An environment in which every file parses to records of strangers. *)
Definition strangers_env : Env :=
  mkEnv (fun _ => Ok strangers)
        (fun url => Raise (IOError url))
        (fun q => (Text.of_Z (Qnum q) ++ "/" ++ Text.of_Z (Z.pos (Qden q)))%string)
        (fun _ => Ok Frame.blank)
        (fun _ => Ok Frame.blank).

(** [top_services.csv] read back, eleven services. *)
Definition top_services : DataFrame :=
  mkDataFrame [ "HCPCS Code"; "HCPCS Description"; "Total Services" ]
    (map (fun n : nat =>
            [ CInt (99200 + Z.of_nat n); CStr "Office visit"; CInt (10 * Z.of_nat n) ])
         (seq 1 11)).

(** Service records by specialty, without provider identifier. *)
Definition anonymous_records : DataFrame :=
  mkDataFrame [ "Rndrng_Prvdr_Type"; "HCPCS_Cd"; "Tot_Srvcs" ]
    [ [ CStr "Family Practice"; CStr "99213"; CInt 120 ];
      [ CStr "Cardiology"; CStr "93000"; CInt 15 ] ].

(** Service records of one provider listed under two specialties, and of
    another listed under one. *)
Definition two_listings : DataFrame :=
  mkDataFrame [ "Rndrng_NPI"; "Rndrng_Prvdr_Type"; "HCPCS_Cd"; "Tot_Srvcs" ]
    [ [ CInt 1003000126; CStr "Family Practice"; CStr "99213"; CInt 120 ];
      [ CInt 1003000126; CStr "Internal Medicine"; CStr "99214"; CInt 30 ];
      [ CInt 1003000126; CStr "Internal Medicine"; CStr "G0008"; CInt 10 ];
      [ CInt 1003000134; CStr "Cardiology"; CStr "93000"; CInt 15 ] ].

(** Service records of one provider whose name is spelled in two ways. *)
Definition two_spellings : DataFrame :=
  mkDataFrame [ "Rndrng_NPI"; "Rndrng_Prvdr_Last_Org_Name"; "HCPCS_Cd" ]
    [ [ CInt 1003000126; CStr "Smith"; CStr "99213" ];
      [ CInt 1003000126; CStr "SMITH"; CStr "G0008" ];
      [ CInt 1003000126; CStr "Smith"; CStr "G0008" ] ].

End Sample.

(** * Properties *)

(** ** Masks and selections *)

Section Masks.

Context {A : Type}.
Implicit Types (xs : list A) (f g : A -> bool).

Lemma select_map f xs : Frame.select (map f xs) xs = List.filter f xs.
Proof.
  induction xs as [|x xs IH]; simpl; [reflexivity|].
  rewrite IH. reflexivity.
Qed.

Lemma mask_or_map f g xs :
  Frame.mask_or (map f xs) (map g xs) = map (fun x => f x || g x) xs.
Proof.
  induction xs as [|x xs IH]; simpl; [reflexivity|].
  rewrite IH. reflexivity.
Qed.

Lemma mask_and_map f g xs :
  Frame.mask_and (map f xs) (map g xs) = map (fun x => f x && g x) xs.
Proof.
  induction xs as [|x xs IH]; simpl; [reflexivity|].
  rewrite IH. reflexivity.
Qed.

Lemma repeat_false_map xs :
  repeat false (length xs) = map (fun _ => false) xs.
Proof. induction xs as [|x xs IH]; simpl; congruence. Qed.

Lemma select_sublist (mask : list bool) xs x :
  In x (Frame.select mask xs) -> In x xs.
Proof.
  revert mask. induction xs as [|y xs IH]; intros [|b mask]; simpl; try tauto.
  destruct b; simpl; intros H.
  - destruct H as [H|H]; [left; exact H | right; eapply IH; exact H].
  - right. eapply IH. exact H.
Qed.

End Masks.

(** ** The region filter *)

Lemma ny_state_rows_spec df state_col :
  rows (ny_state_rows df state_col)
  = List.filter (fun r => Frame.eq_text ny_state_code (Frame.cell df state_col r)) (rows df).
Proof.
  unfold ny_state_rows, Frame.boolean_index, Frame.series. simpl.
  rewrite map_map. apply select_map.
Qed.

Lemma filter_upstate_cases df state_col :
  Frame.first_present possible_state_cols df = Some state_col ->
  let ny := ny_state_rows df state_col in
  filter_upstate_ny_providers df = ny
  \/ exists county_col,
       Frame.first_present possible_county_cols df = Some county_col
       /\ filter_upstate_ny_providers df
          = Frame.boolean_index ny (upstate_mask ny county_col)
       /\ rows (Frame.boolean_index ny (upstate_mask ny county_col)) <> [].
Proof.
  intros Hs ny. unfold filter_upstate_ny_providers. rewrite Hs. fold ny.
  destruct (Frame.first_present possible_county_cols df) as [county_col|]; [|left; reflexivity].
  destruct (0 <? Frame.len _)%nat eqn:E; [|left; reflexivity].
  right. exists county_col. repeat split.
  apply Nat.ltb_lt in E. unfold Frame.len in E.
  intros H. rewrite H in E. simpl in E. lia.
Qed.

(** C3. Region-narrowing fallback: when the state-level filter keeps at
    least one row and the county-name filter keeps none of them,
    [filter_upstate_ny_providers] returns the whole state-level table. *)
Theorem region_fallback_returns_state_level (df : DataFrame) (state_col county_col : string) :
  Frame.first_present possible_state_cols df = Some state_col ->
  Frame.first_present possible_county_cols df = Some county_col ->
  let ny_providers := ny_state_rows df state_col in
  (0 < Frame.len ny_providers)%nat ->
  Frame.len (Frame.boolean_index ny_providers (upstate_mask ny_providers county_col)) = 0%nat ->
  filter_upstate_ny_providers df = ny_providers
  /\ rows (filter_upstate_ny_providers df)
     = List.filter (fun r => Frame.eq_text ny_state_code (Frame.cell df state_col r)) (rows df)
  /\ rows (filter_upstate_ny_providers df) <> [].
Proof.
  intros Hs Hc ny Hny Hup.
  assert (E : filter_upstate_ny_providers df = ny).
  { unfold filter_upstate_ny_providers. rewrite Hs, Hc. fold ny.
    rewrite Hup. reflexivity. }
  rewrite E. split; [reflexivity|]. split.
  - apply ny_state_rows_spec.
  - unfold Frame.len in Hny. destruct (rows ny); simpl in *; [lia|discriminate].
Qed.

Lemma region_fallback_returns_state_level_witness :
  filter_upstate_ny_providers Sample.region = ny_state_rows Sample.region "State"
  /\ rows (filter_upstate_ny_providers Sample.region)
     = List.filter (fun r => Frame.eq_text ny_state_code (Frame.cell Sample.region "State" r))
         (rows Sample.region)
  /\ rows (filter_upstate_ny_providers Sample.region) <> [].
Proof.
  apply (region_fallback_returns_state_level Sample.region "State" "County").
  - reflexivity.
  - reflexivity.
  - vm_compute. lia.
  - reflexivity.
Defined.

Lemma eq_text_true text c : Frame.eq_text text c = true -> c = CStr text.
Proof.
  destruct c as [s| |]; simpl; try discriminate.
  intros H. apply String.eqb_eq in H. congruence.
Qed.

Lemma filter_upstate_columns df :
  columns (filter_upstate_ny_providers df) = columns df.
Proof.
  unfold filter_upstate_ny_providers.
  destruct (Frame.first_present possible_state_cols df); [|reflexivity].
  destruct (Frame.first_present possible_county_cols df); [|reflexivity].
  destruct (0 <? _)%nat; reflexivity.
Qed.

(** C9. With a recognized state column, every row that
    [filter_upstate_ny_providers] returns is a row of the input whose state
    cell is ["NY"], on the county path and on the fallback path alike. *)
Theorem region_filter_rows_are_ny (df : DataFrame) (state_col : string) :
  Frame.first_present possible_state_cols df = Some state_col ->
  columns (filter_upstate_ny_providers df) = columns df
  /\ forall r : Row,
       In r (rows (filter_upstate_ny_providers df)) ->
       In r (rows df)
       /\ Frame.cell (filter_upstate_ny_providers df) state_col r = CStr ny_state_code.
Proof.
  intros Hs. split; [apply filter_upstate_columns|].
  intros r Hr.
  assert (Hcell : forall q, Frame.cell (filter_upstate_ny_providers df) state_col q
                            = Frame.cell df state_col q).
  { intros q. unfold Frame.cell. rewrite filter_upstate_columns. reflexivity. }
  rewrite Hcell.
  assert (Hny : In r (rows (ny_state_rows df state_col))).
  { destruct (filter_upstate_cases df state_col Hs) as [E|(county_col & _ & E & _)];
      rewrite E in Hr; [exact Hr|].
    simpl in Hr. eapply select_sublist. exact Hr. }
  rewrite ny_state_rows_spec in Hny.
  apply filter_In in Hny. destruct Hny as [Hin Heq].
  split; [exact Hin|]. apply eq_text_true. exact Heq.
Qed.

Lemma region_filter_rows_are_ny_witness :
  columns (filter_upstate_ny_providers Sample.region) = columns Sample.region
  /\ forall r : Row,
       In r (rows (filter_upstate_ny_providers Sample.region)) ->
       In r (rows Sample.region)
       /\ Frame.cell (filter_upstate_ny_providers Sample.region) "State" r = CStr ny_state_code.
Proof.
  apply (region_filter_rows_are_ny Sample.region "State"). reflexivity.
Defined.

(** ** The target-population match *)

Lemma or_contains_nocase_spec df words cols (f : Row -> bool) :
  or_contains_nocase df words cols (map f (rows df))
  = map (fun r => f r || Rule.some_col df cols (Frame.str_contains_nocase words) r)
        (rows df).
Proof.
  revert f. induction cols as [|col cols IH]; intros f; simpl.
  - apply map_ext. intros r. rewrite orb_false_r. reflexivity.
  - destruct (Frame.has_column df col) eqn:Hc.
    + unfold Frame.series. rewrite map_map, mask_or_map, IH.
      apply map_ext. intros r. simpl. rewrite orb_assoc. reflexivity.
    + rewrite IH. apply map_ext. intros r. reflexivity.
Qed.

Lemma or_specialty_spec df (c f : Row -> bool) cols :
  or_specialty df (map c (rows df)) cols (map f (rows df))
  = map (fun r => f r
                  || (c r && Rule.some_col df cols
                               (Frame.str_upper_contains common_specialties) r))
        (rows df).
Proof.
  revert f. induction cols as [|col cols IH]; intros f; simpl.
  - apply map_ext. intros r. rewrite andb_false_r, orb_false_r. reflexivity.
  - destruct (Frame.has_column df col) eqn:Hc.
    + unfold Frame.series. rewrite map_map, mask_and_map, mask_or_map, IH.
      apply map_ext. intros r. simpl.
      rewrite andb_orb_distrib_r, orb_assoc. reflexivity.
    + rewrite IH. apply map_ext. intros r. reflexivity.
Qed.

Lemma existsb_id_false {A : Type} (c : A -> bool) (xs : list A) :
  existsb (fun b => b) (map c xs) = false -> forall x, In x xs -> c x = false.
Proof.
  induction xs as [|y xs IH]; simpl; [tauto|].
  intros H x [->|Hx].
  - apply orb_false_iff in H. tauto.
  - apply orb_false_iff in H. apply IH; tauto.
Qed.

Lemma or_city_specialty_spec df cols (f : Row -> bool) :
  or_city_specialty df cols (map f (rows df))
  = map (fun r => f r
                  || (Rule.some_col df cols (Frame.str_upper_contains upstate_cities) r
                      && Rule.some_col df specialty_cols
                           (Frame.str_upper_contains common_specialties) r))
        (rows df).
Proof.
  revert f. induction cols as [|col cols IH]; intros f;
    cbn [or_city_specialty Rule.some_col existsb].
  - apply map_ext. intros r. rewrite orb_false_r. reflexivity.
  - destruct (Frame.has_column df col) eqn:Hc.
    + unfold Frame.series. rewrite map_map.
      destruct (existsb (fun b => b) (map _ (rows df))) eqn:Hany.
      * rewrite or_specialty_spec, IH. apply map_ext. intros r.
        rewrite andb_orb_distrib_l, orb_assoc. reflexivity.
      * rewrite IH. apply map_ext_in. intros r Hr.
        rewrite (existsb_id_false _ _ Hany r Hr). reflexivity.
    + rewrite IH. apply map_ext. intros r. reflexivity.
Qed.

Lemma community_care_mask_spec df :
  community_care_mask df = map (Rule.any df) (rows df).
Proof.
  unfold community_care_mask, Frame.len.
  rewrite repeat_false_map, or_contains_nocase_spec.
  assert (E : (if Frame.has_column df group_id_col
               then Frame.mask_or
                      (map (fun r => false || Rule.org_name df r) (rows df))
                      (map (Frame.str_contains_nocase community_care_practices)
                           (Frame.series df group_id_col))
               else map (fun r => false || Rule.org_name df r) (rows df))
              = map (fun r => Rule.org_name df r || Rule.group_id df r) (rows df)).
  { unfold Rule.group_id, Rule.some_col. simpl.
    destruct (Frame.has_column df group_id_col).
    - unfold Frame.series. rewrite map_map, mask_or_map.
      apply map_ext. intros r. simpl. rewrite orb_false_r. reflexivity.
    - apply map_ext. intros r. simpl. rewrite orb_false_r. reflexivity. }
  unfold Rule.org_name in E at 1 2. rewrite E.
  rewrite or_city_specialty_spec, or_contains_nocase_spec.
  apply map_ext. intros r. reflexivity.
Qed.

Lemma find_community_care_rows df :
  Frame.empty df = false ->
  rows (find_community_care_providers df) = List.filter (Rule.any df) (rows df).
Proof.
  intros Hne. unfold find_community_care_providers. rewrite Hne. simpl.
  rewrite community_care_mask_spec. apply select_map.
Qed.



Example address_only_row_is_kept :
  Rule.address Sample.providers Sample.address_only_row = true
  /\ Rule.org_name Sample.providers Sample.address_only_row = false
  /\ Rule.group_id Sample.providers Sample.address_only_row = false
  /\ Rule.city_specialty Sample.providers Sample.address_only_row = false
  /\ rows (find_community_care_providers Sample.providers)
     = firstn 3 (rows Sample.providers).
Proof. vm_compute. repeat split. Qed.

Example search_words_are_literal :
  forallb Text.is_literal
    (community_care_practices ++ upstate_cities ++ common_specialties ++ address_patterns)
  = true.
Proof. vm_compute. reflexivity. Qed.

(** ** Column standardization *)

Lemma scan_aliases_spec df standard_col possible_cols st :
  scan_aliases df standard_col possible_cols st
  = match first_alias df possible_cols with
    | Some alias => (fst st ++ [alias], <[alias := standard_col]> (snd st))
    | None => st
    end.
Proof.
  unfold first_alias.
  induction possible_cols as [|col rest IH]; simpl; [reflexivity|].
  destruct (Frame.has_column df col); [reflexivity | exact IH].
Qed.

Lemma scan_mappings_spec df mappings st :
  scan_mappings df mappings st
  = (fst st ++ map snd (bindings_of df mappings),
     dict_of (bindings_of df mappings) (snd st)).
Proof.
  revert st. induction mappings as [|[standard_col possible_cols] rest IH]; intros st.
  - simpl. rewrite app_nil_r. destruct st; reflexivity.
  - cbn [scan_mappings bindings_of flat_map fst snd].
    rewrite IH, scan_aliases_spec.
    destruct (first_alias df possible_cols) as [alias|]; simpl.
    + rewrite <- app_assoc. reflexivity.
    + reflexivity.
Qed.

Lemma dict_of_other bs m (a : string) :
  a ∉ map snd bs -> dict_of bs m !! a = m !! a.
Proof.
  revert m. induction bs as [|[std b] bs IH]; intros m Hnot; [reflexivity|].
  simpl in *. apply not_elem_of_cons in Hnot as [Hne Hnot].
  unfold dict_of in *. simpl. rewrite IH by exact Hnot.
  apply lookup_insert_ne. congruence.
Qed.

Lemma dict_of_bound bs m std a :
  NoDup (map snd bs) -> (std, a) ∈ bs -> dict_of bs m !! a = Some std.
Proof.
  revert m. induction bs as [|[std' b] bs IH]; intros m Hnd Hin.
  - inversion Hin.
  - simpl in Hnd. apply NoDup_cons in Hnd as [Hfresh Hnd].
    apply elem_of_cons in Hin as [Heq|Hin].
    + inversion Heq; subst. unfold dict_of. simpl.
      change (dict_of bs (<[b:=std']> m) !! b = Some std').
      rewrite dict_of_other by exact Hfresh. apply lookup_insert_eq.
    + unfold dict_of. simpl. apply IH; assumption.
Qed.

Lemma bindings_aliases_known df mappings a :
  a ∈ map snd (bindings_of df mappings) -> a ∈ flat_map snd mappings.
Proof.
  induction mappings as [|[std al] rest IH]; simpl; [tauto|].
  unfold first_alias. destruct (List.find _ al) as [alias|] eqn:Hf; simpl.
  - intros Hin. apply elem_of_app. apply elem_of_cons in Hin as [->|Hin].
    + left. apply list_elem_of_In. apply (find_some _ _ Hf).
    + right. apply IH. exact Hin.
  - intros Hin. apply elem_of_app. right. apply IH. exact Hin.
Qed.

Lemma bindings_aliases_nodup df mappings :
  NoDup (flat_map snd mappings) -> NoDup (map snd (bindings_of df mappings)).
Proof.
  induction mappings as [|[std al] rest IH]; simpl; [constructor|].
  intros Hnd. apply NoDup_app in Hnd as (Hal & Hdisj & Hrest).
  unfold first_alias. destruct (List.find _ al) as [alias|] eqn:Hf; simpl.
  - apply NoDup_cons. split; [|apply IH; exact Hrest].
    intros Hin. apply bindings_aliases_known in Hin.
    apply (Hdisj alias); [|exact Hin].
    apply list_elem_of_In. apply (find_some _ _ Hf).
  - apply IH. exact Hrest.
Qed.

Lemma column_aliases_distinct : NoDup (flat_map snd column_mappings).
Proof. apply (bool_decide_unpack _). vm_compute. reflexivity. Qed.

Lemma rename_bindings bs :
  NoDup (map snd bs) ->
  map (fun col => default col (dict_of bs ∅ !! col)) (map snd bs) = map fst bs.
Proof.
  intros Hnd. rewrite map_map. apply map_ext_in. intros [std a] Hin. simpl.
  rewrite (dict_of_bound bs ∅ std a Hnd); [reflexivity|].
  apply list_elem_of_In. exact Hin.
Qed.

Lemma analyze_provider_metrics_standardized df :
  Frame.empty df = false ->
  bindings_of df column_mappings <> [] ->
  analyze_provider_metrics df = standardized df.
Proof.
  intros Hne Hbs. unfold analyze_provider_metrics. rewrite Hne.
  rewrite scan_mappings_spec. cbn [fst snd app].
  destruct (map snd (bindings_of df column_mappings)) eqn:Hav.
  - destruct (bindings_of df column_mappings); [congruence|discriminate].
  - rewrite <- Hav. unfold rename, project, standardized. cbn [columns rows].
    rewrite rename_bindings
      by (apply bindings_aliases_nodup, column_aliases_distinct).
    f_equal. apply map_ext. intros r. rewrite map_map. reflexivity.
Qed.

Lemma bindings_fields_known df mappings std :
  std ∈ map fst (bindings_of df mappings) -> std ∈ map fst mappings.
Proof.
  induction mappings as [|[s al] rest IH]; simpl; [tauto|].
  destruct (first_alias df al); simpl; intros Hin.
  - apply elem_of_cons in Hin as [->|Hin]; [left | right; apply IH; exact Hin].
  - right. apply IH. exact Hin.
Qed.

Lemma bindings_fields_nodup df mappings :
  NoDup (map fst mappings) -> NoDup (map fst (bindings_of df mappings)).
Proof.
  induction mappings as [|[s al] rest IH]; simpl; [constructor|].
  intros Hnd. apply NoDup_cons in Hnd as [Hfresh Hnd].
  destruct (first_alias df al); simpl; [|apply IH; exact Hnd].
  apply NoDup_cons. split; [|apply IH; exact Hnd].
  intros Hin. apply Hfresh. eapply bindings_fields_known. exact Hin.
Qed.

Lemma canonical_fields_distinct : NoDup (map fst column_mappings).
Proof. apply (bool_decide_unpack _). vm_compute. reflexivity. Qed.

Lemma bindings_of_In df mappings std alias :
  In (std, alias) (bindings_of df mappings) <->
  exists possible_cols,
    In (std, possible_cols) mappings /\ first_alias df possible_cols = Some alias.
Proof.
  unfold bindings_of. rewrite in_flat_map. split.
  - intros ([s al] & Hin & Hb). simpl in Hb.
    destruct (first_alias df al) as [a|] eqn:Hf; [|destruct Hb].
    destruct Hb as [Hb|[]]. inversion Hb; subst. exists al. split; assumption.
  - intros (al & Hin & Hf). exists (std, al). split; [exact Hin|].
    simpl. rewrite Hf. left. reflexivity.
Qed.

Lemma position_bound (bs : list (string * string)) std alias :
  NoDup (map fst bs) -> In (std, alias) bs ->
  exists i, Frame.position std (map fst bs) = Some i /\ nth_error bs i = Some (std, alias).
Proof.
  induction bs as [|[s a] bs IH]; simpl; [tauto|].
  intros Hnd Hin. apply NoDup_cons in Hnd as [Hfresh Hnd].
  destruct Hin as [Heq|Hin].
  - inversion Heq; subst. rewrite String.eqb_refl. exists 0%nat. split; reflexivity.
  - destruct (String.eqb std s) eqn:E.
    + apply String.eqb_eq in E. subst s. exfalso. apply Hfresh.
      apply list_elem_of_In. apply (in_map fst) in Hin. exact Hin.
    + destruct (IH Hnd Hin) as (i & Hp & Hn). exists (S i).
      rewrite Hp. split; [reflexivity | exact Hn].
Qed.

Lemma first_alias_split df possible_cols alias :
  first_alias df possible_cols = Some alias ->
  exists pre post,
    possible_cols = pre ++ alias :: post
    /\ Frame.has_column df alias = true
    /\ forall a, In a pre -> Frame.has_column df a = false.
Proof.
  unfold first_alias.
  induction possible_cols as [|col rest IH]; simpl; [discriminate|].
  destruct (Frame.has_column df col) eqn:Hc.
  - intros H. inversion H; subst. exists [], rest. repeat split; [exact Hc|].
    intros a [].
  - intros H. destruct (IH H) as (pre & post & -> & Ha & Hpre).
    exists (col :: pre), post. repeat split; [exact Ha|].
    intros a [<-|Hin]; [exact Hc | apply Hpre; exact Hin].
Qed.

Lemma standardized_series df std alias :
  In (std, alias) (bindings_of df column_mappings) ->
  Frame.series (standardized df) std = Frame.series df alias.
Proof.
  intros Hin.
  destruct (position_bound _ std alias
              (bindings_fields_nodup df _ canonical_fields_distinct) Hin)
    as (i & Hp & Hn).
  unfold Frame.series, standardized. cbn [rows columns].
  rewrite map_map. apply map_ext. intros r.
  unfold Frame.cell at 1. cbn [columns]. rewrite Hp.
  apply nth_error_nth.
  rewrite nth_error_map, Hn. reflexivity.
Qed.

(** C4 (as amended). On a non-empty table that has a column among the
    aliases, [analyze_provider_metrics] yields the standardized table: one
    column per canonical field that has an alias among the columns, bound
    to the first such alias of its candidate list whatever later aliases
    are present, and no other column. *)
Theorem standardization_binds_first_alias (df : DataFrame) :
  Frame.empty df = false ->
  bindings_of df column_mappings <> [] ->
  analyze_provider_metrics df = standardized df
  /\ (forall standard_col possible_cols alias,
        In (standard_col, possible_cols) column_mappings ->
        first_alias df possible_cols = Some alias ->
        (exists pre post,
           possible_cols = pre ++ alias :: post
           /\ Frame.has_column df alias = true
           /\ forall a, In a pre -> Frame.has_column df a = false)
        /\ In standard_col (columns (analyze_provider_metrics df))
        /\ Frame.series (analyze_provider_metrics df) standard_col
           = Frame.series df alias)
  /\ (forall col,
        In col (columns (analyze_provider_metrics df)) ->
        exists possible_cols alias,
          In (col, possible_cols) column_mappings
          /\ first_alias df possible_cols = Some alias)
  /\ Frame.len (analyze_provider_metrics df) = Frame.len df.
Proof.
  intros Hne Hbs.
  rewrite (analyze_provider_metrics_standardized df Hne Hbs).
  split; [reflexivity|]. split; [|split].
  - intros std al alias Hin Hf.
    assert (Hb : In (std, alias) (bindings_of df column_mappings)).
    { apply bindings_of_In. exists al. split; assumption. }
    split; [apply first_alias_split; exact Hf|]. split.
    + unfold standardized. cbn [columns].
      apply (in_map fst) in Hb. exact Hb.
    + apply standardized_series. exact Hb.
  - intros col Hin. unfold standardized in Hin. cbn [columns] in Hin.
    apply in_map_iff in Hin as ([std alias] & <- & Hb).
    apply bindings_of_In in Hb as (al & Hm & Hf). exists al, alias. split; assumption.
  - unfold Frame.len, standardized. cbn [rows]. apply length_map.
Qed.

Lemma standardization_binds_first_alias_witness :
  analyze_provider_metrics Sample.two_aliases = standardized Sample.two_aliases
  /\ (forall standard_col possible_cols alias,
        In (standard_col, possible_cols) column_mappings ->
        first_alias Sample.two_aliases possible_cols = Some alias ->
        (exists pre post,
           possible_cols = pre ++ alias :: post
           /\ Frame.has_column Sample.two_aliases alias = true
           /\ forall a, In a pre -> Frame.has_column Sample.two_aliases a = false)
        /\ In standard_col (columns (analyze_provider_metrics Sample.two_aliases))
        /\ Frame.series (analyze_provider_metrics Sample.two_aliases) standard_col
           = Frame.series Sample.two_aliases alias)
  /\ (forall col,
        In col (columns (analyze_provider_metrics Sample.two_aliases)) ->
        exists possible_cols alias,
          In (col, possible_cols) column_mappings
          /\ first_alias Sample.two_aliases possible_cols = Some alias)
  /\ Frame.len (analyze_provider_metrics Sample.two_aliases) = Frame.len Sample.two_aliases.
Proof.
  apply (standardization_binds_first_alias Sample.two_aliases).
  - reflexivity.
  - vm_compute. discriminate.
Defined.

Example two_aliases_standardized :
  analyze_provider_metrics Sample.two_aliases
  = mkDataFrame [ "provider_id"; "provider_type" ]
      [ [ CInt 1003; CStr "first" ]; [ CInt 1004; CStr "erste" ] ].
Proof. vm_compute. reflexivity. Qed.

(** C4, the claim as stated fails: with no alias among the columns the
    function returns [df.head(0)], which keeps the unmatched column; and on
    a table without rows it returns [pd.DataFrame()], which binds no field
    although the alias [NPI] is a column. *)
Lemma standardization_keeps_unmatched_column :
  In "Foo" (columns (analyze_provider_metrics Sample.unmatched))
  /\ ~ In "Foo" (flat_map snd column_mappings)
  /\ first_alias Sample.no_rows [ "Rndrng_Prvdr_NPI"; "NPI"; "Provider_NPI" ] = Some "NPI"
  /\ ~ In "provider_id" (columns (analyze_provider_metrics Sample.no_rows)).
Proof.
  split; [vm_compute; tauto|]. split.
  - intros H. apply list_elem_of_In in H. revert H.
    apply (bool_decide_unpack _). vm_compute. reflexivity.
  - split; [reflexivity|]. vm_compute. tauto.
Qed.

(** ** Sorting *)

Section SortFacts.

Context {A : Type} (le : A -> A -> bool).

Lemma insert_perm x l : Permutation (Sort.insert le x l) (x :: l).
Proof.
  induction l as [|y l IH]; simpl; [reflexivity|].
  destruct (le x y); [reflexivity|].
  rewrite IH. apply perm_swap.
Qed.

Lemma sort_perm l : Permutation (Sort.sort le l) l.
Proof.
  induction l as [|x l IH]; simpl; [reflexivity|].
  rewrite insert_perm. apply perm_skip. exact IH.
Qed.

Lemma sort_In l x : In x (Sort.sort le l) <-> In x l.
Proof.
  split; apply Permutation_in; [|symmetry]; apply sort_perm.
Qed.


Hypothesis le_total : forall a b, le a b = true \/ le b a = true.
Hypothesis le_trans : forall a b c, le a b = true -> le b c = true -> le a c = true.

Lemma insert_sorted x l :
  StronglySorted (fun a b => le a b = true) l ->
  StronglySorted (fun a b => le a b = true) (Sort.insert le x l).
Proof.
  induction 1 as [|y l Hs IH Hall]; simpl.
  - constructor; constructor.
  - destruct (le x y) eqn:E.
    + constructor; [constructor; assumption|].
      constructor; [exact E|].
      apply List.Forall_forall. intros z Hz. rewrite List.Forall_forall in Hall.
      eapply le_trans; [exact E|]. apply Hall. exact Hz.
    + constructor; [exact IH|].
      apply List.Forall_forall. intros z Hz.
      apply (Permutation_in _ (insert_perm x l)) in Hz.
      destruct Hz as [<-|Hz].
      * destruct (le_total x y) as [H|H]; [congruence|exact H].
      * rewrite List.Forall_forall in Hall. apply Hall. exact Hz.
Qed.

Lemma sort_sorted l : StronglySorted (fun a b => le a b = true) (Sort.sort le l).
Proof.
  induction l as [|x l IH]; simpl; [constructor|].
  apply insert_sorted. exact IH.
Qed.

End SortFacts.

Lemma sorted_firstn_dominates {A : Type} (R : A -> A -> Prop) (n : nat) (l : list A) :
  StronglySorted R l ->
  forall x y, In x (firstn n l) -> In y (skipn n l) -> R x y.
Proof.
  intros Hs. revert n. induction Hs as [|a l Hs IH Hall]; intros n x y Hx Hy.
  - rewrite firstn_nil in Hx. destruct Hx.
  - destruct n as [|n]; [destruct Hx|]. simpl in Hx, Hy.
    destruct Hx as [<-|Hx].
    + rewrite List.Forall_forall in Hall. apply Hall.
      rewrite <- (firstn_skipn n l). apply in_or_app. right. exact Hy.
    + eapply IH; eassumption.
Qed.




(** ** Grouping *)

Lemma cell_eqb_eq a b : Frame.cell_eqb a b = true <-> a = b.
Proof.
  destruct a as [s|x|], b as [t|y|]; simpl; split; intros H;
    try discriminate; try reflexivity.
  - apply String.eqb_eq in H. congruence.
  - inversion H. apply String.eqb_refl.
  - apply Z.eqb_eq in H. congruence.
  - inversion H. apply Z.eqb_refl.
Qed.

Lemma key_eqb_eq k1 k2 : Group.key_eqb k1 k2 = true <-> k1 = k2.
Proof.
  revert k2. induction k1 as [|a k1 IH]; intros [|b k2]; simpl;
    split; intros H; try discriminate; try reflexivity.
  - apply andb_true_iff in H as [Ha Hk]. apply cell_eqb_eq in Ha. apply IH in Hk.
    congruence.
  - inversion H; subst. apply andb_true_iff. split; [apply cell_eqb_eq | apply IH]; reflexivity.
Qed.

Lemma key_eqb_refl k : Group.key_eqb k k = true.
Proof. apply key_eqb_eq. reflexivity. Qed.

Lemma key_eqb_neq k1 k2 : Group.key_eqb k1 k2 = false <-> k1 <> k2.
Proof.
  split.
  - intros H E. apply key_eqb_eq in E. congruence.
  - intros H. destruct (Group.key_eqb k1 k2) eqn:E; [|reflexivity].
    apply key_eqb_eq in E. contradiction.
Qed.

Section GroupFacts.

Context {A : Type}.
Implicit Types (groups : list (list Cell * list A)) (items : list (list Cell * A)).

Lemma lookup_add k a groups k' :
  Group.lookup k' (Group.add k a groups)
  = if Group.key_eqb k k'
    then Some (default [] (Group.lookup k groups) ++ [a])
    else Group.lookup k' groups.
Proof.
  induction groups as [|[k0 l0] rest IH]; simpl.
  - destruct (Group.key_eqb k k') eqn:E.
    + apply key_eqb_eq in E. subst. rewrite key_eqb_refl. reflexivity.
    + destruct (Group.key_eqb k' k) eqn:E'; [|reflexivity].
      apply key_eqb_eq in E'. subst. rewrite key_eqb_refl in E. discriminate.
  - destruct (Group.key_eqb k k0) eqn:E0; simpl.
    + apply key_eqb_eq in E0. subst k0.
      destruct (Group.key_eqb k k') eqn:E.
      * apply key_eqb_eq in E. subst. rewrite key_eqb_refl. reflexivity.
      * destruct (Group.key_eqb k' k) eqn:E'; [|reflexivity].
        apply key_eqb_eq in E'. subst. rewrite key_eqb_refl in E. discriminate.
    + rewrite IH. destruct (Group.key_eqb k' k0) eqn:E1; [|reflexivity].
      apply key_eqb_eq in E1. subst k0.
      destruct (Group.key_eqb k k') eqn:E; [congruence|reflexivity].
Qed.

Lemma keys_add k a groups :
  map fst (Group.add k a groups)
  = if decide (k ∈ map fst groups) then map fst groups else map fst groups ++ [k].
Proof.
  induction groups as [|[k0 l0] rest IH]; cbn [Group.add map fst].
  - destruct (decide (k ∈ [])) as [H|H]; [inversion H|reflexivity].
  - destruct (Group.key_eqb k k0) eqn:E0; cbn [map fst].
    + apply key_eqb_eq in E0. subst.
      destruct (decide (k0 ∈ k0 :: map fst rest)) as [H|H]; [reflexivity|].
      exfalso. apply H. left.
    + apply key_eqb_neq in E0. rewrite IH.
      destruct (decide (k ∈ map fst rest)) as [H|H];
        destruct (decide (k ∈ k0 :: map fst rest)) as [H'|H']; try reflexivity.
      * exfalso. apply H'. right. exact H.
      * exfalso. apply elem_of_cons in H' as [H'|H']; [congruence|contradiction].
Qed.

Lemma keys_add_nodup k a groups :
  NoDup (map fst groups) -> NoDup (map fst (Group.add k a groups)).
Proof.
  intros H. rewrite keys_add. case_decide as Hin; [exact H|].
  apply NoDup_app. split; [exact H|]. split.
  - intros x Hx Hx'. apply list_elem_of_singleton in Hx'. subst. contradiction.
  - apply NoDup_singleton.
Qed.

Lemma lookup_In k l groups :
  NoDup (map fst groups) ->
  (In (k, l) groups <-> Group.lookup k groups = Some l).
Proof.
  induction groups as [|[k0 l0] rest IH]; simpl; intros Hnd.
  - split; [tauto|discriminate].
  - apply NoDup_cons in Hnd as [Hfresh Hnd].
    destruct (Group.key_eqb k k0) eqn:E.
    + apply key_eqb_eq in E. subst k0. split.
      * intros [H|H]; [congruence|]. exfalso. apply Hfresh.
        apply list_elem_of_In. apply (in_map fst) in H. exact H.
      * intros H. left. congruence.
    + apply key_eqb_neq in E. rewrite <- (IH Hnd). split.
      * intros [H|H]; [congruence|exact H].
      * intros H. right. exact H.
Qed.

Lemma members_app k items1 items2 :
  Group.members k (items1 ++ items2) = Group.members k items1 ++ Group.members k items2.
Proof. unfold Group.members. rewrite List.filter_app, map_app. reflexivity. Qed.

Lemma members_one k k' (a : A) :
  Group.members k' [(k, a)] = if Group.key_eqb k k' then [a] else [].
Proof. unfold Group.members. simpl. destruct (Group.key_eqb k k'); reflexivity. Qed.

Lemma collect_from_spec items : forall groups seen,
  NoDup (map fst groups) ->
  (forall k, Group.lookup k groups = Group.nonempty (Group.filed k seen)) ->
  NoDup (map fst (Group.collect_from groups items))
  /\ forall k, Group.lookup k (Group.collect_from groups items)
               = Group.nonempty (Group.filed k (seen ++ items)).
Proof.
  induction items as [|[k a] items IH]; intros groups seen Hnd Hl.
  - simpl. rewrite app_nil_r. split; assumption.
  - simpl. replace (seen ++ (k, a) :: items) with ((seen ++ [(k, a)]) ++ items)
      by (rewrite <- app_assoc; reflexivity).
    destruct (existsb Group.is_nan k) eqn:Hnan.
    + apply IH; [exact Hnd|]. intros k'. rewrite Hl. unfold Group.filed.
      destruct (existsb Group.is_nan k') eqn:Hnan'; [reflexivity|].
      rewrite members_app, members_one.
      destruct (Group.key_eqb k k') eqn:E.
      * apply key_eqb_eq in E. congruence.
      * rewrite app_nil_r. reflexivity.
    + apply IH; [apply keys_add_nodup; exact Hnd|].
      intros k'. rewrite lookup_add. unfold Group.filed.
      rewrite members_app, members_one.
      destruct (Group.key_eqb k k') eqn:E.
      * apply key_eqb_eq in E. subst k'. rewrite Hnan. rewrite Hl. unfold Group.filed.
        rewrite Hnan.
        destruct (Group.members k seen) eqn:Hm; simpl; reflexivity.
      * rewrite Hl. unfold Group.filed. rewrite app_nil_r. reflexivity.
Qed.

Lemma collect_spec items :
  NoDup (map fst (Group.collect items))
  /\ forall k l,
       In (k, l) (Group.collect items) <->
       existsb Group.is_nan k = false /\ l = Group.members k items /\ l <> [].
Proof.
  destruct (collect_from_spec items [] []) as [Hnd Hl].
  - constructor.
  - intros k. unfold Group.filed. destruct (existsb _ k); reflexivity.
  - fold (Group.collect items) in Hnd, Hl.
    split; [exact Hnd|]. intros k l. rewrite (lookup_In _ _ _ Hnd), Hl.
    simpl. unfold Group.filed. destruct (existsb Group.is_nan k).
    + simpl. split; [discriminate|]. intros (H & _). discriminate.
    + destruct (Group.members k items) eqn:Hm; simpl.
      * split; [discriminate|]. intros (_ & -> & H). contradiction.
      * split.
        -- intros H. inversion H. repeat split. discriminate.
        -- intros (_ & -> & _). reflexivity.
Qed.

End GroupFacts.

Lemma find_absent {A : Type} (f : A -> bool) (l : list A) :
  (forall x, In x l -> f x = false) -> List.find f l = None.
Proof.
  induction l as [|x l IH]; simpl; intros H; [reflexivity|].
  rewrite (H x) by (left; reflexivity). apply IH. intros y Hy. apply H. right. exact Hy.
Qed.


Lemma groupby_ok df keys :
  forallb (Frame.has_column df) keys = true ->
  Group.groupby df keys
  = Ok (Sort.sort (fun g1 g2 => Group.key_leb (fst g1) (fst g2))
          (Group.collect (Group.keyed df keys))).
Proof.
  intros H. unfold Group.groupby. rewrite find_absent; [reflexivity|].
  intros c Hc. rewrite forallb_forall in H. rewrite (H c Hc). reflexivity.
Qed.

Lemma members_keyed df keys k :
  Group.members k (Group.keyed df keys)
  = List.filter (fun r => Group.key_eqb (map (fun c => Frame.cell df c r) keys) k) (rows df).
Proof.
  unfold Group.members, Group.keyed.
  induction (rows df) as [|r rs IH]; simpl; [reflexivity|].
  destruct (Group.key_eqb _ k); simpl; rewrite IH; reflexivity.
Qed.

Lemma groupby_spec df keys groups :
  Group.groupby df keys = Ok groups ->
  NoDup (map fst groups)
  /\ forall k l,
       In (k, l) groups <->
       existsb Group.is_nan k = false
       /\ l = List.filter (fun r => Group.key_eqb (map (fun c => Frame.cell df c r) keys) k)
                (rows df)
       /\ l <> [].
Proof.
  unfold Group.groupby. destruct (List.find _ keys); [discriminate|].
  intros H. inversion H; subst; clear H.
  destruct (collect_spec (Group.keyed df keys)) as [Hnd Hin]. split.
  - eapply NoDup_Permutation_proper; [|exact Hnd].
    apply Permutation_map. apply sort_perm.
  - intros k l. rewrite sort_In, Hin, members_keyed. reflexivity.
Qed.

(** *** Sums in [int64] *)

Lemma int64_small z : (- 2 ^ 63 <= z < 2 ^ 63)%Z -> Group.int64 z = z.
Proof.
  intros H. unfold Group.int64. rewrite Z.mod_small by lia. lia.
Qed.

Lemma int64_add z s : Group.int64 (z + Group.int64 s) = Group.int64 (z + s).
Proof.
  unfold Group.int64. f_equal.
  replace (z + ((s + 2 ^ 63) mod 2 ^ 64 - 2 ^ 63) + 2 ^ 63)%Z
    with (z + (s + 2 ^ 63) mod 2 ^ 64)%Z by lia.
  rewrite Zplus_mod_idemp_r. f_equal. lia.
Qed.

Lemma sum_total cells :
  forallb (fun c => negb (Group.is_text c)) cells = true ->
  Group.sum cells = Ok (Group.int64 (Group.total cells)).
Proof.
  induction cells as [|[s|z|] cells IH]; simpl; intros H; try discriminate.
  - reflexivity.
  - rewrite IH by exact H. cbn [bind]. rewrite int64_add. reflexivity.
  - apply IH. exact H.
Qed.


Lemma magnitude_nonneg cells : (0 <= Group.magnitude cells)%Z.
Proof. induction cells as [|[s|z|] cells IH]; simpl; lia. Qed.

Lemma total_magnitude cells : (Z.abs (Group.total cells) <= Group.magnitude cells)%Z.
Proof. induction cells as [|[s|z|] cells IH]; simpl; lia. Qed.

Lemma magnitude_filter {A : Type} (f : A -> Cell) (p : A -> bool) (l : list A) :
  (Group.magnitude (map f (List.filter p l)) <= Group.magnitude (map f l))%Z.
Proof.
  induction l as [|a l IH]; [reflexivity|].
  cbn [List.filter map]. pose proof (magnitude_nonneg (map f l)) as Hl.
  destruct (p a); cbn [map Group.magnitude]; destruct (f a); lia.
Qed.

(** Within the bound [Group.exact], the sum over any selection of the rows
    is what [int64] holds. *)
Lemma exact_selection df col (p : Row -> bool) :
  Group.exact df col = true ->
  Group.int64 (Group.total (map (Frame.cell df col) (List.filter p (rows df))))
  = Group.total (map (Frame.cell df col) (List.filter p (rows df))).
Proof.
  unfold Group.exact. intros H. apply Z.ltb_lt in H.
  pose proof (magnitude_filter (Frame.cell df col) p (rows df)) as Hf.
  pose proof (total_magnitude (map (Frame.cell df col) (List.filter p (rows df)))) as Ht.
  apply int64_small. assert (2 ^ 53 < 2 ^ 63)%Z by reflexivity. lia.
Qed.

Lemma exact_column df col :
  Group.exact df col = true ->
  Group.int64 (Group.total (map (Frame.cell df col) (rows df)))
  = Group.total (map (Frame.cell df col) (rows df)).
Proof.
  unfold Group.exact. intros H. apply Z.ltb_lt in H.
  pose proof (total_magnitude (map (Frame.cell df col) (rows df))) as Ht.
  apply int64_small. assert (2 ^ 53 < 2 ^ 63)%Z by reflexivity. lia.
Qed.


Lemma numeric_cells df col (members : list Row) :
  Group.numeric df col = true ->
  (forall r, In r members -> In r (rows df)) ->
  forallb (fun c => negb (Group.is_text c)) (map (Frame.cell df col) members) = true.
Proof.
  unfold Group.numeric. rewrite !forallb_forall. intros H Hsub c Hc.
  apply in_map_iff in Hc as (r & <- & Hr). apply H. apply Hsub. exact Hr.
Qed.

Lemma group_sums_spec df col groups :
  Group.numeric df col = true ->
  (forall k l r, In (k, l) groups -> In r l -> In r (rows df)) ->
  group_sums df col groups
  = Ok (map (fun g => (fst g, Group.int64 (Group.total (map (Frame.cell df col) (snd g)))))
          groups).
Proof.
  intros Hnum. induction groups as [|[k l] groups IH]; intros Hsub; [reflexivity|].
  cbn [group_sums map fst snd].
  rewrite sum_total.
  - cbn [bind]. rewrite IH; [reflexivity|].
    intros k' l' r Hin. apply (Hsub k' l' r). right. exact Hin.
  - apply numeric_cells; [exact Hnum|]. intros r Hr. apply (Hsub k l r); [left; reflexivity|exact Hr].
Qed.

Lemma groupby_members_are_rows df keys groups k l r :
  Group.groupby df keys = Ok groups -> In (k, l) groups -> In r l -> In r (rows df).
Proof.
  intros Hg Hin Hr. apply (groupby_spec df keys groups Hg) in Hin as (_ & -> & _).
  apply filter_In in Hr. tauto.
Qed.

(** ** The payment comparison *)

Lemma groups_by_code df groups :
  Group.groupby df [ "HCPCS_Cd" ] = Ok groups ->
  forall k l,
    In (k, l) groups <->
    exists c,
      k = [c] /\ c <> CNaN /\ In c (Frame.series df "HCPCS_Cd")
      /\ l = List.filter (fun r => Frame.cell_eqb (Frame.cell df "HCPCS_Cd" r) c) (rows df).
Proof.
  intros Hg k l. rewrite (proj2 (groupby_spec _ _ _ Hg) k l).
  cbn [map]. split.
  - intros (Hnan & Hl & Hne).
    destruct l as [|r0 l0]; [contradiction|].
    assert (Hr0 : In r0 (r0 :: l0)) by (left; reflexivity).
    rewrite Hl in Hr0. apply filter_In in Hr0 as [Hin0 Hk0].
    apply key_eqb_eq in Hk0. subst k.
    exists (Frame.cell df "HCPCS_Cd" r0). split; [reflexivity|]. split.
    + intros E. rewrite E in Hnan. discriminate.
    + split; [unfold Frame.series; apply in_map; exact Hin0|].
      rewrite Hl. apply List.filter_ext. intros r. simpl. apply andb_true_r.
  - intros (c & -> & Hc & Hin & ->). split; [|split].
    + simpl. destruct c; try reflexivity. contradiction.
    + apply List.filter_ext. intros r. simpl. rewrite andb_true_r. reflexivity.
    + unfold Frame.series in Hin. apply in_map_iff in Hin as (r & Hr & Hin).
      intros E.
      assert (H : In r (List.filter
                          (fun r => Frame.cell_eqb (Frame.cell df "HCPCS_Cd" r) c) (rows df))).
      { apply filter_In. split; [exact Hin|]. apply cell_eqb_eq. exact Hr. }
      rewrite E in H. destruct H.
Qed.

Lemma bind_ok {A B : Type} (m : Res A) (k : A -> Res B) (b : B) :
  bind m k = Ok b -> exists a, m = Ok a /\ k a = Ok b.
Proof. destruct m as [a|e]; simpl; [|discriminate]. intros H. exists a. tauto. Qed.

Lemma sum_ok cells s :
  Group.sum cells = Ok s -> s = Group.int64 (Group.total cells).
Proof.
  revert s. induction cells as [|[t|z|] cells IH]; simpl; intros s H.
  - inversion H. reflexivity.
  - discriminate.
  - apply bind_ok in H as (s' & Hs' & H). inversion H. rewrite (IH s' Hs').
    apply int64_add.
  - apply IH. exact H.
Qed.

Lemma group_sums_ok df col groups sums :
  group_sums df col groups = Ok sums ->
  sums = map (fun g => (fst g, Group.int64 (Group.total (map (Frame.cell df col) (snd g)))))
           groups.
Proof.
  revert sums. induction groups as [|[k l] groups IH]; intros sums H.
  - cbn [group_sums] in H. inversion H. reflexivity.
  - cbn [group_sums] in H.
    apply bind_ok in H as (s & Hs & H). apply bind_ok in H as (rest & Hrest & H).
    inversion H. cbn [map fst snd]. rewrite (sum_ok _ _ Hs), (IH rest Hrest). reflexivity.
Qed.



Lemma isin_rows_spec df top :
  rows (isin_rows df top)
  = List.filter
      (fun r => existsb (Frame.cell_eqb (Frame.cell df "HCPCS_Cd" r)) top) (rows df).
Proof.
  unfold isin_rows, Frame.boolean_index, Frame.series. cbn [rows].
  rewrite map_map. apply select_map.
Qed.






Lemma forallb_cons_true {A : Type} (f : A -> bool) (x : A) (l : list A) :
  forallb f (x :: l) = true -> f x = true /\ forallb f l = true.
Proof. simpl. apply andb_true_iff. Qed.




Lemma sorted_weaken {A : Type} (R R' : A -> A -> Prop) (l : list A) :
  (forall a b, R a b -> R' a b) -> StronglySorted R l -> StronglySorted R' l.
Proof.
  intros Himp. induction 1 as [|a l Hs IH Hall]; constructor; [exact IH|].
  rewrite List.Forall_forall in *. intros b Hb. apply Himp, Hall, Hb.
Qed.

Lemma descending_sorted {A : Type} (f : A -> Z) (l : list A) :
  StronglySorted (fun a b => (f b <= f a)%Z)
    (Sort.sort (fun a b => (f b <=? f a)%Z) l).
Proof.
  eapply sorted_weaken;
    [|apply (sort_sorted (fun a b => (f b <=? f a)%Z))].
  - intros a b H. apply Z.leb_le. exact H.
  - intros a b. destruct (Z.le_ge_cases (f a) (f b)); [right|left];
      apply Z.leb_le; assumption.
  - intros a b c H1 H2. apply Z.leb_le. apply Z.leb_le in H1, H2. lia.
Qed.





Example services25_comparison :
  length (service_codes Sample.services25) = 25%nat
  /\ match get_payment_comparison Sample.services25 Sample.services25 with
     | Ok (Comparison table) =>
         map hcpcs_code table
         = CInt 99201 :: map (fun n : nat => CInt (99200 + Z.of_nat n)) (rev (seq 7 19))
     | _ => False
     end.
Proof. vm_compute. split; reflexivity. Qed.

(** ** The broader population match *)

Lemma search_mono (words words' : list string) (s : string) :
  (forall w, In w words -> In w words') ->
  Text.search words s = true -> Text.search words' s = true.
Proof.
  unfold Text.search. intros Hsub H.
  apply existsb_exists in H as (w & Hw & Hc).
  apply existsb_exists. exists w. split; [apply Hsub; exact Hw|exact Hc].
Qed.

Lemma str_upper_contains_mono (words words' : list string) (c : Cell) :
  (forall w, In w words -> In w words') ->
  Frame.str_upper_contains words c = true -> Frame.str_upper_contains words' c = true.
Proof.
  intros Hsub. destruct c; simpl; try discriminate. apply search_mono. exact Hsub.
Qed.

Lemma incl_by_computation (words words' : list string) :
  forallb (fun w => existsb (String.eqb w) words') words = true ->
  forall w, In w words -> In w words'.
Proof.
  intros H w Hw. rewrite forallb_forall in H.
  apply H in Hw. apply existsb_exists in Hw as (w' & Hw' & E).
  apply String.eqb_eq in E. subst. exact Hw'.
Qed.

Lemma fallback_cities_known : forall w, In w fallback_cities -> In w upstate_cities.
Proof. apply incl_by_computation. vm_compute. reflexivity. Qed.

Lemma fallback_specialties_known :
  forall w, In w fallback_specialties -> In w common_specialties.
Proof. apply incl_by_computation. vm_compute. reflexivity. Qed.

(** The broader match is a special case of rule (c) of the strict match. *)
Lemma fallback_match_is_strict df r :
  fallback_match df r = true -> Rule.city_specialty df r = true.
Proof.
  unfold fallback_match, Rule.city_specialty, Rule.some_col.
  cbn [existsb city_cols specialty_cols]. rewrite !orb_false_r.
  intros H. apply andb_true_iff in H as [Hc Hs].
  apply andb_true_iff in Hc as [Hc1 Hc2]. apply andb_true_iff in Hs as [Hs1 Hs2].
  rewrite Hc1, Hs1. cbn [andb].
  rewrite (str_upper_contains_mono _ _ _ fallback_cities_known Hc2).
  rewrite (str_upper_contains_mono _ _ _ fallback_specialties_known Hs2).
  reflexivity.
Qed.

Lemma has_column_not_empty df col r :
  Frame.has_column df col = true -> In r (rows df) -> Frame.empty df = false.
Proof.
  unfold Frame.has_column, Frame.empty. intros Hc Hr.
  destruct (rows df); [destruct Hr|].
  destruct (columns df); [discriminate|reflexivity].
Qed.

Lemma filter_filter {A : Type} (f g : A -> bool) (l : list A) :
  List.filter g (List.filter f l) = List.filter (fun x => f x && g x) l.
Proof.
  induction l as [|x l IH]; simpl; [reflexivity|].
  destruct (f x); simpl; [destruct (g x)|]; rewrite IH; reflexivity.
Qed.

Lemma cell_boolean_index df mask col :
  Frame.cell (Frame.boolean_index df mask) col = Frame.cell df col.
Proof. reflexivity. Qed.

Lemma fallback_rows ny_providers :
  Frame.len (find_community_care_providers ny_providers) = 0%nat ->
  Frame.has_column ny_providers "Rndrng_Prvdr_City" = true ->
  Frame.has_column ny_providers "Rndrng_Prvdr_Type" = true ->
  rows (service_population ny_providers)
  = List.filter (fallback_match ny_providers) (rows ny_providers).
Proof.
  intros Hz Hcity Htype. unfold service_population. rewrite Hz. cbn [Nat.eqb].
  rewrite Hcity.
  change (Frame.has_column
            (Frame.boolean_index ny_providers
               (map (Frame.str_upper_contains fallback_cities)
                  (Frame.series ny_providers "Rndrng_Prvdr_City")))
            "Rndrng_Prvdr_Type")
    with (Frame.has_column ny_providers "Rndrng_Prvdr_Type").
  rewrite Htype. unfold Frame.series. rewrite cell_boolean_index.
  unfold Frame.boolean_index. cbn [rows columns].
  rewrite !map_map, !select_map, filter_filter.
  apply List.filter_ext. intros r.
  unfold fallback_match, Rule.some_col. cbn [existsb].
  rewrite Hcity, Htype. cbn [andb]. rewrite !orb_false_r. reflexivity.
Qed.

(** With both columns present the broader match keeps a row only if the
    strict match keeps it too: the fallback changes the population only
    when the specialty column is absent. *)
Lemma fallback_adds_nothing ny_providers :
  Frame.has_column ny_providers "Rndrng_Prvdr_City" = true ->
  Frame.has_column ny_providers "Rndrng_Prvdr_Type" = true ->
  Frame.len (find_community_care_providers ny_providers) = 0%nat ->
  rows (service_population ny_providers) = [].
Proof.
  intros Hcity Htype Hz. rewrite (fallback_rows _ Hz Hcity Htype).
  destruct (List.filter _ _) as [|r rest] eqn:E; [reflexivity|].
  assert (Hr : In r (List.filter (fallback_match ny_providers) (rows ny_providers)))
    by (rewrite E; left; reflexivity).
  apply filter_In in Hr as [Hr Hm].
  pose proof (has_column_not_empty _ _ _ Hcity Hr) as Hne.
  assert (Hfound : In r (rows (find_community_care_providers ny_providers))).
  { rewrite (find_community_care_rows ny_providers Hne). apply filter_In.
    split; [exact Hr|]. unfold Rule.any.
    rewrite (fallback_match_is_strict _ _ Hm). rewrite orb_true_r. reflexivity. }
  unfold Frame.len in Hz.
  destruct (rows (find_community_care_providers ny_providers)); [destruct Hfound|discriminate].
Qed.

(** Without the specialty column the broader match keeps the rows of the
    ten cities, whatever the provider. *)
Lemma fallback_rows_of_cities ny_providers :
  Frame.len (find_community_care_providers ny_providers) = 0%nat ->
  Frame.has_column ny_providers "Rndrng_Prvdr_City" = true ->
  Frame.has_column ny_providers "Rndrng_Prvdr_Type" = false ->
  rows (service_population ny_providers)
  = List.filter
      (fun r => Frame.str_upper_contains fallback_cities
                  (Frame.cell ny_providers "Rndrng_Prvdr_City" r))
      (rows ny_providers).
Proof.
  intros Hz Hcity Htype. unfold service_population. rewrite Hz. cbn [Nat.eqb].
  rewrite Hcity.
  change (Frame.has_column
            (Frame.boolean_index ny_providers
               (map (Frame.str_upper_contains fallback_cities)
                  (Frame.series ny_providers "Rndrng_Prvdr_City")))
            "Rndrng_Prvdr_Type")
    with (Frame.has_column ny_providers "Rndrng_Prvdr_Type").
  rewrite Htype. unfold Frame.series, Frame.boolean_index. cbn [rows].
  rewrite map_map. apply select_map.
Qed.

(** C6 (as amended). In [analyze_provider_service_data], on a state table
    whose probed columns are text columns, when the strict match finds
    nobody the population becomes: no row, for a table without the column
    Rndrng_Prvdr_City; the rows whose city is in the fixed city list,
    whatever their specialty, for a table without the column
    Rndrng_Prvdr_Type; and with both columns the rows of such a city whose
    specialty holds a primary-care keyword, of which there is none, since
    the strict match keeps every such row.  Whenever the state table has a
    row of such a city and such a specialty the resulting population is not
    empty. *)
Theorem fallback_population (ny_providers : DataFrame) :
  str_ready ny_providers = true ->
  (Frame.len (find_community_care_providers ny_providers) = 0%nat ->
   rows (service_population ny_providers)
   = (if Frame.has_column ny_providers "Rndrng_Prvdr_City"
      then
        if Frame.has_column ny_providers "Rndrng_Prvdr_Type"
        then List.filter (fallback_match ny_providers) (rows ny_providers)
        else List.filter
               (fun r => Frame.str_upper_contains fallback_cities
                           (Frame.cell ny_providers "Rndrng_Prvdr_City" r))
               (rows ny_providers)
      else [])
   /\ (Frame.has_column ny_providers "Rndrng_Prvdr_City" = true ->
       Frame.has_column ny_providers "Rndrng_Prvdr_Type" = true ->
       rows (service_population ny_providers) = []))
  /\ ((exists r, In r (rows ny_providers) /\ fallback_match ny_providers r = true) ->
      rows (service_population ny_providers) <> []).
Proof.
  intros _. split.
  - intros Hz. split.
    + destruct (Frame.has_column ny_providers "Rndrng_Prvdr_City") eqn:Hcity.
      * destruct (Frame.has_column ny_providers "Rndrng_Prvdr_Type") eqn:Htype.
        -- apply fallback_rows; assumption.
        -- apply fallback_rows_of_cities; assumption.
      * unfold service_population. rewrite Hz, Hcity. reflexivity.
    + intros Hcity Htype. apply fallback_adds_nothing; assumption.
  - intros (r & Hr & Hm).
    assert (Hcity : Frame.has_column ny_providers "Rndrng_Prvdr_City" = true).
    { unfold fallback_match, Rule.some_col in Hm. cbn [existsb] in Hm.
      apply andb_true_iff in Hm as [Hm _]. rewrite orb_false_r in Hm.
      apply andb_true_iff in Hm as [Hm _]. exact Hm. }
    pose proof (has_column_not_empty _ _ _ Hcity Hr) as Hne.
    assert (Hfound : In r (rows (find_community_care_providers ny_providers))).
    { rewrite (find_community_care_rows ny_providers Hne). apply filter_In.
      split; [exact Hr|]. unfold Rule.any.
      rewrite (fallback_match_is_strict _ _ Hm). rewrite orb_true_r. reflexivity. }
    unfold service_population.
    destruct (Frame.len (find_community_care_providers ny_providers) =? 0)%nat eqn:E.
    + apply Nat.eqb_eq in E. unfold Frame.len in E.
      destruct (rows (find_community_care_providers ny_providers)); [destruct Hfound|discriminate].
    + intros Hnil. rewrite Hnil in Hfound. destruct Hfound.
Qed.

Lemma fallback_population_witness :
  Frame.len (find_community_care_providers Sample.cities_only) = 0%nat
  /\ rows (service_population Sample.cities_only) = [ [ CInt 2; CStr "Troy" ] ]
  /\ rows (service_population Sample.strangers) = []
  /\ rows (service_population Sample.providers) <> [].
Proof.
  split; [reflexivity|]. split; [|split].
  - exact (proj1 (proj1 (fallback_population Sample.cities_only eq_refl) eq_refl)).
  - apply (proj2 (proj1 (fallback_population Sample.strangers eq_refl) eq_refl));
      reflexivity.
  - apply (proj2 (fallback_population Sample.providers eq_refl)).
    exists [ CStr "Smith Clinic"; CStr "Albany"; CStr "Family Practice"; CStr "5 Elm St" ].
    split; [right; left; reflexivity|reflexivity].
Defined.

(** C6, the claim as stated fails: on a state table that has the city
    column and no specialty column, the strict match finds nobody and the
    broader match keeps the row of Troy, a row of the city list that holds
    no specialty at all; the explicit branch
    [else: community_care_providers = upstate_providers] keeps it. *)
Lemma fallback_keeps_rows_without_specialty :
  str_ready Sample.cities_only = true
  /\ Frame.len (find_community_care_providers Sample.cities_only) = 0%nat
  /\ In [ CInt 2; CStr "Troy" ] (rows (service_population Sample.cities_only))
  /\ fallback_match Sample.cities_only [ CInt 2; CStr "Troy" ] = false
  /\ rows (service_population Sample.cities_only)
     <> List.filter (fallback_match Sample.cities_only) (rows Sample.cities_only).
Proof.
  split; [reflexivity|]. split; [reflexivity|]. split; [left; reflexivity|].
  split; [reflexivity|]. vm_compute. discriminate.
Qed.

Example strict_match_of_strangers_is_empty :
  Frame.len (find_community_care_providers Sample.strangers) = 0%nat.
Proof. vm_compute. reflexivity. Qed.

(** ** Paths *)

Lemma list_ascii_of_string_app (a b : string) :
  list_ascii_of_string (a ++ b) = list_ascii_of_string a ++ list_ascii_of_string b.
Proof. induction a as [|c a IH]; simpl; [reflexivity|]. rewrite IH. reflexivity. Qed.

Lemma append_inj_r (a b s : string) : (a ++ s = b ++ s)%string -> a = b.
Proof.
  intros H. apply (f_equal list_ascii_of_string) in H.
  rewrite !list_ascii_of_string_app in H. apply app_inv_tail in H.
  apply (f_equal string_of_list_ascii) in H.
  rewrite !string_of_list_ascii_of_string in H. exact H.
Qed.

Lemma append_inj_l (s a b : string) : (s ++ a = s ++ b)%string -> a = b.
Proof. induction s as [|c s IH]; simpl; intros H; [exact H|]. inversion H. auto. Qed.

Lemma csv_path_inj n1 n2 : csv_path n1 = csv_path n2 -> n1 = n2.
Proof.
  unfold csv_path, path_join, results_dir.
  destruct (is_absolute (n1 ++ ".csv")) eqn:E1, (is_absolute (n2 ++ ".csv")) eqn:E2;
    intros H.
  - eapply append_inj_r. exact H.
  - rewrite H in E1. discriminate.
  - rewrite <- H in E2. discriminate.
  - apply (append_inj_l "results") in H. apply (append_inj_l "/") in H.
    eapply append_inj_r. exact H.
Qed.


(** ** [save_results] *)

Lemma result_files_paths env results path :
  In path (map fst (result_files env results)) <->
  exists name v,
    In (name, v) results /\ is_frame v = true /\ frame_empty v = false
    /\ path = csv_path name.
Proof.
  induction results as [|[n v] rest IH]; cbn [result_files].
  - simpl. split; [tauto|]. intros (? & ? & [] & _).
  - rewrite map_app, in_app_iff, IH. split.
    + intros [H|(name & v' & Hin & Hf & He & ->)].
      * destruct (is_frame v) eqn:Hf; [|destruct H].
        destruct (frame_empty v) eqn:He; [destruct H|].
        destruct H as [<-|[]]. exists n, v. simpl. tauto.
      * exists name, v'. simpl. tauto.
    + intros (name & v' & [Heq|Hin] & Hf & He & ->).
      * inversion Heq; subst. left. rewrite Hf, He. left. reflexivity.
      * right. exists name, v'. tauto.
Qed.


Lemma dict_get_set_eq key value d : dict_get key (dict_set key value d) = Some value.
Proof.
  induction d as [|[k v] d IH]; simpl.
  - rewrite String.eqb_refl. reflexivity.
  - destruct (String.eqb k key) eqn:E; simpl; rewrite E; [reflexivity|exact IH].
Qed.

Lemma dict_get_set_ne key key' value d :
  key <> key' -> dict_get key (dict_set key' value d) = dict_get key d.
Proof.
  intros Hne. induction d as [|[k v] d IH]; simpl.
  - destruct (String.eqb key' key) eqn:E; [|reflexivity].
    apply String.eqb_eq in E. congruence.
  - destruct (String.eqb k key') eqn:E; simpl.
    + apply String.eqb_eq in E. subst k.
      destruct (String.eqb key' key) eqn:E'; [|reflexivity].
      apply String.eqb_eq in E'. congruence.
    + rewrite IH. reflexivity.
Qed.

Lemma summary_counts_other results summary key :
  (forall name v, In (name, v) results -> key <> (name ++ "_count")%string) ->
  dict_get key (summary_counts results summary) = dict_get key summary.
Proof.
  revert summary. induction results as [|[n v] rest IH]; intros summary Hother;
    cbn [summary_counts]; [reflexivity|].
  rewrite IH by (intros name v' Hin; apply (Hother name v'); right; exact Hin).
  destruct (is_frame v); [|reflexivity].
  apply dict_get_set_ne. apply (Hother n v). left. reflexivity.
Qed.


Lemma dict_get_cell (d : list (string * Cell)) key value :
  dict_get key d = Some value ->
  In key (columns (summary_df d))
  /\ Frame.series (summary_df d) key = [ value ].
Proof.
  intros H. unfold summary_df, Frame.series, Frame.cell. cbn [columns rows map].
  induction d as [|[k v] d IH]; [discriminate|].
  simpl in H. cbn [map fst snd Frame.position].
  destruct (String.eqb k key) eqn:E.
  - apply String.eqb_eq in E. subst k. rewrite String.eqb_refl.
    inversion H; subst. split; [left; reflexivity|reflexivity].
  - destruct (IH H) as [Hin Hs]. split; [right; exact Hin|].
    rewrite String.eqb_sym, E.
    destruct (Frame.position key (map fst d)); simpl in *; [exact Hs|exact Hs].
Qed.



Example save_results_of_sample :
  map fst (save_results Sample.env Sample.results "2026-01-01 00:00:00")
  = [ "results/provider_metrics.csv"; "results/analysis_summary.csv" ]
  /\ Frame.series (summary_df (summary_of Sample.results "2026-01-01 00:00:00"))
       "service_volume_count" = [ CInt 0 ].
Proof. vm_compute. split; reflexivity. Qed.

Lemma dict_set_keys key value (d : list (string * Cell)) :
  map fst (dict_set key value d)
  = if existsb (String.eqb key) (map fst d) then map fst d else map fst d ++ [ key ].
Proof.
  induction d as [|[k v] d IH]; [reflexivity|].
  cbn [dict_set map fst existsb]. rewrite (String.eqb_sym key k).
  destruct (String.eqb k key); cbn [map fst orb]; [reflexivity|].
  rewrite IH. destruct (existsb _ _); reflexivity.
Qed.

Lemma dict_get_set key key' value d :
  dict_get key (dict_set key' value d)
  = if String.eqb key' key then Some value else dict_get key d.
Proof.
  destruct (String.eqb key' key) eqn:E.
  - apply String.eqb_eq in E. subst. apply dict_get_set_eq.
  - apply dict_get_set_ne. intros ->. rewrite String.eqb_refl in E. discriminate.
Qed.

Lemma summary_counts_same results d1 d2 :
  same_but_timestamp d1 d2 ->
  same_but_timestamp (summary_counts results d1) (summary_counts results d2).
Proof.
  revert d1 d2. induction results as [|[n v] rest IH]; intros d1 d2 Hsame; [exact Hsame|].
  cbn [summary_counts]. apply IH. destruct (is_frame v); [|exact Hsame].
  destruct Hsame as [Hkeys Hvals]. split.
  - rewrite !dict_set_keys, Hkeys. reflexivity.
  - intros key Hne. rewrite !dict_get_set. rewrite (Hvals key Hne). reflexivity.
Qed.

Lemma summary_series (d : list (string * Cell)) key :
  Frame.series (summary_df d) key = [ default CNaN (dict_get key d) ].
Proof.
  unfold summary_df, Frame.series, Frame.cell. cbn [columns rows map]. f_equal.
  induction d as [|[k v] d IH]; [reflexivity|].
  cbn [map fst snd Frame.position dict_get]. rewrite (String.eqb_sym key k).
  destruct (String.eqb k key); [reflexivity|].
  destruct (Frame.position key (map fst d)); simpl in *; exact IH.
Qed.

(** The summaries of two runs with the same results have the same columns
    and, the column [timestamp] apart, the same cells. *)
Lemma summary_differs_in_timestamp_only results now1 now2 :
  columns (summary_df (summary_of results now1))
  = columns (summary_df (summary_of results now2))
  /\ forall col,
       col <> "timestamp" ->
       Frame.series (summary_df (summary_of results now1)) col
       = Frame.series (summary_df (summary_of results now2)) col.
Proof.
  assert (H : same_but_timestamp (summary_of results now1) (summary_of results now2)).
  { unfold summary_of. apply summary_counts_same. split; [reflexivity|].
    intros key Hne. cbn [dict_get].
    destruct (String.eqb "timestamp" key) eqn:E; [|reflexivity].
    apply String.eqb_eq in E. congruence. }
  destruct H as [Hkeys Hvals]. split; [exact Hkeys|].
  intros col Hne. rewrite !summary_series, (Hvals col Hne). reflexivity.
Qed.

(** ** The fetch stage *)

Lemma download_file_cached env base_dir url local_filename w :
  is_Some (files w !! path_join base_dir local_filename) ->
  download_file env base_dir url local_filename w
  = Ok (path_join base_dir local_filename, w).
Proof.
  intros [content H]. unfold download_file. rewrite H. reflexivity.
Qed.

Lemma load_provider_data_cached env base_dir w :
  is_Some (files w !! path_join base_dir "medicare_providers.csv") ->
  load_provider_data env base_dir w
  = try df <- read_table env (path_join base_dir "medicare_providers.csv") w in
    Ok (df, w).
Proof.
  intros H. unfold load_provider_data.
  rewrite (download_file_cached _ _ _ _ _ H). reflexivity.
Qed.

Lemma load_service_data_cached env base_dir w :
  is_Some (files w !! path_join base_dir "medicare_services.csv") ->
  load_service_data env base_dir w
  = try df <- read_table env (path_join base_dir "medicare_services.csv") w in
    Ok (df, w).
Proof.
  intros H. unfold load_service_data.
  rewrite (download_file_cached _ _ _ _ _ H). reflexivity.
Qed.

Lemma commit_files_last tables path content w :
  files (commit (tables ++ [ (path, content) ]) w)
  = <[path := content]> (files (commit tables w)).
Proof. unfold commit. cbn [files]. rewrite fold_left_app. reflexivity. Qed.

Lemma commit_written writes w w' path :
  In path (map fst writes) ->
  files (commit writes w) !! path = files (commit writes w') !! path.
Proof.
  induction writes as [|[p c] writes IH] using rev_ind; [intros []|].
  rewrite map_app, in_app_iff. cbn [map fst]. intros Hin.
  rewrite !commit_files_last.
  destruct (decide (p = path)) as [->|Hne].
  - rewrite !lookup_insert_eq. reflexivity.
  - rewrite !lookup_insert_ne by exact Hne. apply IH.
    destruct Hin as [Hin|[Heq|[]]]; [exact Hin|congruence].
Qed.

(** The outcome of a run depends on the world only through the two files of
    the data directory, and on the time only through the summary file. *)
Lemma run_analysis_outcome env base_dir w :
  is_Some (files w !! path_join base_dir service_file)
  \/ is_Some (files w !! path_join base_dir "medicare_providers.csv") ->
  exists outcome : Res Results,
    (forall w' now',
       files w' !! path_join base_dir service_file
       = files w !! path_join base_dir service_file ->
       files w' !! path_join base_dir "medicare_providers.csv"
       = files w !! path_join base_dir "medicare_providers.csv" ->
       run_analysis env base_dir now' w'
       = match outcome with
         | Ok results => Ok (results, commit (save_results env results now') w')
         | Raise e => Raise e
         end).
Proof.
  intros Hcached.
  destruct (files w !! path_join base_dir service_file) as [content|] eqn:Hsvc.
  - exists (try provider_service_data <- read_csv env content in
            analyze_provider_service_data env provider_service_data).
    intros w' now' Hs _. unfold run_analysis. rewrite Hs.
    destruct (read_csv env content) as [df|e]; cbn [bind]; [|reflexivity].
    destruct (analyze_provider_service_data env df); reflexivity.
  - destruct Hcached as [[? H]|[content Hprov]]; [discriminate|].
    exists (try medicare_providers <- read_csv env content in
            analyze_providers medicare_providers).
    intros w' now' Hs Hp. unfold run_analysis, get_medicare_providers, read_table.
    rewrite Hs, Hp, Hprov.
    destruct (read_csv env content) as [df|e]; cbn [bind fst snd]; [|reflexivity].
    destruct (analyze_providers df); reflexivity.
Qed.

(** C7. When the local file exists [download_file] returns
    its path and leaves the world as it is: nothing is requested from the
    network.  Two runs of the fetch stage on the same cached files, at any
    two times, end alike: both raise the same exception, or both return
    the same results, request nothing, and write the same result tables
    byte for byte; the file [analysis_summary.csv], written last, holds the
    summary of the run, which differs between the two runs in the column
    [timestamp] only. *)
Theorem fetch_stage_repeatable (env : Env) (base_dir now1 now2 : string) (w w' : World) :
  is_Some (files w !! path_join base_dir service_file)
  \/ is_Some (files w !! path_join base_dir "medicare_providers.csv") ->
  files w' !! path_join base_dir service_file
  = files w !! path_join base_dir service_file ->
  files w' !! path_join base_dir "medicare_providers.csv"
  = files w !! path_join base_dir "medicare_providers.csv" ->
  (forall url local_filename,
     is_Some (files w !! path_join base_dir local_filename) ->
     download_file env base_dir url local_filename w
     = Ok (path_join base_dir local_filename, w))
  /\ ((exists e,
         run_analysis env base_dir now1 w = Raise e
         /\ run_analysis env base_dir now2 w' = Raise e)
      \/ (exists results w1 w2,
            run_analysis env base_dir now1 w = Ok (results, w1)
            /\ run_analysis env base_dir now2 w' = Ok (results, w2)
            /\ requests w1 = requests w
            /\ requests w2 = requests w'
            /\ w1 = commit (result_files env results
                            ++ [ (summary_path,
                                  Csv.to_csv (summary_df (summary_of results now1))) ]) w
            /\ w2 = commit (result_files env results
                            ++ [ (summary_path,
                                  Csv.to_csv (summary_df (summary_of results now2))) ]) w'
            /\ (forall path,
                  In path (map fst (result_files env results)) ->
                  path <> summary_path ->
                  files w1 !! path = files w2 !! path)
            /\ files w1 !! summary_path
               = Some (Csv.to_csv (summary_df (summary_of results now1)))
            /\ files w2 !! summary_path
               = Some (Csv.to_csv (summary_df (summary_of results now2)))
            /\ columns (summary_df (summary_of results now1))
               = columns (summary_df (summary_of results now2))
            /\ (forall col,
                  col <> "timestamp" ->
                  Frame.series (summary_df (summary_of results now1)) col
                  = Frame.series (summary_df (summary_of results now2)) col))).
Proof.
  intros Hcached Hs Hp. split.
  - intros url local_filename. apply download_file_cached.
  - destruct (run_analysis_outcome env base_dir w Hcached) as (outcome & Hrun).
    rewrite (Hrun w now1 eq_refl eq_refl), (Hrun w' now2 Hs Hp).
    destruct outcome as [results|e].
    + right. exists results. do 2 eexists.
      split; [reflexivity|]. split; [reflexivity|].
      split; [reflexivity|]. split; [reflexivity|].
      split; [reflexivity|]. split; [reflexivity|].
      unfold save_results. rewrite !commit_files_last. split; [|split; [|split]].
      * intros path Hin Hne. rewrite !lookup_insert_ne by congruence.
        apply commit_written. exact Hin.
      * apply lookup_insert_eq.
      * apply lookup_insert_eq.
      * apply summary_differs_in_timestamp_only.
    + left. exists e. split; reflexivity.
Qed.

Lemma fetch_stage_repeatable_witness :
  (forall url local_filename,
     is_Some (files Sample.cached !! path_join "data" local_filename) ->
     download_file Sample.env "data" url local_filename Sample.cached
     = Ok (path_join "data" local_filename, Sample.cached))
  /\ ((exists e,
         run_analysis Sample.env "data" "2026-01-01 00:00:00" Sample.cached = Raise e
         /\ run_analysis Sample.env "data" "2026-01-02 00:00:00" Sample.cached = Raise e)
      \/ (exists results w1 w2,
            run_analysis Sample.env "data" "2026-01-01 00:00:00" Sample.cached
            = Ok (results, w1)
            /\ run_analysis Sample.env "data" "2026-01-02 00:00:00" Sample.cached
               = Ok (results, w2)
            /\ requests w1 = requests Sample.cached
            /\ requests w2 = requests Sample.cached
            /\ w1 = commit (result_files Sample.env results
                            ++ [ (summary_path,
                                  Csv.to_csv
                                    (summary_df (summary_of results "2026-01-01 00:00:00"))) ])
                           Sample.cached
            /\ w2 = commit (result_files Sample.env results
                            ++ [ (summary_path,
                                  Csv.to_csv
                                    (summary_df (summary_of results "2026-01-02 00:00:00"))) ])
                           Sample.cached
            /\ (forall path,
                  In path (map fst (result_files Sample.env results)) ->
                  path <> summary_path ->
                  files w1 !! path = files w2 !! path)
            /\ files w1 !! summary_path
               = Some (Csv.to_csv (summary_df (summary_of results "2026-01-01 00:00:00")))
            /\ files w2 !! summary_path
               = Some (Csv.to_csv (summary_df (summary_of results "2026-01-02 00:00:00")))
            /\ columns (summary_df (summary_of results "2026-01-01 00:00:00"))
               = columns (summary_df (summary_of results "2026-01-02 00:00:00"))
            /\ (forall col,
                  col <> "timestamp" ->
                  Frame.series (summary_df (summary_of results "2026-01-01 00:00:00")) col
                  = Frame.series (summary_df (summary_of results "2026-01-02 00:00:00")) col))).
Proof.
  apply (fetch_stage_repeatable Sample.env "data" "2026-01-01 00:00:00"
           "2026-01-02 00:00:00" Sample.cached Sample.cached).
  - left. vm_compute. eexists. reflexivity.
  - reflexivity.
  - reflexivity.
Defined.

(** The summary of the run is no result table: a second run of the stage,
    one day after the first and on the same cached file, leaves another
    [analysis_summary.csv]; the result tables are the same. *)
Example summary_differs_between_runs :
  match run_analysis Sample.env "data" "2026-01-01 00:00:00" Sample.cached with
  | Ok (_, w1) =>
      match run_analysis Sample.env "data" "2026-01-02 00:00:00" w1 with
      | Ok (_, w2) =>
          requests w2 = []
          /\ files w1 !! csv_path "top_services" = files w2 !! csv_path "top_services"
          /\ files w1 !! summary_path <> files w2 !! summary_path
      | Raise _ => False
      end
  | Raise _ => False
  end.
Proof.
  vm_compute. split; [reflexivity|]. split; [reflexivity|].
  intros H. discriminate H.
Qed.

(** ** Missing columns *)

(** C5 (as amended). A table without any of the state columns makes
    [filter_upstate_ny_providers] return the columns of the table with no
    row; a table without the column an aggregate groups on makes
    [get_specialty_distribution], [get_service_volume_by_provider],
    [get_top_services] and [get_payment_comparison] return the blank table
    [pd.DataFrame()], which has no row and no column.  None of them raises. *)
Theorem missing_column_gives_empty_result (df : DataFrame) :
  (Frame.first_present possible_state_cols df = None ->
   filter_upstate_ny_providers df = Frame.head0 df
   /\ columns (filter_upstate_ny_providers df) = columns df
   /\ rows (filter_upstate_ny_providers df) = [])
  /\ (Frame.has_column df "provider_type" = false ->
      get_specialty_distribution df = Frame.blank)
  /\ (Frame.has_column df "total_services" = false ->
      get_service_volume_by_provider df = Ok Frame.blank)
  /\ (Frame.has_column df "HCPCS_Cd" = false ->
      get_top_services df = Ok Frame.blank
      /\ forall ny_providers_df, get_payment_comparison df ny_providers_df = Ok NoComparison).
Proof.
  split; [|split; [|split]].
  - intros H. unfold filter_upstate_ny_providers. rewrite H. repeat split.
  - intros H. unfold get_specialty_distribution. rewrite H. reflexivity.
  - intros H. unfold get_service_volume_by_provider. rewrite H. reflexivity.
  - intros H. split.
    + unfold get_top_services. rewrite H. rewrite orb_true_r. reflexivity.
    + intros ny. unfold get_payment_comparison.
      destruct (Frame.empty df || Frame.empty ny); [reflexivity|].
      unfold required_cols. cbn [forallb]. rewrite H. reflexivity.
Qed.

Lemma missing_column_gives_empty_result_witness :
  (filter_upstate_ny_providers Sample.unmatched = Frame.head0 Sample.unmatched
   /\ columns (filter_upstate_ny_providers Sample.unmatched) = columns Sample.unmatched
   /\ rows (filter_upstate_ny_providers Sample.unmatched) = [])
  /\ get_specialty_distribution Sample.unmatched = Frame.blank
  /\ get_service_volume_by_provider Sample.unmatched = Ok Frame.blank
  /\ (get_top_services Sample.unmatched = Ok Frame.blank
      /\ forall ny_providers_df,
           get_payment_comparison Sample.unmatched ny_providers_df = Ok NoComparison).
Proof.
  destruct (missing_column_gives_empty_result Sample.unmatched) as (H1 & H2 & H3 & H4).
  split; [apply H1; reflexivity|].
  split; [apply H2; reflexivity|].
  split; [apply H3; reflexivity|].
  apply H4; reflexivity.
Defined.

(** C5, the claim as stated fails: without [provider_type] the result of
    [get_specialty_distribution] has no column at all, whereas a regular
    result has the columns [Specialty] and [Count]; and
    [get_specialty_distribution_from_services] raises on a table that lacks
    the provider identifier [Rndrng_NPI]. *)
Lemma blank_result_has_no_columns :
  Frame.has_column Sample.unmatched "provider_type" = false
  /\ columns (get_specialty_distribution Sample.unmatched) = []
  /\ columns (get_specialty_distribution Sample.with_provider_type) = [ "Specialty"; "Count" ]
  /\ Frame.has_column Sample.providers "Rndrng_NPI" = false
  /\ get_specialty_distribution_from_services Sample.providers
     = Raise (KeyError "Rndrng_NPI").
Proof. vm_compute. repeat split. Qed.

Example specialty_distribution_of_sample :
  get_specialty_distribution Sample.with_provider_type
  = mkDataFrame [ "Specialty"; "Count" ]
      [ [ CStr "Family Practice"; CInt 2 ]; [ CStr "Cardiology"; CInt 1 ] ].
Proof. vm_compute. reflexivity. Qed.

(** ** Charts of an empty table *)

Lemma guarded_empty {Figure : Type} (draw : DataFrame -> Res Figure) df :
  Frame.empty df = true -> Visualizer.guarded draw df = Ok None.
Proof. intros H. unfold Visualizer.guarded. rewrite H. reflexivity. Qed.

Lemma has_column_empty_rows df col :
  Frame.empty df = true -> Frame.has_column df col = true -> rows df = [].
Proof.
  unfold Frame.empty, Frame.has_column. destruct (rows df); [reflexivity|].
  destruct (columns df); [discriminate|discriminate].
Qed.

Lemma services_chart_raises {Figure : Type} (plt : Plotly Figure) df :
  Frame.empty df = true ->
  exists e, SimpleVisualizer.create_services_chart plt df = Raise e.
Proof.
  intros Hempty. unfold SimpleVisualizer.create_services_chart,
    SimpleVisualizer.sort_values_desc.
  destruct (Frame.has_column df "Total Services") eqn:Hcol.
  - rewrite (has_column_empty_rows df _ Hempty Hcol). cbn [bind Sort.sort].
    destruct (px_bar plt _) as [fig|e]; cbn [bind].
    + exists IndexError. reflexivity.
    + exists e. reflexivity.
  - eexists. reflexivity.
Qed.

(** C8 (as amended). On an empty table each of the eight chart
    constructors of [CMSDataVisualizer] returns [None] and does not raise.
    The constructors of [CMSVisualizer] have no such guard:
    [create_services_chart] raises on every empty table. *)
Theorem charts_of_empty_table {Figure : Type} (plt : Plotly Figure) (df : DataFrame) :
  Frame.empty df = true ->
  Visualizer.create_top_providers_chart plt df = Ok None
  /\ Visualizer.create_correlation_heatmap plt df = Ok None
  /\ Visualizer.create_specialty_distribution_chart plt df = Ok None
  /\ Visualizer.create_top_services_chart plt df = Ok None
  /\ Visualizer.create_provider_metrics_chart plt df = Ok None
  /\ Visualizer.create_provider_performance_matrix plt df = Ok None
  /\ Visualizer.create_specialty_benchmarking_chart plt df = Ok None
  /\ Visualizer.create_quality_metrics_dashboard plt df = Ok None
  /\ exists e, SimpleVisualizer.create_services_chart plt df = Raise e.
Proof.
  intros Hempty.
  repeat (split; [apply guarded_empty; exact Hempty|]).
  apply services_chart_raises. exact Hempty.
Qed.

Lemma charts_of_empty_table_witness :
  Visualizer.create_top_providers_chart Sample.plotly Sample.no_services = Ok None
  /\ Visualizer.create_correlation_heatmap Sample.plotly Sample.no_services = Ok None
  /\ Visualizer.create_specialty_distribution_chart Sample.plotly Sample.no_services = Ok None
  /\ Visualizer.create_top_services_chart Sample.plotly Sample.no_services = Ok None
  /\ Visualizer.create_provider_metrics_chart Sample.plotly Sample.no_services = Ok None
  /\ Visualizer.create_provider_performance_matrix Sample.plotly Sample.no_services = Ok None
  /\ Visualizer.create_specialty_benchmarking_chart Sample.plotly Sample.no_services = Ok None
  /\ Visualizer.create_quality_metrics_dashboard Sample.plotly Sample.no_services = Ok None
  /\ exists e,
       SimpleVisualizer.create_services_chart Sample.plotly Sample.no_services = Raise e.
Proof.
  apply (charts_of_empty_table Sample.plotly Sample.no_services). reflexivity.
Defined.

(** C8, the claim as stated fails: on the empty table of services
    [create_services_chart] of [CMSVisualizer] raises, whatever the charting
    library does, instead of returning no chart; when [px.bar] draws the
    empty chart the exception is the [IndexError] of [df_sorted.iloc[0]]. *)
Lemma simple_services_chart_raises_on_empty :
  Frame.empty Sample.no_services = true
  /\ (forall (Figure : Type) (plt : Plotly Figure),
        exists e, SimpleVisualizer.create_services_chart plt Sample.no_services = Raise e)
  /\ SimpleVisualizer.create_services_chart Sample.plotly Sample.no_services
     = Raise IndexError
  /\ SimpleVisualizer.create_services_chart Sample.plotly Sample.no_services <> Ok None.
Proof.
  split; [reflexivity|]. split.
  - intros Figure plt. apply services_chart_raises. reflexivity.
  - vm_compute. split; [reflexivity|discriminate].
Qed.

(** * Further properties of the code *)

(** ** The region filter applied twice *)

Lemma first_present_columns candidates df df' :
  columns df = columns df' ->
  Frame.first_present candidates df = Frame.first_present candidates df'.
Proof.
  intros E. induction candidates as [|c rest IH]; [reflexivity|].
  cbn [Frame.first_present]. unfold Frame.has_column. rewrite E, IH. reflexivity.
Qed.

Lemma filter_idem {A : Type} (f : A -> bool) (l : list A) :
  List.filter f (List.filter f l) = List.filter f l.
Proof.
  rewrite filter_filter. apply List.filter_ext. intros x. destruct (f x); reflexivity.
Qed.

Lemma filter_upstate_spec df :
  filter_upstate_ny_providers df = mkDataFrame (columns df) (region_rows df).
Proof.
  unfold filter_upstate_ny_providers, region_rows.
  destruct (Frame.first_present possible_state_cols df) as [state_col|]; [|reflexivity].
  assert (Hny : ny_state_rows df state_col
                = mkDataFrame (columns df) (List.filter (is_ny df state_col) (rows df))).
  { unfold ny_state_rows, Frame.boolean_index, Frame.series.
    rewrite map_map, select_map. reflexivity. }
  rewrite Hny.
  destruct (Frame.first_present possible_county_cols df) as [county_col|]; [|reflexivity].
  unfold upstate_mask, Frame.boolean_index, Frame.series, Frame.len. cbn [rows columns].
  rewrite map_map.
  rewrite (select_map
             (fun r => in_upstate_county
                         (Text.upper (Frame.astype_str
                            (Frame.cell
                               {| columns := columns df;
                                  rows := List.filter (is_ny df state_col) (rows df) |}
                               county_col r))))).
  change (fun r => in_upstate_county
                     (Text.upper (Frame.astype_str
                        (Frame.cell
                           {| columns := columns df;
                              rows := List.filter (is_ny df state_col) (rows df) |}
                           county_col r))))
    with (in_county df county_col).
  destruct (List.filter (in_county df county_col) _); reflexivity.
Qed.

(** X1. [filter_upstate_ny_providers] is idempotent: filtering a filtered
    table changes nothing, on the county path, on the fallback path and
    without a state column. *)
Theorem region_filter_idempotent (df : DataFrame) :
  filter_upstate_ny_providers (filter_upstate_ny_providers df)
  = filter_upstate_ny_providers df.
Proof.
  rewrite (filter_upstate_spec df).
  set (X := mkDataFrame (columns df) (region_rows df)).
  rewrite (filter_upstate_spec X). unfold X at 1. cbn [columns]. f_equal.
  unfold region_rows at 1.
  rewrite (first_present_columns possible_state_cols X df eq_refl).
  rewrite (first_present_columns possible_county_cols X df eq_refl).
  unfold X. cbn [rows]. unfold region_rows.
  destruct (Frame.first_present possible_state_cols df) as [state_col|]; [|reflexivity].
  change (is_ny {| columns := columns df; rows := _ |} state_col)
    with (is_ny df state_col).
  set (ny := List.filter (is_ny df state_col) (rows df)).
  destruct (Frame.first_present possible_county_cols df) as [county_col|].
  - change (in_county {| columns := columns df; rows := _ |} county_col)
      with (in_county df county_col).
    assert (Hny : List.filter (is_ny df state_col) ny = ny) by apply filter_idem.
    destruct (List.filter (in_county df county_col) ny) as [|r up] eqn:Hup.
    + rewrite Hny, Hup. reflexivity.
    + assert (Hsub : List.filter (is_ny df state_col) (r :: up) = r :: up).
      { rewrite <- Hup. unfold ny. rewrite !filter_filter.
        apply List.filter_ext. intros x.
        destruct (is_ny df state_col x), (in_county df county_col x); reflexivity. }
      rewrite Hsub.
      assert (Hidem : List.filter (in_county df county_col) (r :: up) = r :: up).
      { rewrite <- Hup. apply filter_idem. }
      rewrite Hidem. reflexivity.
  - unfold ny. apply filter_idem.
Qed.

(** ** The target-population match applied twice *)



(** ** Standardizing twice *)

Lemma bindings_of_none df mappings :
  (forall a, In a (flat_map snd mappings) -> Frame.has_column df a = false) ->
  bindings_of df mappings = [].
Proof.
  induction mappings as [|[std al] rest IH]; intros H; [reflexivity|].
  cbn [bindings_of flat_map snd fst] in *.
  assert (Hal : first_alias df al = None).
  { unfold first_alias. apply find_absent. intros a Ha. apply H.
    apply in_or_app. left. exact Ha. }
  rewrite Hal. cbn [app]. apply IH. intros a Ha. apply H. apply in_or_app. right. exact Ha.
Qed.

Lemma analyze_without_alias df :
  Frame.empty df = false ->
  bindings_of df column_mappings = [] ->
  analyze_provider_metrics df = Frame.head0 df.
Proof.
  intros Hne Hbs. unfold analyze_provider_metrics. rewrite Hne, scan_mappings_spec, Hbs.
  reflexivity.
Qed.

Lemma aliases_are_not_canonical a :
  In a (flat_map snd column_mappings) -> ~ In a (map fst column_mappings).
Proof.
  assert (H : Forall (fun a => a ∉ map fst column_mappings)
                (flat_map snd column_mappings)).
  { apply (bool_decide_unpack _). vm_compute. reflexivity. }
  intros Ha Hc. rewrite Forall_forall in H.
  apply (H a); apply list_elem_of_In; assumption.
Qed.

(** X3. [analyze_provider_metrics] is not idempotent: the canonical names
    it writes are not aliases, so applied to its own output (of a table
    that is not empty and has a column among the aliases) it finds no
    relevant column and returns [head(0)], losing every row. *)
Theorem standardization_twice_drops_rows (df : DataFrame) :
  Frame.empty df = false ->
  bindings_of df column_mappings <> [] ->
  analyze_provider_metrics (analyze_provider_metrics df)
  = Frame.head0 (analyze_provider_metrics df)
  /\ columns (analyze_provider_metrics (analyze_provider_metrics df))
     = map fst (bindings_of df column_mappings)
  /\ rows (analyze_provider_metrics (analyze_provider_metrics df)) = []
  /\ rows (analyze_provider_metrics df) <> [].
Proof.
  intros Hne Hbs.
  rewrite (analyze_provider_metrics_standardized df Hne Hbs).
  assert (Hrows : rows (standardized df) <> []).
  { unfold standardized. cbn [rows]. unfold Frame.empty in Hne.
    destruct (rows df); [discriminate|]. discriminate. }
  assert (Hne' : Frame.empty (standardized df) = false).
  { unfold Frame.empty. destruct (rows (standardized df)); [contradiction|].
    unfold standardized. cbn [columns].
    destruct (bindings_of df column_mappings); [contradiction|reflexivity]. }
  assert (Hnone : bindings_of (standardized df) column_mappings = []).
  { apply bindings_of_none. intros a Ha.
    destruct (Frame.has_column (standardized df) a) eqn:Hc; [|reflexivity].
    exfalso. apply (aliases_are_not_canonical a Ha).
    unfold Frame.has_column, standardized in Hc. cbn [columns] in Hc.
    apply existsb_exists in Hc as (c & Hin & E). apply String.eqb_eq in E. subst c.
    apply list_elem_of_In. eapply bindings_fields_known. apply list_elem_of_In. exact Hin. }
  rewrite (analyze_without_alias _ Hne' Hnone).
  repeat split. exact Hrows.
Qed.

Lemma standardization_twice_drops_rows_witness :
  analyze_provider_metrics (analyze_provider_metrics Sample.two_aliases)
  = Frame.head0 (analyze_provider_metrics Sample.two_aliases)
  /\ columns (analyze_provider_metrics (analyze_provider_metrics Sample.two_aliases))
     = map fst (bindings_of Sample.two_aliases column_mappings)
  /\ rows (analyze_provider_metrics (analyze_provider_metrics Sample.two_aliases)) = []
  /\ rows (analyze_provider_metrics Sample.two_aliases) <> [].
Proof.
  apply (standardization_twice_drops_rows Sample.two_aliases).
  - reflexivity.
  - vm_compute. discriminate.
Defined.

(** ** Counting values *)

Lemma list_sum_perm (l l' : list nat) : Permutation l l' -> list_sum l = list_sum l'.
Proof. induction 1; simpl; lia. Qed.

Lemma list_sum_cons (x : nat) (l : list nat) : list_sum (x :: l) = (x + list_sum l)%nat.
Proof. reflexivity. Qed.

Lemma filed_items_add {A : Type} k (a : A) groups :
  filed_items (Group.add k a groups) = S (filed_items groups).
Proof.
  unfold filed_items. induction groups as [|[k' l] rest IH]; [reflexivity|].
  cbn [Group.add]. destruct (Group.key_eqb k k'); cbn [map snd];
    rewrite !list_sum_cons.
  - rewrite length_app. simpl. lia.
  - rewrite IH. lia.
Qed.

Lemma filed_items_collect_from {A : Type} (items : list (list Cell * A)) groups :
  filed_items (Group.collect_from groups items)
  = (filed_items groups
     + length (List.filter (fun item => negb (existsb Group.is_nan (fst item))) items))%nat.
Proof.
  revert groups. induction items as [|[k a] items IH]; intros groups.
  - simpl. lia.
  - cbn [Group.collect_from fold_left List.filter fst snd].
    change (fold_left _ items ?g) with (Group.collect_from g items).
    destruct (existsb Group.is_nan k); cbn [negb].
    + apply IH.
    + rewrite IH, filed_items_add. simpl. lia.
Qed.

Lemma collect_singletons (cells : list Cell) k l :
  In (k, l) (Group.collect (map (fun c => ([c], c)) cells)) <->
  exists c,
    k = [c] /\ c <> CNaN /\ In c cells
    /\ l = List.filter (fun x => Frame.cell_eqb x c) cells.
Proof.
  rewrite (proj2 (collect_spec _) k l).
  assert (Hm : forall c, Group.members [c] (map (fun c => ([c], c)) cells)
                         = List.filter (fun x => Frame.cell_eqb x c) cells).
  { intros c. unfold Group.members.
    induction cells as [|x cells IH]; [reflexivity|].
    cbn [map List.filter fst snd Group.key_eqb]. rewrite andb_true_r.
    destruct (Frame.cell_eqb x c); cbn [map snd]; rewrite IH; reflexivity. }
  split.
  - intros (Hnan & Hl & Hne).
    destruct l as [|x0 l0]; [contradiction|].
    assert (Hx : In x0 (x0 :: l0)) by (left; reflexivity).
    rewrite Hl in Hx. unfold Group.members in Hx.
    apply in_map_iff in Hx as ([k' x'] & Hx' & Hin). cbn [snd] in Hx'. subst x'.
    apply filter_In in Hin as [Hin Hk]. cbn [fst] in Hk. apply key_eqb_eq in Hk. subst k'.
    apply in_map_iff in Hin as (c & Hc & Hin). inversion Hc; subst.
    exists x0. split; [reflexivity|]. split.
    + intros E. rewrite E in Hnan. discriminate.
    + split; [exact Hin|]. rewrite Hl. apply Hm.
  - intros (c & -> & Hc & Hin & ->). split; [|split].
    + simpl. destruct c; try reflexivity. contradiction.
    + symmetry. apply Hm.
    + intros E.
      assert (H : In c (List.filter (fun x => Frame.cell_eqb x c) cells)).
      { apply filter_In. split; [exact Hin|]. apply cell_eqb_eq. reflexivity. }
      rewrite E in H. destruct H.
Qed.

Lemma value_counts_spec (cells : list Cell) :
  NoDup (map fst (Group.value_counts cells))
  /\ (forall c n,
        In (c, n) (Group.value_counts cells) <->
        c <> CNaN /\ In c cells /\ n = occurrences c cells)
  /\ StronglySorted (fun a b => (snd b <= snd a)%nat) (Group.value_counts cells)
  /\ list_sum (map snd (Group.value_counts cells)) = Group.count cells.
Proof.
  unfold Group.value_counts.
  set (groups := Group.collect (map (fun c => ([c], c)) cells)).
  set (counted := map (fun g : list Cell * list Cell => (hd CNaN (fst g), length (snd g)))
                    groups).
  assert (Hin : forall c n,
             In (c, n) counted <-> c <> CNaN /\ In c cells /\ n = occurrences c cells).
  { intros c n. unfold counted. rewrite in_map_iff. split.
    - intros ([k l] & E & Hg). apply collect_singletons in Hg as (c' & -> & Hc & Hin & ->).
      cbn [fst snd hd] in E. inversion E; subst. repeat split; assumption.
    - intros (Hc & Hin & ->).
      exists ([c], List.filter (fun x => Frame.cell_eqb x c) cells).
      split; [reflexivity|]. apply collect_singletons. exists c. repeat split; assumption. }
  assert (Hnd : NoDup (map fst counted)).
  { unfold counted. rewrite map_map. cbn [fst].
    rewrite <- (map_map fst (hd CNaN)).
    apply NoDup_fmap_2_strong; [|apply (collect_spec _)].
    intros k1 k2 H1 H2 E.
    apply list_elem_of_In, in_map_iff in H1 as ([k1' l1] & <- & H1).
    apply list_elem_of_In, in_map_iff in H2 as ([k2' l2] & <- & H2).
    apply collect_singletons in H1 as (c1 & -> & _).
    apply collect_singletons in H2 as (c2 & -> & _).
    simpl in *. congruence. }
  split; [|split; [|split]].
  - eapply NoDup_Permutation_proper; [|exact Hnd].
    apply Permutation_map, sort_perm.
  - intros c n. rewrite sort_In. apply Hin.
  - eapply sorted_weaken; [|apply sort_sorted].
    + intros a b H. apply Nat.leb_le. exact H.
    + intros a b. destruct (Nat.le_ge_cases (snd a) (snd b)); [right|left];
        apply Nat.leb_le; assumption.
    + intros a b c H1 H2. apply Nat.leb_le. apply Nat.leb_le in H1, H2. lia.
  - rewrite (list_sum_perm _ (map snd counted))
      by (apply Permutation_map, sort_perm).
    unfold counted. rewrite map_map. cbn [snd].
    change (list_sum (map (fun g : list Cell * list Cell => length (snd g)) groups))
      with (filed_items groups).
    unfold groups, Group.collect. rewrite filed_items_collect_from.
    change (filed_items (@nil (list Cell * list Cell))) with 0%nat. cbn [Nat.add].
    unfold Group.count. clear.
    induction cells as [|x cells IH]; [reflexivity|].
    cbn [map List.filter fst existsb]. rewrite orb_false_r.
    destruct (Group.is_nan x); cbn [negb length]; rewrite IH; reflexivity.
Qed.

(** X4. On a non-empty table with the column [provider_type],
    [get_specialty_distribution] lists every specialty that occurs once,
    with the number of rows that hold it, most frequent first; missing
    values are not counted, and the counts add up to the number of rows
    whose specialty is not missing. *)
Theorem specialty_distribution_counts (providers_df : DataFrame) :
  Frame.has_column providers_df "provider_type" = true ->
  Frame.empty providers_df = false ->
  exists counts : list (Cell * nat),
    get_specialty_distribution providers_df
    = mkDataFrame [ "Specialty"; "Count" ]
        (map (fun vc => [ fst vc; CInt (Z.of_nat (snd vc)) ]) counts)
    /\ NoDup (map fst counts)
    /\ (forall specialty n,
          In (specialty, n) counts <->
          specialty <> CNaN
          /\ In specialty (Frame.series providers_df "provider_type")
          /\ n = occurrences specialty (Frame.series providers_df "provider_type"))
    /\ StronglySorted (fun a b => (snd b <= snd a)%nat) counts
    /\ list_sum (map snd counts)
       = Group.count (Frame.series providers_df "provider_type").
Proof.
  intros Hcol Hne.
  exists (Group.value_counts (Frame.series providers_df "provider_type")).
  split; [|apply value_counts_spec].
  unfold get_specialty_distribution. rewrite Hcol, Hne. reflexivity.
Qed.

Lemma specialty_distribution_counts_witness :
  exists counts : list (Cell * nat),
    get_specialty_distribution Sample.with_provider_type
    = mkDataFrame [ "Specialty"; "Count" ]
        (map (fun vc => [ fst vc; CInt (Z.of_nat (snd vc)) ]) counts)
    /\ NoDup (map fst counts)
    /\ (forall specialty n,
          In (specialty, n) counts <->
          specialty <> CNaN
          /\ In specialty (Frame.series Sample.with_provider_type "provider_type")
          /\ n = occurrences specialty (Frame.series Sample.with_provider_type "provider_type"))
    /\ StronglySorted (fun a b => (snd b <= snd a)%nat) counts
    /\ list_sum (map snd counts)
       = Group.count (Frame.series Sample.with_provider_type "provider_type").
Proof.
  apply (specialty_distribution_counts Sample.with_provider_type); reflexivity.
Defined.

(** ** Matching in parts *)



(** ** Sums by group *)

Lemma zsum_perm (l l' : list Z) : Permutation l l' -> zsum l = zsum l'.
Proof. unfold zsum. induction 1; simpl; lia. Qed.

Lemma total_app (l1 l2 : list Cell) :
  Group.total (l1 ++ l2) = (Group.total l1 + Group.total l2)%Z.
Proof.
  induction l1 as [|[s|z|] l1 IH]; cbn [app Group.total]; try rewrite IH; lia.
Qed.

Lemma volume_add df col k r groups :
  group_volume df col (Group.add k r groups)
  = (group_volume df col groups + column_total df col [r])%Z.
Proof.
  unfold group_volume, zsum. induction groups as [|[k' l] rest IH].
  - cbn. lia.
  - cbn [Group.add]. destruct (Group.key_eqb k k'); cbn [map fold_right snd].
    + unfold column_total. rewrite map_app, total_app. cbn [map]. lia.
    + rewrite IH. lia.
Qed.

Lemma volume_collect_from df col (items : list (list Cell * Row)) groups :
  group_volume df col (Group.collect_from groups items)
  = (group_volume df col groups
     + column_total df col (map snd (List.filter (fun item => complete (fst item)) items)))%Z.
Proof.
  revert groups. induction items as [|[k r] items IH]; intros groups.
  - cbn [Group.collect_from fold_left List.filter map]. unfold column_total.
    cbn [map Group.total]. lia.
  - cbn [Group.collect_from fold_left List.filter fst snd].
    change (fold_left _ items ?g) with (Group.collect_from g items).
    unfold complete at 1. destruct (existsb Group.is_nan k); cbn [negb].
    + apply IH.
    + rewrite IH, volume_add. unfold column_total. cbn [map].
      cbn [snd].
      pose proof (total_app [Frame.cell df col r]
                    (map (Frame.cell df col)
                       (map snd (List.filter (fun item => complete (fst item)) items))))
        as E.
      cbn [app] in E. rewrite E. lia.
Qed.

Lemma keyed_complete df keys :
  map snd (List.filter (fun item => complete (fst item)) (Group.keyed df keys))
  = List.filter (fun r => complete (key_of df keys r)) (rows df).
Proof.
  unfold Group.keyed. induction (rows df) as [|r rs IH]; [reflexivity|].
  cbn [map List.filter fst]. fold (key_of df keys r).
  destruct (complete (key_of df keys r)); cbn [map snd]; rewrite IH; reflexivity.
Qed.

(** [df.groupby(keys)[col].sum()], when it returns: one sum per key that
    occurs without missing value, over the rows of that key; together the
    sums account for every row with a complete key. *)
Lemma groupby_sum_spec df col keys sums :
  Group.exact df col = true ->
  groupby_sum df keys col = Ok sums ->
  NoDup (map fst sums)
  /\ (forall k v,
        In (k, v) sums <->
        complete k = true
        /\ (exists r, In r (rows df) /\ key_of df keys r = k)
        /\ v = column_total df col
                 (List.filter (fun r => Group.key_eqb (key_of df keys r) k) (rows df)))
  /\ zsum (map snd sums)
     = column_total df col
         (List.filter (fun r => complete (key_of df keys r)) (rows df)).
Proof.
  unfold groupby_sum. intros Hexact H. apply bind_ok in H as (groups & Hg & H).
  destruct (Frame.has_column df col); [|discriminate].
  apply group_sums_ok in H.
  destruct (groupby_spec _ _ _ Hg) as [Hnd Hin].
  assert (H' : sums
               = map (fun g : list Cell * list Row =>
                        (fst g, Group.total (map (Frame.cell df col) (snd g)))) groups).
  { rewrite H. apply map_ext_in. intros [k l] Hkl. cbn [fst snd].
    apply Hin in Hkl as (_ & -> & _).
    rewrite (exact_selection _ _ _ Hexact). reflexivity. }
  clear H. subst sums.
  rewrite !map_map. cbn [fst snd]. split; [exact Hnd|]. split.
  - intros k v. rewrite in_map_iff. split.
    + intros ([k' l] & E & Hkl). cbn [fst snd] in E. inversion E; subst k' v; clear E.
      apply Hin in Hkl as (Hnan & Hl & Hne). fold (key_of df keys) in Hl.
      split; [unfold complete; rewrite Hnan; reflexivity|]. split.
      * destruct l as [|r0 l0]; [contradiction|].
        assert (Hr0 : In r0 (r0 :: l0)) by (left; reflexivity).
        rewrite Hl in Hr0. apply filter_In in Hr0 as [Hr0 Hk].
        apply key_eqb_eq in Hk. exists r0. split; assumption.
      * rewrite Hl. reflexivity.
    + intros (Hc & (r & Hr & Hk) & ->).
      exists (k, List.filter (fun r => Group.key_eqb (key_of df keys r) k) (rows df)).
      split; [reflexivity|]. apply Hin. split; [|split].
      * unfold complete in Hc. destruct (existsb Group.is_nan k); [discriminate|reflexivity].
      * reflexivity.
      * intros E.
        assert (H : In r (List.filter
                            (fun r => Group.key_eqb (key_of df keys r) k) (rows df))).
        { apply filter_In. split; [exact Hr|]. apply key_eqb_eq. exact Hk. }
        rewrite E in H. destruct H.
  - unfold Group.groupby in Hg. destruct (List.find _ keys); [discriminate|].
    inversion Hg; subst groups; clear Hg.
    rewrite (zsum_perm _ (map (fun g => column_total df col (snd g))
                            (Group.collect (Group.keyed df keys))))
      by (apply Permutation_map, sort_perm).
    fold (group_volume df col (Group.collect (Group.keyed df keys))).
    unfold Group.collect. rewrite volume_collect_from, keyed_complete.
    unfold group_volume. cbn. reflexivity.
Qed.

Lemma groupby_sum_returns df keys col :
  forallb (Frame.has_column df) keys = true ->
  Frame.has_column df col = true ->
  Group.numeric df col = true ->
  exists sums, groupby_sum df keys col = Ok sums.
Proof.
  intros Hk Hc Hn. unfold groupby_sum. rewrite (groupby_ok _ _ Hk). cbn [bind].
  rewrite Hc. eexists. apply group_sums_spec; [exact Hn|].
  intros k l r. apply groupby_members_are_rows with (keys := keys).
  apply groupby_ok. exact Hk.
Qed.

(** The sums by group, largest first. *)
Lemma sorted_sums_spec df keys col :
  forallb (Frame.has_column df) keys = true ->
  Frame.has_column df col = true ->
  Group.numeric df col = true ->
  Group.exact df col = true ->
  exists totals,
    bind (groupby_sum df keys col)
      (fun sums => Ok (Sort.sort (fun a b => (snd b <=? snd a)%Z) sums)) = Ok totals
    /\ NoDup (map fst totals)
    /\ (forall k v,
          In (k, v) totals <->
          complete k = true
          /\ (exists r, In r (rows df) /\ key_of df keys r = k)
          /\ v = column_total df col
                   (List.filter (fun r => Group.key_eqb (key_of df keys r) k) (rows df)))
    /\ StronglySorted (fun a b => (snd b <= snd a)%Z) totals
    /\ zsum (map snd totals)
       = column_total df col
           (List.filter (fun r => complete (key_of df keys r)) (rows df)).
Proof.
  intros Hk Hc Hn Hexact. destruct (groupby_sum_returns _ _ _ Hk Hc Hn) as [sums Hs].
  rewrite Hs. cbn [bind]. eexists. split; [reflexivity|].
  destruct (groupby_sum_spec _ _ _ _ Hexact Hs) as (Hnd & Hin & Hsum).
  pose proof (sort_perm (fun a b : list Cell * Z => (snd b <=? snd a)%Z) sums) as Hp.
  split; [|split; [|split]].
  - eapply NoDup_Permutation_proper; [|exact Hnd]. apply Permutation_map. exact Hp.
  - intros k v. rewrite sort_In. apply Hin.
  - apply (descending_sorted (fun a : list Cell * Z => snd a)).
  - rewrite <- Hsum. apply zsum_perm, Permutation_map. exact Hp.
Qed.

(** X5. [get_top_services], on a non-empty table that has the columns
    HCPCS_Cd, HCPCS_Desc and Tot_Srvcs, the last one without text and with
    numbers that pandas sums exactly (below [2 ^ 53] in all), returns a
    table with one row per pair of code and description that occurs without
    missing value; the row carries the sum of Tot_Srvcs over the rows of that
    pair, the rows come by descending sum, and the sums together account for
    the Tot_Srvcs of every row whose code and description are both present. *)
Theorem top_services_totals (df : DataFrame) :
  Frame.empty df = false ->
  Frame.has_column df "HCPCS_Cd" = true ->
  Frame.has_column df "HCPCS_Desc" = true ->
  Frame.has_column df "Tot_Srvcs" = true ->
  Group.numeric df "Tot_Srvcs" = true ->
  Group.exact df "Tot_Srvcs" = true ->
  exists totals : list (list Cell * Z),
    get_top_services df
    = Ok (mkDataFrame [ "HCPCS Code"; "HCPCS Description"; "Total Services" ]
            (map (fun ks => fst ks ++ [ CInt (snd ks) ]) totals))
    /\ NoDup (map fst totals)
    /\ (forall k v,
          In (k, v) totals <->
          complete k = true
          /\ (exists r, In r (rows df)
                        /\ [ Frame.cell df "HCPCS_Cd" r; Frame.cell df "HCPCS_Desc" r ] = k)
          /\ v = column_total df "Tot_Srvcs"
                   (List.filter
                      (fun r => Group.key_eqb
                                  [ Frame.cell df "HCPCS_Cd" r; Frame.cell df "HCPCS_Desc" r ] k)
                      (rows df)))
    /\ StronglySorted (fun a b => (snd b <= snd a)%Z) totals
    /\ zsum (map snd totals)
       = column_total df "Tot_Srvcs"
           (List.filter
              (fun r => complete [ Frame.cell df "HCPCS_Cd" r; Frame.cell df "HCPCS_Desc" r ])
              (rows df)).
Proof.
  intros He Hcd Hdesc Hsrv Hnum Hexact.
  destruct (sorted_sums_spec df [ "HCPCS_Cd"; "HCPCS_Desc" ] "Tot_Srvcs")
    as (totals & Ht & Hspec); [|exact Hsrv|exact Hnum|exact Hexact|].
  { cbn [forallb]. rewrite Hcd, Hdesc. reflexivity. }
  exists totals. split; [|exact Hspec].
  unfold get_top_services. rewrite He, Hcd, Hsrv. cbn [negb orb].
  apply bind_ok in Ht as (sums & Hs & Ht). rewrite Hs. cbn [bind].
  inversion Ht. reflexivity.
Qed.

Lemma top_services_totals_witness :
  exists totals : list (list Cell * Z),
    get_top_services Sample.service_records
    = Ok (mkDataFrame [ "HCPCS Code"; "HCPCS Description"; "Total Services" ]
            (map (fun ks => fst ks ++ [ CInt (snd ks) ]) totals))
    /\ NoDup (map fst totals)
    /\ (forall k v,
          In (k, v) totals <->
          complete k = true
          /\ (exists r, In r (rows Sample.service_records)
                        /\ [ Frame.cell Sample.service_records "HCPCS_Cd" r;
                             Frame.cell Sample.service_records "HCPCS_Desc" r ] = k)
          /\ v = column_total Sample.service_records "Tot_Srvcs"
                   (List.filter
                      (fun r => Group.key_eqb
                                  [ Frame.cell Sample.service_records "HCPCS_Cd" r;
                                    Frame.cell Sample.service_records "HCPCS_Desc" r ] k)
                      (rows Sample.service_records)))
    /\ StronglySorted (fun a b => (snd b <= snd a)%Z) totals
    /\ zsum (map snd totals)
       = column_total Sample.service_records "Tot_Srvcs"
           (List.filter
              (fun r => complete [ Frame.cell Sample.service_records "HCPCS_Cd" r;
                                   Frame.cell Sample.service_records "HCPCS_Desc" r ])
              (rows Sample.service_records)).
Proof.
  apply (top_services_totals Sample.service_records); reflexivity.
Defined.

(** X6. [get_top_services] checks for HCPCS_Cd and Tot_Srvcs only, and
    groups by HCPCS_Desc as well: on a non-empty table that has the two
    checked columns but no HCPCS_Desc column it raises KeyError for
    HCPCS_Desc instead of returning a table.  (A table of exactly two rows
    is set apart: there pandas takes the two keys for labels of the two
    rows, and the call fails later, when the columns are renamed.) *)
Theorem top_services_needs_description (df : DataFrame) :
  Frame.empty df = false ->
  length (rows df) <> 2%nat ->
  Frame.has_column df "HCPCS_Cd" = true ->
  Frame.has_column df "Tot_Srvcs" = true ->
  Frame.has_column df "HCPCS_Desc" = false ->
  get_top_services df = Raise (KeyError "HCPCS_Desc").
Proof.
  intros He _ Hcd Hsrv Hdesc. unfold get_top_services. rewrite He, Hcd, Hsrv.
  cbn [negb orb]. unfold groupby_sum, Group.groupby. cbn [List.find].
  rewrite Hcd, Hdesc. reflexivity.
Qed.

Lemma top_services_needs_description_witness :
  length (rows Sample.no_description) = 3%nat
  /\ get_top_services Sample.no_description = Raise (KeyError "HCPCS_Desc").
Proof.
  split; [reflexivity|].
  apply (top_services_needs_description Sample.no_description);
    [reflexivity|discriminate|reflexivity|reflexivity|reflexivity].
Defined.

(** ** The payment comparison without volumes *)

Lemma has_column_isin df top c :
  Frame.has_column (isin_rows df top) c = Frame.has_column df c.
Proof. reflexivity. Qed.

(** X7. [get_payment_comparison] has a branch for a community-care table
    without Tot_Srvcs (the most frequent codes stand in for the top
    services), but that branch never gives a comparison: with two non-empty
    tables and the three required columns present, a missing Tot_Srvcs
    column makes the call raise KeyError; the key is Tot_Srvcs when the
    table has the column HCPCS_Desc. *)
Theorem payment_comparison_needs_volume (community_care_df ny_providers_df : DataFrame) :
  Frame.empty community_care_df = false ->
  Frame.empty ny_providers_df = false ->
  forallb (Frame.has_column community_care_df) required_cols = true ->
  Frame.has_column community_care_df "Tot_Srvcs" = false ->
  (exists label,
     get_payment_comparison community_care_df ny_providers_df = Raise (KeyError label))
  /\ (Frame.has_column community_care_df "HCPCS_Desc" = true ->
      get_payment_comparison community_care_df ny_providers_df
      = Raise (KeyError "Tot_Srvcs")).
Proof.
  intros Hcc Hny Hreq Hsrv.
  assert (H : get_payment_comparison community_care_df ny_providers_df
              = Raise (KeyError (if Frame.has_column community_care_df "HCPCS_Desc"
                                 then "Tot_Srvcs" else "HCPCS_Desc"))).
  { unfold get_payment_comparison.
    rewrite Hcc, Hny, Hreq, Hsrv. cbn [negb orb bind].
    cbn [required_cols forallb] in Hreq.
    apply andb_prop in Hreq as [Hcd Hreq]. apply andb_prop in Hreq as [Hal Hreq].
    apply andb_prop in Hreq as [Hpy _].
    unfold Group.groupby at 1. cbn [List.find]. rewrite !has_column_isin, Hcd.
    destruct (Frame.has_column community_care_df "HCPCS_Desc"); cbn [negb bind];
      [|reflexivity].
    unfold require_columns at 1. cbn [List.find]. rewrite Hal, Hpy, Hsrv. reflexivity. }
  split.
  - eexists. exact H.
  - intros Hdesc. rewrite H, Hdesc. reflexivity.
Qed.

Lemma payment_comparison_needs_volume_witness :
  Frame.has_column Sample.no_volumes "HCPCS_Desc" = true
  /\ get_payment_comparison Sample.no_volumes Sample.service_records
     = Raise (KeyError "Tot_Srvcs").
Proof.
  split; [reflexivity|].
  apply (payment_comparison_needs_volume Sample.no_volumes Sample.service_records);
    reflexivity.
Defined.

(** ** The payment comparison as a join *)

Lemma cc_agg_spec df groups payments :
  cc_agg df groups = Ok payments ->
  map (fun p => (cc_code p, cc_desc p, cc_services p)) payments
  = map (fun g => (nth 0 (fst g) CNaN, nth 1 (fst g) CNaN,
                   Group.int64 (column_total df "Tot_Srvcs" (snd g)))) groups.
Proof.
  revert payments. induction groups as [|[k l] groups IH]; intros payments H.
  - cbn [cc_agg] in H. inversion H. reflexivity.
  - cbn [cc_agg] in H.
    apply bind_ok in H as (ma & _ & H). apply bind_ok in H as (mp & _ & H).
    apply bind_ok in H as (sv & Hsv & H). apply bind_ok in H as (rest & Hrest & H).
    inversion H; subst payments. cbn [map fst snd cc_code cc_desc cc_services].
    rewrite (IH rest Hrest), (sum_ok _ _ Hsv). reflexivity.
Qed.

Lemma ny_agg_codes df groups payments :
  ny_agg df groups = Ok payments ->
  map ny_code payments = map (fun g => nth 0 (fst g) CNaN) groups.
Proof.
  revert payments. induction groups as [|[k l] groups IH]; intros payments H.
  - cbn [ny_agg] in H. inversion H. reflexivity.
  - cbn [ny_agg] in H.
    apply bind_ok in H as (ma & _ & H). apply bind_ok in H as (mp & _ & H).
    apply bind_ok in H as (rest & Hrest & H).
    inversion H; subst payments. cbn [map fst ny_code].
    rewrite (IH rest Hrest). reflexivity.
Qed.

Lemma at_most_one_match {A : Type} (f : A -> Cell) (c : Cell) (l : list A) :
  NoDup (map f l) ->
  (length (List.filter (fun y => Frame.cell_eqb c (f y)) l) <= 1)%nat.
Proof.
  induction l as [|y l IH]; cbn [map List.filter]; intros Hnd; [cbn; lia|].
  apply NoDup_cons in Hnd as [Hy Hnd].
  destruct (Frame.cell_eqb c (f y)) eqn:E; [|apply IH; exact Hnd].
  apply cell_eqb_eq in E. subst c.
  assert (Hnone : List.filter (fun y0 => Frame.cell_eqb (f y) (f y0)) l = []).
  { clear IH Hnd. induction l as [|z l IHl]; [reflexivity|].
    cbn [List.filter]. destruct (Frame.cell_eqb (f y) (f z)) eqn:E.
    - apply cell_eqb_eq in E. exfalso. apply Hy. rewrite E. cbn [map]. left.
    - apply IHl. intros Hin. apply Hy. cbn [map]. right. exact Hin. }
  rewrite Hnone. cbn. lia.
Qed.

Lemma merge_on_code_keys cc_payments ny_payments :
  NoDup (map ny_code ny_payments) ->
  map (fun row => (hcpcs_code row, description row))
    (merge_on_code cc_payments ny_payments)
  `sublist_of` map (fun p => (cc_code p, cc_desc p)) cc_payments.
Proof.
  intros Hnd. unfold merge_on_code.
  induction cc_payments as [|p cc_payments IH]; [constructor|].
  cbn [flat_map map]. rewrite map_app, map_map.
  pose proof (at_most_one_match ny_code (cc_code p) ny_payments Hnd) as Hlen.
  destruct (List.filter (fun ny => Frame.cell_eqb (cc_code p) (ny_code ny)) ny_payments)
    as [|ny [|ny' rest]].
  - cbn [map app]. apply sublist_cons. exact IH.
  - cbn [map app compare_payments hcpcs_code description]. apply sublist_skip. exact IH.
  - cbn [length] in Hlen. lia.
Qed.

Lemma merge_on_code_rows cc_payments ny_payments row :
  In row (merge_on_code cc_payments ny_payments) ->
  exists p ny,
    In p cc_payments /\ In ny ny_payments /\ cc_code p = ny_code ny
    /\ hcpcs_code row = cc_code p /\ description row = cc_desc p
    /\ total_services row = cc_services p.
Proof.
  unfold merge_on_code. rewrite in_flat_map. intros (p & Hp & Hrow).
  apply in_map_iff in Hrow as (ny & <- & Hny). apply filter_In in Hny as [Hny E].
  apply cell_eqb_eq in E. exists p, ny. repeat split; assumption.
Qed.

Lemma pair_keys_distinct (groups : list (list Cell * list Row)) :
  (forall g, In g groups -> length (fst g) = 2%nat) ->
  NoDup (map fst groups) ->
  NoDup (map (fun g => (nth 0 (fst g) CNaN, nth 1 (fst g) CNaN)) groups).
Proof.
  intros Hlen Hnd.
  rewrite <- (map_map fst (fun k => (nth 0 k CNaN, nth 1 k CNaN))).
  apply NoDup_fmap_2_strong; [|exact Hnd].
  intros k1 k2 H1 H2 E. apply list_elem_of_In, in_map_iff in H1 as (g1 & <- & Hg1).
  apply list_elem_of_In, in_map_iff in H2 as (g2 & <- & Hg2).
  pose proof (Hlen g1 Hg1) as L1. pose proof (Hlen g2 Hg2) as L2.
  destruct (fst g1) as [|a1 [|b1 [|? ?]]]; try discriminate.
  destruct (fst g2) as [|a2 [|b2 [|? ?]]]; try discriminate.
  cbn [nth] in E. congruence.
Qed.

Lemma single_keys_distinct (groups : list (list Cell * list Row)) :
  (forall g, In g groups -> length (fst g) = 1%nat) ->
  NoDup (map fst groups) ->
  NoDup (map (fun g => nth 0 (fst g) CNaN) groups).
Proof.
  intros Hlen Hnd.
  rewrite <- (map_map fst (fun k => nth 0 k CNaN)).
  apply NoDup_fmap_2_strong; [|exact Hnd].
  intros k1 k2 H1 H2 E. apply list_elem_of_In, in_map_iff in H1 as (g1 & <- & Hg1).
  apply list_elem_of_In, in_map_iff in H2 as (g2 & <- & Hg2).
  pose proof (Hlen g1 Hg1) as L1. pose proof (Hlen g2 Hg2) as L2.
  destruct (fst g1) as [|a1 [|? ?]]; try discriminate.
  destruct (fst g2) as [|a2 [|? ?]]; try discriminate.
  cbn [nth] in E. congruence.
Qed.

Lemma groupby_key_length df keys groups g :
  Group.groupby df keys = Ok groups -> In g groups -> length (fst g) = length keys.
Proof.
  intros Hg Hin. destruct g as [k l].
  apply (groupby_spec _ _ _ Hg) in Hin as (_ & Hl & Hne).
  destruct l as [|r0 l0]; [contradiction|].
  assert (Hr0 : In r0 (r0 :: l0)) by (left; reflexivity).
  rewrite Hl in Hr0. apply filter_In in Hr0 as [_ Hk].
  apply key_eqb_eq in Hk. subst k. cbn [fst]. apply length_map.
Qed.

(** X8. A comparison returned by [get_payment_comparison] is an inner join:
    every row carries a code and a description that occur together, without
    missing value, in a row of the community-care table; the code also occurs
    in the state table (services without a state baseline are left out);
    the row's total of services is the sum of Tot_Srvcs over the
    community-care rows of that code and description, for volumes that
    pandas sums exactly (below [2 ^ 53] in all); and no pair of code
    and description comes twice. *)
Theorem payment_comparison_is_inner_join
    (community_care_df ny_providers_df : DataFrame) (table : list PaymentRow) :
  Group.exact community_care_df "Tot_Srvcs" = true ->
  get_payment_comparison community_care_df ny_providers_df = Ok (Comparison table) ->
  (forall row, In row table ->
     hcpcs_code row <> CNaN /\ description row <> CNaN
     /\ (exists r, In r (rows community_care_df)
                   /\ Frame.cell community_care_df "HCPCS_Cd" r = hcpcs_code row
                   /\ Frame.cell community_care_df "HCPCS_Desc" r = description row)
     /\ In (hcpcs_code row) (Frame.series ny_providers_df "HCPCS_Cd")
     /\ total_services row
        = column_total community_care_df "Tot_Srvcs"
            (List.filter
               (fun r => Group.key_eqb
                           [ Frame.cell community_care_df "HCPCS_Cd" r;
                             Frame.cell community_care_df "HCPCS_Desc" r ]
                           [ hcpcs_code row; description row ])
               (rows community_care_df)))
  /\ NoDup (map (fun row => (hcpcs_code row, description row)) table).
Proof.
  intros Hexact. unfold get_payment_comparison.
  destruct (Frame.empty community_care_df || Frame.empty ny_providers_df); [discriminate|].
  destruct (forallb (Frame.has_column community_care_df) required_cols) eqn:Hreq;
    cbn [negb]; [|discriminate].
  unfold required_cols in Hreq.
  apply forallb_cons_true in Hreq as [Hcode Hreq].
  apply forallb_cons_true in Hreq as [Hallowed Hreq].
  apply forallb_cons_true in Hreq as [Hpayment _].
  intros H. apply bind_ok in H as (top & _ & H).
  apply bind_ok in H as (cc_groups & Hg & H).
  apply bind_ok in H as (u1 & _ & H).
  apply bind_ok in H as (cc_payments & Hagg & H).
  apply bind_ok in H as (u2 & _ & H).
  apply bind_ok in H as (ny_groups & Hnyg & H).
  apply bind_ok in H as (u3 & _ & H).
  apply bind_ok in H as (ny_payments & Hnyagg & H).
  inversion H; subst table; clear H u1 u2 u3.
  pose proof (cc_agg_spec _ _ _ Hagg) as Hcc.
  pose proof (ny_agg_codes _ _ _ Hnyagg) as Hny.
  destruct (groupby_spec _ _ _ Hg) as [Hnd Hin].
  destruct (groupby_spec _ _ _ Hnyg) as [Hnynd _].
  split.
  - intros row Hrow. apply sort_In in Hrow.
    apply merge_on_code_rows in Hrow as (p & n & Hp & Hn & Epn & -> & -> & ->).
    assert (Hp' : In (cc_code p, cc_desc p, cc_services p)
                     (map (fun p => (cc_code p, cc_desc p, cc_services p)) cc_payments)).
    { apply in_map_iff. exists p. split; [reflexivity|exact Hp]. }
    rewrite Hcc in Hp'. apply in_map_iff in Hp' as ([k l] & E & Hkl).
    cbn [fst snd] in E. inversion E as [[Ec Ed Es]]; clear E.
    apply Hin in Hkl as (Hnan & Hl & Hne).
    rewrite isin_rows_spec in Hl.
    destruct l as [|r0 l0]; [contradiction|]. clear Hne.
    assert (Hr0 : In r0 (r0 :: l0)) by (left; reflexivity).
    rewrite Hl in Hr0. apply filter_In in Hr0 as [Hr0 Hk].
    apply filter_In in Hr0 as [Hr0 Htop].
    apply key_eqb_eq in Hk. cbn [map] in Hk.
    change (Frame.cell (isin_rows community_care_df top)) with (Frame.cell community_care_df)
      in Hk, Hl.
    subst k. cbn [nth existsb] in *.
    apply orb_false_elim in Hnan as [Hn0 Hnan]. apply orb_false_elim in Hnan as [Hn1 _].
    split; [intros E; rewrite E in Hn0; discriminate|].
    split; [intros E; rewrite E in Hn1; discriminate|].
    split; [exists r0; repeat split; assumption|]. split.
    + assert (Hn' : In (ny_code n) (map ny_code ny_payments)) by (apply in_map; exact Hn).
      rewrite Hny in Hn'. apply in_map_iff in Hn' as ([k' l'] & E & Hkl').
      cbn [fst] in E.
      apply (groups_by_code _ _ Hnyg) in Hkl' as (c & -> & _ & Hc & _).
      cbn [nth] in E. rewrite <- Ec in Epn. rewrite Epn, <- E.
      unfold Frame.series in *. apply in_map_iff in Hc as (r & <- & Hr).
      rewrite isin_rows_spec in Hr. apply filter_In in Hr as [Hr _].
      apply in_map_iff. exists r. split; [reflexivity|exact Hr].
    + rewrite Hl, filter_filter. unfold column_total.
      change (Frame.cell (isin_rows community_care_df top))
        with (Frame.cell community_care_df).
      rewrite (exact_selection _ _ _ Hexact).
      f_equal. f_equal. apply List.filter_ext. intros r.
      destruct (Group.key_eqb _ _) eqn:E; [|apply andb_false_r].
      apply key_eqb_eq in E. inversion E as [[E0 E1]]. rewrite E0, Htop. reflexivity.
  - eapply NoDup_Permutation_proper;
      [apply Permutation_map, sort_perm|].
    eapply sublist_NoDup; [|apply merge_on_code_keys].
    + rewrite <- (map_map (fun p => (cc_code p, cc_desc p, cc_services p)) fst), Hcc, map_map.
      cbn [fst]. apply pair_keys_distinct; [|exact Hnd].
      intros g Hgin. apply (groupby_key_length _ _ _ _ Hg Hgin).
    + rewrite Hny. apply single_keys_distinct; [|exact Hnynd].
      intros g Hgin. apply (groupby_key_length _ _ _ _ Hnyg Hgin).
Qed.

Lemma payment_comparison_is_inner_join_witness :
  exists table,
    get_payment_comparison Sample.practice_records Sample.service_records
    = Ok (Comparison table)
    /\ map hcpcs_code table = [ CStr "99213"; CStr "G0008" ]
    /\ (forall row, In row table ->
          In (hcpcs_code row) (Frame.series Sample.service_records "HCPCS_Cd"))
    /\ NoDup (map (fun row => (hcpcs_code row, description row)) table).
Proof.
  eexists. split; [vm_compute; reflexivity|]. split; [reflexivity|].
  match goal with
  | |- (forall row, In row ?t -> _) /\ _ =>
      destruct (payment_comparison_is_inner_join
                  Sample.practice_records Sample.service_records t eq_refl)
        as [Hrows Hnd]; [vm_compute; reflexivity|]
  end.
  split; [|exact Hnd]. intros row Hrow. apply (Hrows row Hrow).
Defined.

(** ** Service volume by provider *)

(** X9. [get_service_volume_by_provider], on a non-empty table that has the
    columns provider_last_name and total_services, the latter without text
    and with numbers that pandas sums exactly (below [2 ^ 53] in all),
    returns one row per combination of last name, first name and specialty
    (those of the three columns that exist) that occurs without missing
    value, with the sum of total_services over the rows of that combination,
    rows by descending sum.  The sums account for the rows whose grouping
    columns are all present only: a row with a missing first name or
    specialty is counted nowhere. *)
Theorem service_volume_totals (providers_df : DataFrame) :
  Frame.empty providers_df = false ->
  Frame.has_column providers_df "provider_last_name" = true ->
  Frame.has_column providers_df "total_services" = true ->
  Group.numeric providers_df "total_services" = true ->
  Group.exact providers_df "total_services" = true ->
  exists totals : list (list Cell * Z),
    get_service_volume_by_provider providers_df
    = Ok (mkDataFrame
            (map volume_renames (volume_group_cols providers_df ++ [ "total_services" ]))
            (map (fun ks => fst ks ++ [ CInt (snd ks) ]) totals))
    /\ NoDup (map fst totals)
    /\ (forall k v,
          In (k, v) totals <->
          complete k = true
          /\ (exists r, In r (rows providers_df)
                        /\ key_of providers_df (volume_group_cols providers_df) r = k)
          /\ v = column_total providers_df "total_services"
                   (List.filter
                      (fun r => Group.key_eqb
                                  (key_of providers_df (volume_group_cols providers_df) r) k)
                      (rows providers_df)))
    /\ StronglySorted (fun a b => (snd b <= snd a)%Z) totals
    /\ zsum (map snd totals)
       = column_total providers_df "total_services"
           (List.filter
              (fun r => complete (key_of providers_df (volume_group_cols providers_df) r))
              (rows providers_df)).
Proof.
  intros He Hlast Hsrv Hnum Hexact.
  destruct (sorted_sums_spec providers_df (volume_group_cols providers_df) "total_services")
    as (totals & Ht & Hspec); [|exact Hsrv|exact Hnum|exact Hexact|].
  { unfold volume_group_cols.
    destruct (Frame.has_column providers_df "provider_first_name") eqn:Hfirst;
      destruct (Frame.has_column providers_df "provider_type") eqn:Htype;
      cbn [app forallb]; rewrite Hlast, ?Hfirst, ?Htype; reflexivity. }
  exists totals. split; [|exact Hspec].
  unfold get_service_volume_by_provider. rewrite He, Hsrv, Hlast. cbn [negb orb].
  fold (volume_group_cols providers_df).
  apply bind_ok in Ht as (sums & Hs & Ht). rewrite Hs. cbn [bind].
  inversion Ht. reflexivity.
Qed.

Lemma service_volume_totals_witness :
  exists totals : list (list Cell * Z),
    get_service_volume_by_provider Sample.volume_records
    = Ok (mkDataFrame
            [ "Provider Last/Org Name"; "Provider First Name"; "Specialty"; "Total Services" ]
            (map (fun ks => fst ks ++ [ CInt (snd ks) ]) totals))
    /\ zsum (map snd totals) = 350%Z
    /\ column_total Sample.volume_records "total_services" (rows Sample.volume_records)
       = 1250%Z.
Proof.
  destruct (service_volume_totals Sample.volume_records)
    as (totals & Ht & _ & _ & _ & Hsum); try reflexivity.
  exists totals. split; [exact Ht|]. split; [rewrite Hsum|]; reflexivity.
Defined.

(** ** Providers by specialty *)

Lemma distinct_spec cells c : In c (distinct cells) <-> c <> CNaN /\ In c cells.
Proof.
  unfold distinct. rewrite <- list_elem_of_In, elem_of_remove_dups, list_elem_of_In.
  rewrite filter_In. split.
  - intros [Hin Hc]. split; [|exact Hin]. intros ->. discriminate.
  - intros [Hc Hin]. split; [exact Hin|]. destruct c; try reflexivity. contradiction.
Qed.

Lemma nunique_spec cells : nunique cells = length (distinct cells).
Proof.
  unfold nunique.
  rewrite <- (length_map fst), <- (length_map (fun c : Cell => [c]) (distinct cells)).
  apply Permutation_length. apply NoDup_Permutation.
  - apply (collect_spec _).
  - apply NoDup_fmap_2_strong; [|apply NoDup_remove_dups].
    intros a b _ _ E. inversion E. reflexivity.
  - intros k. rewrite !list_elem_of_In, !in_map_iff. split.
    + intros ([k' l] & <- & Hin). apply collect_singletons in Hin as (c & -> & Hc & Hin & _).
      exists c. split; [reflexivity|]. apply distinct_spec. split; assumption.
    + intros (c & <- & Hin). apply distinct_spec in Hin as [Hc Hin].
      exists ([c], List.filter (fun x => Frame.cell_eqb x c) cells).
      split; [reflexivity|]. apply collect_singletons. exists c. repeat split; assumption.
Qed.

Lemma groups_by_column df col groups :
  Group.groupby df [ col ] = Ok groups ->
  forall k l,
    In (k, l) groups <->
    exists c,
      k = [c] /\ c <> CNaN /\ In c (Frame.series df col)
      /\ l = List.filter (fun r => Frame.cell_eqb (Frame.cell df col r) c) (rows df).
Proof.
  intros Hg k l. rewrite (proj2 (groupby_spec _ _ _ Hg) k l).
  cbn [map]. split.
  - intros (Hnan & Hl & Hne).
    destruct l as [|r0 l0]; [contradiction|].
    assert (Hr0 : In r0 (r0 :: l0)) by (left; reflexivity).
    rewrite Hl in Hr0. apply filter_In in Hr0 as [Hin0 Hk0].
    apply key_eqb_eq in Hk0. subst k.
    exists (Frame.cell df col r0). split; [reflexivity|]. split.
    + intros E. rewrite E in Hnan. discriminate.
    + split; [unfold Frame.series; apply in_map; exact Hin0|].
      rewrite Hl. apply List.filter_ext. intros r. simpl. apply andb_true_r.
  - intros (c & -> & Hc & Hin & ->). split; [|split].
    + simpl. destruct c; try reflexivity. contradiction.
    + apply List.filter_ext. intros r. simpl. rewrite andb_true_r. reflexivity.
    + unfold Frame.series in Hin. apply in_map_iff in Hin as (r & Hr & Hin).
      intros E.
      assert (H : In r (List.filter
                          (fun r => Frame.cell_eqb (Frame.cell df col r) c) (rows df))).
      { apply filter_In. split; [exact Hin|]. apply cell_eqb_eq. exact Hr. }
      rewrite E in H. destruct H.
Qed.

(** X10. [get_specialty_distribution_from_services], on a non-empty table
    with the columns Rndrng_Prvdr_Type and Rndrng_NPI, returns one row per
    specialty that occurs; its count is the number of distinct provider
    identifiers among the rows of that specialty, not the number of rows, and
    the rows come by descending count. *)
Theorem specialty_distribution_counts_providers (df : DataFrame) :
  Frame.empty df = false ->
  Frame.has_column df "Rndrng_Prvdr_Type" = true ->
  Frame.has_column df "Rndrng_NPI" = true ->
  exists counts : list (Cell * nat),
    get_specialty_distribution_from_services df
    = Ok (mkDataFrame [ "Specialty"; "Provider Count" ]
            (map (fun sc => [ fst sc; CInt (Z.of_nat (snd sc)) ]) counts))
    /\ NoDup (map fst counts)
    /\ (forall specialty n,
          In (specialty, n) counts <->
          specialty <> CNaN
          /\ In specialty (Frame.series df "Rndrng_Prvdr_Type")
          /\ n = length
                   (distinct
                      (map (Frame.cell df "Rndrng_NPI")
                         (List.filter
                            (fun r => Frame.cell_eqb
                                        (Frame.cell df "Rndrng_Prvdr_Type" r) specialty)
                            (rows df)))))
    /\ StronglySorted (fun a b => (snd b <= snd a)%nat) counts.
Proof.
  intros He Htype Hnpi. unfold get_specialty_distribution_from_services.
  rewrite He, Htype, Hnpi. cbn [negb orb].
  assert (Hk : forallb (Frame.has_column df) [ "Rndrng_Prvdr_Type" ] = true)
    by (cbn [forallb]; rewrite Htype; reflexivity).
  pose proof (groupby_ok _ _ Hk) as Hg. rewrite Hg. cbn [bind].
  set (groups := Sort.sort _ (Group.collect _)) in *.
  pose proof (groups_by_column _ _ _ Hg) as Hin.
  destruct (groupby_spec _ _ _ Hg) as [Hnd _].
  set (counted := map (fun g : list Cell * list Row =>
                         (fst g, nunique (map (Frame.cell df "Rndrng_NPI") (snd g)))) groups).
  set (sorted := Sort.sort (fun a b : list Cell * nat => (snd b <=? snd a)%nat) counted).
  assert (Hp : Permutation sorted counted) by apply sort_perm.
  assert (Hkeys : forall kc, In kc sorted -> fst kc = [ hd CNaN (fst kc) ]).
  { intros kc Hkc. apply (Permutation_in _ Hp) in Hkc.
    apply in_map_iff in Hkc as ([k l] & <- & Hkl).
    apply Hin in Hkl as (c & -> & _). reflexivity. }
  exists (map (fun kc => (hd CNaN (fst kc), snd kc)) sorted).
  split; [|split; [|split]].
  - f_equal. f_equal. rewrite map_map. cbn [fst snd]. apply map_ext_in.
    intros kc Hkc. rewrite (Hkeys kc Hkc) at 1. reflexivity.
  - rewrite map_map. cbn [fst]. rewrite <- (map_map fst (hd CNaN)).
    apply NoDup_fmap_2_strong.
    + intros k1 k2 H1 H2 E.
      apply list_elem_of_In, in_map_iff in H1 as (kc1 & <- & H1).
      apply list_elem_of_In, in_map_iff in H2 as (kc2 & <- & H2).
      rewrite (Hkeys kc1 H1), (Hkeys kc2 H2). cbn [hd] in E |- *. congruence.
    + eapply NoDup_Permutation_proper; [apply Permutation_map; exact Hp|].
      unfold counted. rewrite map_map. cbn [fst]. exact Hnd.
  - intros specialty n. rewrite in_map_iff. split.
    + intros ([k m] & E & Hkm). cbn [fst snd] in E. inversion E; subst; clear E.
      apply (Permutation_in _ Hp) in Hkm.
      apply in_map_iff in Hkm as ([k' l] & E & Hkl). cbn [fst snd] in E.
      inversion E; subst; clear E.
      apply Hin in Hkl as (c & -> & Hc & Hs & ->). cbn [hd].
      split; [exact Hc|]. split; [exact Hs|]. apply nunique_spec.
    + intros (Hc & Hs & ->).
      exists ([specialty],
              nunique (map (Frame.cell df "Rndrng_NPI")
                         (List.filter
                            (fun r => Frame.cell_eqb
                                        (Frame.cell df "Rndrng_Prvdr_Type" r) specialty)
                            (rows df)))).
      split; [cbn [fst snd hd]; rewrite nunique_spec; reflexivity|].
      apply (Permutation_in _ (Permutation_sym Hp)).
      apply in_map_iff.
      exists ([specialty],
              List.filter
                (fun r => Frame.cell_eqb (Frame.cell df "Rndrng_Prvdr_Type" r) specialty)
                (rows df)).
      split; [reflexivity|]. apply Hin. exists specialty. repeat split; assumption.
  - assert (Hs : StronglySorted (fun a b : list Cell * nat => (snd b <= snd a)%nat) sorted).
    { eapply sorted_weaken; [|apply sort_sorted].
      - intros a b H. apply Nat.leb_le. exact H.
      - intros a b. destruct (Nat.le_ge_cases (snd a) (snd b)); [right|left];
          apply Nat.leb_le; assumption.
      - intros a b c H1 H2. apply Nat.leb_le. apply Nat.leb_le in H1, H2. lia. }
    clear -Hs. induction Hs as [|a l Hs IH Hall]; cbn [map]; constructor; [exact IH|].
    rewrite List.Forall_forall in *. intros b Hb.
    apply in_map_iff in Hb as (b' & <- & Hb'). cbn [snd]. apply Hall. exact Hb'.
Qed.

Lemma specialty_distribution_counts_providers_witness :
  exists counts : list (Cell * nat),
    get_specialty_distribution_from_services Sample.service_records
    = Ok (mkDataFrame [ "Specialty"; "Provider Count" ]
            (map (fun sc => [ fst sc; CInt (Z.of_nat (snd sc)) ]) counts))
    /\ In (CStr "Family Practice", 2%nat) counts
    /\ length (List.filter
                 (fun r => Frame.cell_eqb
                             (Frame.cell Sample.service_records "Rndrng_Prvdr_Type" r)
                             (CStr "Family Practice"))
                 (rows Sample.service_records)) = 3%nat.
Proof.
  destruct (specialty_distribution_counts_providers Sample.service_records)
    as (counts & Hc & _ & Hin & _); try reflexivity.
  exists counts. split; [exact Hc|]. split; [|reflexivity].
  apply Hin. split; [discriminate|]. split; [|reflexivity].
  vm_compute. tauto.
Defined.

(** ** The broader match of the service path *)

Lemma find_nobody df :
  Frame.len (find_community_care_providers df) = 0%nat ->
  find_community_care_providers df = Frame.head0 df.
Proof.
  unfold find_community_care_providers, Frame.len, Frame.head0.
  destruct (Frame.empty df).
  - destruct df as [cols [|r rs]]; cbn [rows columns length]; [reflexivity|discriminate].
  - unfold Frame.boolean_index. cbn [rows].
    destruct (Frame.select _ _); cbn [length]; [reflexivity|discriminate].
Qed.

(** X11. In [analyze_provider_service_data], on a table whose probed
    columns are text columns (so that no [.str] accessor raises), the
    broader match can change the population only for a table that has a
    city column and no specialty column: in every other case the population
    is what the strict match returns, be it empty.  (A row of a known city
    and a primary-care specialty passes the strict match already.) *)
Theorem fallback_only_without_specialty (ny_providers : DataFrame) :
  str_ready ny_providers = true ->
  (Frame.has_column ny_providers "Rndrng_Prvdr_City" = true ->
   Frame.has_column ny_providers "Rndrng_Prvdr_Type" = true) ->
  service_population ny_providers = find_community_care_providers ny_providers.
Proof.
  intros _ Himp.
  destruct (Frame.len (find_community_care_providers ny_providers) =? 0)%nat eqn:Hz;
    [|unfold service_population; rewrite Hz; reflexivity].
  pose proof Hz as Hz'. apply Nat.eqb_eq in Hz'. rewrite (find_nobody _ Hz').
  destruct (Frame.has_column ny_providers "Rndrng_Prvdr_City") eqn:Hcity.
  - pose proof (Himp eq_refl) as Htype.
    pose proof (fallback_adds_nothing ny_providers Hcity Htype Hz') as Hrows.
    assert (Hcols : columns (service_population ny_providers) = columns ny_providers).
    { unfold service_population. rewrite Hz, Hcity.
      change (Frame.has_column (Frame.boolean_index ny_providers ?m) "Rndrng_Prvdr_Type")
        with (Frame.has_column ny_providers "Rndrng_Prvdr_Type").
      rewrite Htype. reflexivity. }
    destruct (service_population ny_providers) as [cols rs].
    cbn [rows columns] in Hrows, Hcols. subst. reflexivity.
  - unfold service_population. rewrite Hz, Hcity. reflexivity.
Qed.

Lemma fallback_only_without_specialty_witness :
  service_population Sample.strangers = find_community_care_providers Sample.strangers
  /\ Frame.len (find_community_care_providers Sample.strangers) = 0%nat.
Proof.
  split; [|reflexivity].
  apply (fallback_only_without_specialty Sample.strangers); reflexivity.
Defined.

(** ** The cache of downloads *)

(** X12. [download_file] for a plain file name in a plain data directory,
    on a path that holds no file: when the server
    answers, the body is written at that path and nowhere else, the URL is
    requested once, and from then on the call is served from the file,
    whatever the URL, without a request; when the request fails, the failure
    is raised. *)
Theorem download_file_fetches_once
    (env : Env) (base_dir url local_filename : string) (w : World) :
  plain_name base_dir = true ->
  plain_name local_filename = true ->
  files w !! path_join base_dir local_filename = None ->
  match http_get env url with
  | Ok body =>
      exists w',
        download_file env base_dir url local_filename w
        = Ok (path_join base_dir local_filename, w')
        /\ files w' !! path_join base_dir local_filename = Some body
        /\ (forall path, path <> path_join base_dir local_filename ->
                         files w' !! path = files w !! path)
        /\ requests w' = requests w ++ [ url ]
        /\ (forall url',
              download_file env base_dir url' local_filename w'
              = Ok (path_join base_dir local_filename, w'))
  | Raise e => download_file env base_dir url local_filename w = Raise e
  end.
Proof.
  intros _ _ Hnone. unfold download_file at 1 3. rewrite Hnone.
  destruct (http_get env url) as [body|e]; cbn [bind]; [|reflexivity].
  eexists. split; [reflexivity|]. cbn [files requests].
  split; [apply lookup_insert_eq|]. split; [|split; [reflexivity|]].
  - intros path Hne. apply lookup_insert_ne. congruence.
  - intros url'. apply download_file_cached. cbn [files].
    rewrite lookup_insert_eq. eexists. reflexivity.
Qed.

Lemma download_file_fetches_once_witness :
  exists w',
    download_file Sample.online "data" latest_dataset_url "medicare_services.csv" Sample.cold
    = Ok ("data/medicare_services.csv", w')
    /\ requests w' = [ latest_dataset_url ]
    /\ download_file Sample.online "data" latest_dataset_url "medicare_services.csv" w'
       = Ok ("data/medicare_services.csv", w').
Proof.
  pose proof (download_file_fetches_once Sample.online "data" latest_dataset_url
                "medicare_services.csv" Sample.cold eq_refl eq_refl eq_refl) as H.
  cbn [http_get Sample.online] in H. destruct H as (w' & Hd & _ & _ & Hr & Hagain).
  exists w'. split; [exact Hd|]. split; [exact Hr|]. apply Hagain.
Defined.

Lemma read_table_present env path w df :
  read_table env path w = Ok df -> is_Some (files w !! path).
Proof.
  unfold read_table. destruct (files w !! path); [eexists; reflexivity|discriminate].
Qed.

Lemma string_length_app (a b : string) :
  String.length (a ++ b) = (String.length a + String.length b)%nat.
Proof. induction a as [|c a IH]; simpl; [reflexivity|]. rewrite IH. reflexivity. Qed.

Lemma plain_name_relative name : plain_name name = true -> is_absolute name = false.
Proof.
  unfold plain_name. intros H.
  apply andb_prop in H as [_ H]. destruct name as [|c name]; [reflexivity|].
  cbn [list_ascii_of_string forallb] in H.
  apply andb_prop in H as [H _]. apply andb_prop in H as [H _].
  cbn [is_absolute]. destruct (Ascii.eqb c "/"); [discriminate|reflexivity].
Qed.

Lemma is_absolute_app dir rest :
  dir <> EmptyString -> is_absolute (dir ++ rest) = is_absolute dir.
Proof. destruct dir as [|c dir]; [contradiction|reflexivity]. Qed.

(** In a plain data directory, joining a joined path to the directory again
    gives a path inside a directory of the same name within it. *)
Lemma path_join_twice base_dir name :
  plain_name base_dir = true -> plain_name name = true ->
  path_join base_dir (path_join base_dir name) <> path_join base_dir name.
Proof.
  intros Hdir Hname.
  assert (Hne : base_dir <> EmptyString).
  { intros ->. discriminate Hdir. }
  unfold path_join. rewrite (plain_name_relative _ Hname).
  rewrite (is_absolute_app _ _ Hne), (plain_name_relative _ Hdir).
  intros E. apply (f_equal String.length) in E.
  rewrite !string_length_app in E. cbn [String.length] in E. lia.
Qed.

(** X13. [get_medicare_providers] passes the joined path to [download_file],
    which joins it to the data directory again.  So in a plain data
    directory (as the default directory [data]), a missing
    [medicare_providers.csv] makes the call raise, even if the server
    answers; and [run_analysis] raises when the provider-service file is
    missing as well. *)
Theorem cold_provider_cache_raises (env : Env) (base_dir now : string) (w : World) :
  plain_name base_dir = true ->
  files w !! path_join base_dir "medicare_providers.csv" = None ->
  (exists e, get_medicare_providers env base_dir w = Raise e)
  /\ (files w !! path_join base_dir service_file = None ->
      exists e, run_analysis env base_dir now w = Raise e).
Proof.
  intros Hplain Hnone.
  pose proof (path_join_twice base_dir "medicare_providers.csv" Hplain eq_refl) as Hne.
  assert (H : exists e, get_medicare_providers env base_dir w = Raise e).
  { unfold get_medicare_providers. rewrite Hnone. unfold download_file.
    destruct (files w !! path_join base_dir (path_join base_dir "medicare_providers.csv"));
      cbn [bind snd].
    - unfold read_table. rewrite Hnone. eexists. reflexivity.
    - destruct (http_get env provider_dataset_url) as [body|e]; cbn [bind snd];
        [|eexists; reflexivity].
      unfold read_table. cbn [files]. rewrite lookup_insert_ne by exact Hne.
      rewrite Hnone. eexists. reflexivity. }
  split; [exact H|]. intros Hsvc. destruct H as [e He].
  exists e. unfold run_analysis. rewrite Hsvc, He. reflexivity.
Qed.

Lemma cold_provider_cache_raises_witness :
  (exists e, get_medicare_providers Sample.online "data" Sample.cold = Raise e)
  /\ (exists e, run_analysis Sample.online "data" "2026-01-01 00:00:00" Sample.cold = Raise e).
Proof.
  destruct (cold_provider_cache_raises Sample.online "data" "2026-01-01 00:00:00" Sample.cold)
    as [Hget Hrun]; [reflexivity|reflexivity|].
  split; [exact Hget|]. apply Hrun. reflexivity.
Defined.

(** X14. What [load_provider_data] has downloaded, [get_medicare_providers]
    finds in the cache: after a successful load it returns a table, requests
    nothing and leaves the files as they are; and a second
    [load_provider_data] returns the same table as the first, again without
    a request. *)
Theorem provider_file_round_trip
    (env : Env) (base_dir : string) (w w' : World) (df : DataFrame) :
  load_provider_data env base_dir w = Ok (df, w') ->
  (exists providers_df, get_medicare_providers env base_dir w' = Ok (providers_df, w'))
  /\ load_provider_data env base_dir w' = Ok (df, w').
Proof.
  unfold load_provider_data. intros H.
  apply bind_ok in H as ([path w1] & Hd & H). cbn [fst snd] in H.
  apply bind_ok in H as (df' & Hread & H). inversion H; subst df' w1; clear H.
  assert (Hpath : path = path_join base_dir "medicare_providers.csv").
  { unfold download_file in Hd.
    destruct (files w !! path_join base_dir "medicare_providers.csv").
    - inversion Hd. reflexivity.
    - apply bind_ok in Hd as (body & _ & Hd). inversion Hd. reflexivity. }
  subst path. pose proof (read_table_present _ _ _ _ Hread) as Hsome. split.
  - exists df. unfold get_medicare_providers. destruct Hsome as [content Hc]. rewrite Hc.
    rewrite Hread. reflexivity.
  - rewrite (download_file_cached _ _ _ _ _ Hsome). cbn [bind fst snd].
    rewrite Hread. reflexivity.
Qed.

Lemma provider_file_round_trip_witness :
  exists w',
    load_provider_data Sample.online "data" Sample.cold = Ok (Sample.service_records, w')
    /\ (exists providers_df,
          get_medicare_providers Sample.online "data" w' = Ok (providers_df, w'))
    /\ requests w' = [ provider_dataset_url ].
Proof.
  eexists. split; [reflexivity|]. split; [|reflexivity].
  apply (provider_file_round_trip Sample.online "data" Sample.cold _ Sample.service_records).
  reflexivity.
Defined.

Lemma path_join_relative_inj dir n1 n2 :
  is_absolute n1 = false -> is_absolute n2 = false ->
  path_join dir n1 = path_join dir n2 -> n1 = n2.
Proof.
  unfold path_join. intros -> ->. intros H.
  apply append_inj_l in H. apply (append_inj_l "/") in H. exact H.
Qed.

(** X15. [load_service_data] stores its download as [medicare_services.csv],
    which is not the file [run_analysis] looks for: a successful load leaves
    the entry of the provider-service file in the data directory as it
    was, so a missing file is still missing afterwards. *)
Theorem load_service_data_keeps_service_file
    (env : Env) (base_dir : string) (w w' : World) (df : DataFrame) :
  load_service_data env base_dir w = Ok (df, w') ->
  files w' !! path_join base_dir service_file = files w !! path_join base_dir service_file.
Proof.
  unfold load_service_data. intros H.
  apply bind_ok in H as ([path w1] & Hd & H). cbn [fst snd] in H.
  apply bind_ok in H as (df' & _ & H). inversion H; subst df' w1; clear H.
  unfold download_file in Hd.
  destruct (files w !! path_join base_dir "medicare_services.csv").
  - inversion Hd. reflexivity.
  - apply bind_ok in Hd as (body & _ & Hd). inversion Hd. cbn [files].
    apply lookup_insert_ne. intros E.
    apply path_join_relative_inj in E; [discriminate|reflexivity|reflexivity].
Qed.

Lemma load_service_data_keeps_service_file_witness :
  exists w',
    load_service_data Sample.online "data" Sample.cold = Ok (Sample.service_records, w')
    /\ files w' !! path_join "data" service_file = None.
Proof.
  eexists. split; [reflexivity|].
  apply (load_service_data_keeps_service_file Sample.online "data" Sample.cold
           _ Sample.service_records).
  reflexivity.
Defined.

(** ** Files that [save_results] leaves alone *)

Lemma commit_untouched writes w path :
  ~ In path (map fst writes) -> files (commit writes w) !! path = files w !! path.
Proof.
  induction writes as [|[p c] writes IH] using rev_ind; intros Hnot; [reflexivity|].
  rewrite map_app, in_app_iff in Hnot. cbn [map fst] in Hnot.
  rewrite commit_files_last. rewrite lookup_insert_ne by (intros ->; apply Hnot; right; left; reflexivity).
  apply IH. intros Hin. apply Hnot. left. exact Hin.
Qed.



Lemma count_key_not_timestamp name : ("timestamp" <> name ++ "_count")%string.
Proof.
  intros E. pose proof (f_equal String.length E) as L.
  rewrite string_length_app in L. cbn in L.
  destruct name as [|c1 [|c2 [|c3 [|c4 name]]]]; cbn in L; try lia.
  simpl in E. discriminate E.
Qed.

Lemma count_key_not_dataset name : ("dataset" <> name ++ "_count")%string.
Proof.
  intros E. pose proof (f_equal String.length E) as L.
  rewrite string_length_app in L. cbn in L.
  destruct name as [|c1 [|c2 name]]; cbn in L; try lia.
  simpl in E. discriminate E.
Qed.

(** X17. Whatever the results are called, the row counts never overwrite
    the two leading entries of the summary: [analysis_summary.csv] has the
    time of the run under [timestamp], and under [dataset] the text
    Provider-Service when the results hold a key [top_services] and
    Provider otherwise. *)
Theorem summary_names_the_run (results : Results) (now : string) :
  let summary := summary_df (summary_of results now) in
  In "timestamp" (columns summary)
  /\ Frame.series summary "timestamp" = [ CStr now ]
  /\ In "dataset" (columns summary)
  /\ Frame.series summary "dataset"
     = [ CStr (if existsb (fun entry => String.eqb (fst entry) "top_services") results
               then "Provider-Service" else "Provider") ].
Proof.
  cbn zeta.
  assert (Ht : dict_get "timestamp" (summary_of results now) = Some (CStr now)).
  { unfold summary_of. rewrite summary_counts_other; [reflexivity|].
    intros name v _. apply count_key_not_timestamp. }
  assert (Hd : dict_get "dataset" (summary_of results now)
               = Some (CStr (if existsb (fun entry => String.eqb (fst entry) "top_services")
                                  results
                             then "Provider-Service" else "Provider"))).
  { unfold summary_of. rewrite summary_counts_other; [reflexivity|].
    intros name v _. apply count_key_not_dataset. }
  destruct (dict_get_cell _ _ _ Ht) as [H1 H2].
  destruct (dict_get_cell _ _ _ Hd) as [H3 H4].
  repeat split; assumption.
Qed.

(** ** Payment statistics *)

Lemma sort_ascending (l : list Z) : StronglySorted Z.le (Sort.sort Z.leb l).
Proof.
  eapply sorted_weaken; [|apply (sort_sorted Z.leb)].
  - intros a b H. apply Z.leb_le. exact H.
  - intros a b. destruct (Z.le_ge_cases a b); [left|right]; apply Z.leb_le; assumption.
  - intros a b c H1 H2. apply Z.leb_le. apply Z.leb_le in H1, H2. lia.
Qed.

Lemma sorted_hd_least (l : list Z) v :
  StronglySorted Z.le l -> In v l -> (hd 0%Z l <= v)%Z.
Proof.
  intros Hs Hin. destruct Hs as [|a l Hs Hall]; [destruct Hin|].
  cbn [hd]. destruct Hin as [<-|Hin]; [lia|].
  rewrite List.Forall_forall in Hall. apply Hall. exact Hin.
Qed.

Lemma sorted_last_greatest (l : list Z) v :
  StronglySorted Z.le l -> In v l -> (v <= List.last l 0%Z)%Z.
Proof.
  intros Hs. revert v. induction Hs as [|a l Hs IH Hall]; intros v Hin; [destruct Hin|].
  destruct l as [|b l'].
  - destruct Hin as [<-|[]]. cbn. lia.
  - change (List.last (a :: b :: l') 0%Z) with (List.last (b :: l') 0%Z).
    destruct Hin as [<-|Hin]; [|apply IH; exact Hin].
    rewrite List.Forall_forall in Hall.
    transitivity b; [apply Hall; left; reflexivity|].
    apply IH. left. reflexivity.
Qed.

Lemma last_In (l : list Z) : l <> [] -> In (List.last l 0%Z) l.
Proof.
  induction l as [|a [|b l'] IH]; intros Hne; [contradiction|left; reflexivity|].
  right. apply IH. discriminate.
Qed.

Lemma describe_bounds (values : list Z) :
  values <> [] ->
  In (stat_min (describe values)) values
  /\ In (stat_max (describe values)) values
  /\ forall v, In v values ->
       (stat_min (describe values) <= v <= stat_max (describe values))%Z.
Proof.
  intros Hne. unfold describe. cbn [stat_min stat_max].
  pose proof (sort_perm Z.leb values) as Hp.
  pose proof (sort_ascending values) as Hs.
  assert (Hne' : Sort.sort Z.leb values <> []).
  { intros E. rewrite E in Hp. apply Permutation_nil in Hp. contradiction. }
  split; [|split].
  - apply (Permutation_in _ Hp).
    destruct (Sort.sort Z.leb values); [contradiction|left; reflexivity].
  - apply (Permutation_in _ Hp). apply last_In. exact Hne'.
  - intros v Hv. apply (Permutation_in _ (Permutation_sym Hp)) in Hv. split.
    + apply sorted_hd_least; assumption.
    + apply sorted_last_greatest; assumption.
Qed.

Lemma payment_stats_of_spec df cols stats :
  payment_stats_of df cols = Ok stats ->
  forall col s,
    In (col, s) stats <->
    In col cols
    /\ exists values,
         dropna (Frame.series df col) = Ok values /\ values <> [] /\ s = describe values.
Proof.
  revert stats. induction cols as [|c cols IH]; intros stats H col s.
  - cbn [payment_stats_of] in H. inversion H. split; [intros []|intros [[] _]].
  - cbn [payment_stats_of] in H.
    apply bind_ok in H as (col_data & Hdata & H).
    apply bind_ok in H as (rest & Hrest & H).
    specialize (IH rest Hrest col s).
    destruct col_data as [|z zs].
    + inversion H; subst stats; clear H. rewrite IH. split.
      * intros [Hin Hv]. split; [right; exact Hin|exact Hv].
      * intros [[<-|Hin] Hv]; [|split; assumption].
        destruct Hv as (values & Hd & Hne & _). rewrite Hdata in Hd.
        inversion Hd; subst. contradiction.
    + inversion H; subst stats; clear H. cbn [In]. rewrite IH. split.
      * intros [E|[Hin Hv]].
        -- inversion E; subst. split; [left; reflexivity|].
           exists (z :: zs). split; [exact Hdata|]. split; [discriminate|reflexivity].
        -- split; [right; exact Hin|exact Hv].
      * intros [[<-|Hin] Hv]; [|right; split; assumption].
        left. destruct Hv as (values & Hd & _ & ->). rewrite Hdata in Hd.
        inversion Hd. reflexivity.
Qed.

(** X18. What [get_payment_statistics] returns has an entry exactly for the
    payment columns of the table that hold at least one value: a column of
    missing values only gets no entry.  In each entry the minimum and the
    maximum are values of the column, and every value of the column lies
    between them. *)
Theorem payment_statistics_bounds
    (providers_df : DataFrame) (stats : list (string * PaymentStats)) :
  get_payment_statistics providers_df = Ok stats ->
  (forall col,
     (exists s, In (col, s) stats) <->
     In col payment_cols
     /\ Frame.has_column providers_df col = true
     /\ exists values,
          dropna (Frame.series providers_df col) = Ok values /\ values <> [])
  /\ (forall col s values,
        In (col, s) stats ->
        dropna (Frame.series providers_df col) = Ok values ->
        In (stat_min s) values
        /\ In (stat_max s) values
        /\ forall v, In v values -> (stat_min s <= v <= stat_max s)%Z).
Proof.
  unfold get_payment_statistics. intros H.
  assert (Hspec : forall col s,
             In (col, s) stats <->
             In col (List.filter (Frame.has_column providers_df) payment_cols)
             /\ exists values,
                  dropna (Frame.series providers_df col) = Ok values
                  /\ values <> [] /\ s = describe values).
  { destruct (Frame.empty providers_df) eqn:He.
    - inversion H; subst stats. intros col s. split; [intros []|].
      intros (_ & values & Hd & Hne & _). exfalso. apply Hne.
      unfold Frame.series in Hd. unfold Frame.empty in He.
      destruct (rows providers_df) as [|r rs] eqn:Hrows.
      + cbn in Hd. inversion Hd. reflexivity.
      + destruct (columns providers_df) eqn:Hcols; [|discriminate].
        assert (Hnan : forall rows0, dropna (map (Frame.cell providers_df col) rows0) = Ok []).
        { intros rows0. induction rows0 as [|r0 rows0 IHr]; [reflexivity|].
          cbn [map dropna]. unfold Frame.cell at 1. rewrite Hcols. cbn. exact IHr. }
        rewrite Hnan in Hd. inversion Hd. reflexivity.
    - destruct (List.filter (Frame.has_column providers_df) payment_cols) eqn:Hf.
      + inversion H; subst stats. intros col s. split; [intros []|intros [[] _]].
      + rewrite <- Hf in *. apply payment_stats_of_spec. exact H. }
  split.
  - intros col. split.
    + intros (s & Hin). apply Hspec in Hin as (Hcol & values & Hd & Hne & _).
      apply filter_In in Hcol as [Hcol Hhas].
      split; [exact Hcol|]. split; [exact Hhas|]. exists values. split; assumption.
    + intros (Hcol & Hhas & values & Hd & Hne). exists (describe values).
      apply Hspec. split; [apply filter_In; split; assumption|].
      exists values. repeat split; assumption.
  - intros col s values Hin Hd.
    apply Hspec in Hin as (_ & values' & Hd' & Hne & ->).
    rewrite Hd in Hd'. inversion Hd'; subst values'.
    apply describe_bounds. exact Hne.
Qed.

Lemma payment_statistics_bounds_witness :
  exists stats,
    get_payment_statistics Sample.charges = Ok stats
    /\ map fst stats = [ "avg_submitted_charge" ]
    /\ (forall s, In ("avg_submitted_charge", s) stats ->
          forall v, In v [ 150; 90; 210 ]%Z -> (stat_min s <= v <= stat_max s)%Z).
Proof.
  eexists. split; [reflexivity|]. split; [reflexivity|].
  intros s Hin.
  apply (proj2 (payment_statistics_bounds Sample.charges _ eq_refl)
           "avg_submitted_charge" s [ 150; 90; 210 ]%Z Hin eq_refl).
Defined.

(** ** The report stage after the fetch stage *)

Lemma read_table_missing env path w :
  files w !! path = None -> read_table env path w = Raise (IOError path).
Proof. intros H. unfold read_table. rewrite H. reflexivity. Qed.

Lemma bind_raises {A B : Type} (m : Res A) (k : A -> Res B) :
  (forall a, m = Ok a -> exists e, k a = Raise e) -> exists e, bind m k = Raise e.
Proof.
  destruct m as [a|e]; cbn [bind]; intros H; [apply (H a eq_refl)|eexists; reflexivity].
Qed.

Lemma raise_raises {A : Type} (e : Exn) : exists e', @Raise A e = Raise e'.
Proof. eexists. reflexivity. Qed.

Lemma visualizations_need_top_services {Figure Analysis : Type}
    (env : Env) (plt : Plotly Figure) (dash : Dashboard Figure Analysis) (w : World) :
  files w !! results_file "top_services.csv" = None ->
  exists e, create_visualizations env plt dash w = Raise e.
Proof.
  intros H. unfold create_visualizations.
  apply bind_raises. intros data _.
  rewrite (read_table_missing _ _ _ H). apply raise_raises.
Qed.

Lemma report_needs_top_services {Figure : Type}
    (env : Env) (plt : Plotly Figure) (charts : SimpleCharts Figure) (w : World) :
  files w !! results_file "top_services.csv" = None ->
  create_report env plt charts w = (false, w).
Proof.
  intros H. unfold create_report.
  destruct (read_table env (results_file "provider_metrics.csv") w) as [pm|e];
    cbn [bind]; [|reflexivity].
  rewrite (read_table_missing _ _ _ H). reflexivity.
Qed.

(** X19. Neither visualizer can do without one of the result files it
    reads.  When one of the five files is missing [create_visualizations]
    of [CMSDataVisualizer] raises; when one of the first four is missing
    [create_report] of [CMSVisualizer] returns [False]; in both cases no
    page is written. *)
Theorem report_needs_every_file {Figure Analysis : Type}
    (env : Env) (plt : Plotly Figure) (dash : Dashboard Figure Analysis)
    (charts : SimpleCharts Figure) (w : World) (name : string) :
  files w !! results_file name = None ->
  (In name [ "provider_metrics.csv"; "top_services.csv"; "payment_comparison.csv";
             "specialty_distribution.csv"; "quality_metrics.csv" ] ->
   exists e, create_visualizations env plt dash w = Raise e)
  /\ (In name [ "provider_metrics.csv"; "top_services.csv"; "payment_comparison.csv";
                "specialty_distribution.csv" ] ->
      create_report env plt charts w = (false, w)).
Proof.
  intros Hnone. split; intros Hin; cbn [In] in Hin.
  - unfold create_visualizations.
    destruct Hin as [<-|[<-|[<-|[<-|[<-|[]]]]]].
    + rewrite (read_table_missing _ _ _ Hnone). apply raise_raises.
    + apply bind_raises. intros ? _.
      rewrite (read_table_missing _ _ _ Hnone). apply raise_raises.
    + apply bind_raises. intros ? _. apply bind_raises. intros ? _.
      rewrite (read_table_missing _ _ _ Hnone). apply raise_raises.
    + apply bind_raises. intros ? _. apply bind_raises. intros ? _.
      apply bind_raises. intros ? _.
      rewrite (read_table_missing _ _ _ Hnone). apply raise_raises.
    + apply bind_raises. intros ? _. apply bind_raises. intros ? _.
      apply bind_raises. intros ? _. apply bind_raises. intros ? _.
      rewrite (read_table_missing _ _ _ Hnone). apply raise_raises.
  - unfold create_report.
    destruct Hin as [<-|[<-|[<-|[<-|[]]]]].
    + rewrite (read_table_missing _ _ _ Hnone). reflexivity.
    + destruct (read_table env (results_file "provider_metrics.csv") w); cbn [bind];
        [|reflexivity].
      rewrite (read_table_missing _ _ _ Hnone). reflexivity.
    + destruct (read_table env (results_file "provider_metrics.csv") w); cbn [bind];
        [|reflexivity].
      destruct (read_table env (results_file "top_services.csv") w); cbn [bind];
        [|reflexivity].
      rewrite (read_table_missing _ _ _ Hnone). reflexivity.
    + destruct (read_table env (results_file "provider_metrics.csv") w); cbn [bind];
        [|reflexivity].
      destruct (read_table env (results_file "top_services.csv") w); cbn [bind];
        [|reflexivity].
      destruct (read_table env (results_file "payment_comparison.csv") w); cbn [bind];
        [|reflexivity].
      rewrite (read_table_missing _ _ _ Hnone). reflexivity.
Qed.

Lemma report_needs_every_file_witness :
  (exists e,
     create_visualizations Sample.env Sample.plotly Sample.dashboard Sample.cold = Raise e)
  /\ create_report Sample.env Sample.plotly Sample.simple_charts Sample.cold
     = (false, Sample.cold).
Proof.
  destruct (report_needs_every_file Sample.env Sample.plotly Sample.dashboard
              Sample.simple_charts Sample.cold "provider_metrics.csv" eq_refl)
    as [Hfull Hsimple].
  split; [apply Hfull|apply Hsimple]; left; reflexivity.
Defined.

Lemma top_services_file_kept env results now w :
  (forall v, In ("top_services", v) results ->
             is_frame v && negb (frame_empty v) = false) ->
  files (commit (save_results env results now) w) !! results_file "top_services.csv"
  = files w !! results_file "top_services.csv".
Proof.
  intros Hskip. apply commit_untouched. unfold save_results.
  rewrite map_app, in_app_iff. cbn [map fst]. intros [Hw|[Hs|[]]].
  - apply result_files_paths in Hw as (name & v & Hin & Hf & He & E).
    change (results_file "top_services.csv") with (csv_path "top_services") in E.
    apply csv_path_inj in E. subst name.
    specialize (Hskip v Hin). rewrite Hf, He in Hskip. discriminate.
  - change summary_path with (csv_path "analysis_summary") in Hs.
    change (results_file "top_services.csv") with (csv_path "top_services") in Hs.
    apply csv_path_inj in Hs. discriminate.
Qed.

(** X20. The two stages do not fit together on the provider path.  A run
    of [run_analysis] without the provider-service file, on a cached
    provider file, returns the four results provider_metrics,
    specialty_distribution, payment_stats and service_volume and writes no
    [top_services.csv]; unless an earlier run left that file behind,
    [create_visualizations] then raises and [create_report] returns
    [False]. *)
Theorem provider_run_cannot_be_reported {Figure Analysis : Type}
    (env : Env) (base_dir now : string) (w w' : World) (results : Results)
    (plt : Plotly Figure) (dash : Dashboard Figure Analysis)
    (charts : SimpleCharts Figure) :
  files w !! path_join base_dir service_file = None ->
  is_Some (files w !! path_join base_dir "medicare_providers.csv") ->
  files w !! results_file "top_services.csv" = None ->
  run_analysis env base_dir now w = Ok (results, w') ->
  map fst results
  = [ "provider_metrics"; "specialty_distribution"; "payment_stats"; "service_volume" ]
  /\ files w' !! results_file "top_services.csv" = None
  /\ (exists e, create_visualizations env plt dash w' = Raise e)
  /\ create_report env plt charts w' = (false, w').
Proof.
  intros Hsvc [content Hprov] Hnone Hrun. unfold run_analysis in Hrun.
  rewrite Hsvc in Hrun. unfold get_medicare_providers in Hrun. rewrite Hprov in Hrun.
  apply bind_ok in Hrun as ([df w1] & Hload & Hrun).
  apply bind_ok in Hload as (df' & _ & Hload). inversion Hload; subst df' w1; clear Hload.
  cbn [fst snd] in Hrun.
  apply bind_ok in Hrun as (results' & Han & Hrun). inversion Hrun; subst results' w'; clear Hrun.
  unfold analyze_providers in Han.
  apply bind_ok in Han as (payment_stats & _ & Han).
  apply bind_ok in Han as (service_volume & _ & Han).
  inversion Han; subst results; clear Han.
  split; [reflexivity|].
  assert (Hkept : files (commit (save_results env
                     [ ("provider_metrics",
                        Table (analyze_provider_metrics
                                 (find_community_care_providers
                                    (filter_upstate_ny_providers df))));
                       ("specialty_distribution",
                        Table (get_specialty_distribution
                                 (analyze_provider_metrics
                                    (find_community_care_providers
                                       (filter_upstate_ny_providers df)))));
                       ("payment_stats", Stats payment_stats);
                       ("service_volume", Table service_volume) ] now) w)
                    !! results_file "top_services.csv" = None).
  { rewrite top_services_file_kept; [exact Hnone|].
    intros v [E|[E|[E|[E|[]]]]]; inversion E. }
  split; [exact Hkept|]. split.
  - apply visualizations_need_top_services. exact Hkept.
  - apply report_needs_top_services. exact Hkept.
Qed.

Lemma provider_run_cannot_be_reported_witness :
  exists results w',
    run_analysis Sample.provider_env "data" "2026-01-01 00:00:00" Sample.providers_cached
    = Ok (results, w')
    /\ (exists e,
          create_visualizations Sample.provider_env Sample.plotly Sample.dashboard w'
          = Raise e)
    /\ create_report Sample.provider_env Sample.plotly Sample.simple_charts w' = (false, w').
Proof.
  eexists. eexists. split; [vm_compute; reflexivity|].
  eapply (provider_run_cannot_be_reported Sample.provider_env "data" "2026-01-01 00:00:00"
            Sample.providers_cached).
  - reflexivity.
  - eexists. reflexivity.
  - reflexivity.
  - vm_compute. reflexivity.
Defined.

Lemma top_services_of_nobody df :
  Frame.len df = 0%nat -> get_top_services df = Ok Frame.blank.
Proof.
  unfold Frame.len, get_top_services, Frame.empty.
  destruct (rows df); [reflexivity|discriminate].
Qed.

(** X21. Nor do they fit together when nobody is matched.  If the
    population of the service path is empty and [run_analysis] returns, the
    table of top services is empty and no [top_services.csv] is written;
    unless an earlier run left that file behind, [create_visualizations]
    then raises and [create_report] returns [False]. *)
Theorem empty_population_cannot_be_reported {Figure Analysis : Type}
    (env : Env) (base_dir now content : string) (w w' : World)
    (df : DataFrame) (results : Results)
    (plt : Plotly Figure) (dash : Dashboard Figure Analysis)
    (charts : SimpleCharts Figure) :
  files w !! path_join base_dir service_file = Some content ->
  read_csv env content = Ok df ->
  Frame.len (service_population (ny_service_records df)) = 0%nat ->
  files w !! results_file "top_services.csv" = None ->
  run_analysis env base_dir now w = Ok (results, w') ->
  In ("top_services", Table Frame.blank) results
  /\ files w' !! results_file "top_services.csv" = None
  /\ (exists e, create_visualizations env plt dash w' = Raise e)
  /\ create_report env plt charts w' = (false, w').
Proof.
  intros Hsvc Hread Hnobody Hnone Hrun. unfold run_analysis in Hrun.
  rewrite Hsvc, Hread in Hrun. cbn [bind] in Hrun.
  apply bind_ok in Hrun as (results' & Han & Hrun). inversion Hrun; subst results' w'; clear Hrun.
  unfold analyze_provider_service_data in Han.
  rewrite (top_services_of_nobody _ Hnobody) in Han. cbn [bind] in Han.
  apply bind_ok in Han as (specialty_distribution & _ & Han).
  apply bind_ok in Han as (payment_comparison & _ & Han).
  apply bind_ok in Han as (provider_metrics & _ & Han).
  apply bind_ok in Han as (quality_metrics & _ & Han).
  inversion Han; subst results; clear Han.
  split; [left; reflexivity|].
  match goal with
  | |- files ?w1 !! _ = None /\ _ =>
      assert (Hkept : files w1 !! results_file "top_services.csv" = None)
  end.
  { rewrite top_services_file_kept; [exact Hnone|].
    intros v [E|[E|[E|[E|[E|[]]]]]]; inversion E. reflexivity. }
  split; [exact Hkept|]. split.
  - apply visualizations_need_top_services. exact Hkept.
  - apply report_needs_top_services. exact Hkept.
Qed.

Lemma empty_population_cannot_be_reported_witness :
  exists results w',
    run_analysis Sample.strangers_env "data" "2026-01-01 00:00:00" Sample.cached
    = Ok (results, w')
    /\ (exists e,
          create_visualizations Sample.strangers_env Sample.plotly Sample.dashboard w'
          = Raise e)
    /\ create_report Sample.strangers_env Sample.plotly Sample.simple_charts w'
       = (false, w').
Proof.
  eexists. eexists. split; [vm_compute; reflexivity|].
  eapply (empty_population_cannot_be_reported Sample.strangers_env "data"
            "2026-01-01 00:00:00" "Rndrng_NPI,..." Sample.cached _ Sample.strangers).
  - reflexivity.
  - reflexivity.
  - reflexivity.
  - reflexivity.
  - vm_compute. reflexivity.
Defined.

(** ** The chart of the top services *)

Lemma insert_ext_in {A : Type} (le le' : A -> A -> bool) x l :
  (forall y, In y l -> le x y = le' x y) -> Sort.insert le x l = Sort.insert le' x l.
Proof.
  induction l as [|y l IH]; intros H; [reflexivity|].
  cbn [Sort.insert]. rewrite (H y) by (left; reflexivity).
  destruct (le' x y); [reflexivity|].
  rewrite IH; [reflexivity|]. intros z Hz. apply H. right. exact Hz.
Qed.

Lemma sort_ext_in {A : Type} (le le' : A -> A -> bool) l :
  (forall x y, In x l -> In y l -> le x y = le' x y) -> Sort.sort le l = Sort.sort le' l.
Proof.
  induction l as [|x l IH]; intros H; [reflexivity|].
  cbn [Sort.sort]. rewrite IH by (intros a b Ha Hb; apply H; right; assumption).
  apply insert_ext_in. intros y Hy. apply sort_In in Hy.
  apply H; [left; reflexivity|right; exact Hy].
Qed.

Lemma sum_of_integers (cells : list Cell) :
  (forall c, In c cells -> exists z, c = CInt z) ->
  (Group.magnitude cells < 2 ^ 53)%Z ->
  Group.sum cells = Ok (Group.total cells).
Proof.
  intros H Hsmall. rewrite sum_total.
  - rewrite int64_small; [reflexivity|].
    pose proof (total_magnitude cells). assert (2 ^ 53 < 2 ^ 63)%Z by reflexivity. lia.
  - apply forallb_forall. intros c Hc. destruct (H c Hc) as [z ->]. reflexivity.
Qed.

Lemma magnitude_perm (l l' : list Cell) :
  Permutation l l' -> Group.magnitude l = Group.magnitude l'.
Proof.
  induction 1 as [|c l l' _ IH|c d l|l l' l'' _ IH1 _ IH2]; [reflexivity| | |congruence].
  - destruct c; cbn [Group.magnitude]; rewrite IH; reflexivity.
  - destruct c, d; cbn [Group.magnitude]; lia.
Qed.

Lemma magnitude_firstn (n : nat) (l : list Cell) :
  (Group.magnitude (firstn n l) <= Group.magnitude l)%Z.
Proof.
  revert n. induction l as [|c l IH]; intros [|n]; cbn [firstn Group.magnitude];
    try reflexivity.
  - pose proof (magnitude_nonneg l). destruct c; lia.
  - specialize (IH n). destruct c; lia.
Qed.

Lemma in_firstn {A : Type} (n : nat) (l : list A) x : In x (firstn n l) -> In x l.
Proof.
  intros H. rewrite <- (firstn_skipn n l). apply in_or_app. left. exact H.
Qed.

(** X22. [create_services_chart] of [CMSVisualizer], on a table with at
    least one row whose Total Services are integers that pandas sums
    exactly (below [2 ^ 53] in all) and whose descriptions
    are texts: the chart is drawn from at most ten rows of the table, none
    with fewer services than a row left out, and the insight names the code
    of a row with the most services of all and gives its share of the total
    of the whole table. *)
Theorem services_chart_names_largest {Figure : Type} (plt : Plotly Figure) (df : DataFrame) :
  rows df <> [] ->
  Frame.has_column df "Total Services" = true ->
  Frame.has_column df "HCPCS Code" = true ->
  Frame.has_column df "HCPCS Description" = true ->
  (forall r, In r (rows df) -> exists z, Frame.cell df "Total Services" r = CInt z) ->
  Group.exact df "Total Services" = true ->
  (forall r, In r (rows df) -> exists s, Frame.cell df "HCPCS Description" r = CStr s) ->
  exists (charted : DataFrame) (top : Row),
    columns charted = columns df
    /\ length (rows charted) = Nat.min 10 (length (rows df))
    /\ (forall r, In r (rows charted) -> In r (rows df))
    /\ (forall kept r,
          In kept (rows charted) -> In r (rows df) -> ~ In r (rows charted) ->
          (services_of df r <= services_of df kept)%Z)
    /\ In top (rows charted)
    /\ (forall r, In r (rows df) -> (services_of df r <= services_of df top)%Z)
    /\ match px_bar plt charted with
       | Raise e => SimpleVisualizer.create_services_chart plt df = Raise e
       | Ok fig =>
           exists insight,
             SimpleVisualizer.create_services_chart plt df
             = Ok (Some (add_annotation plt fig insight))
             /\ top_code insight = Frame.cell df "HCPCS Code" top
             /\ top_share insight
                = SimpleVisualizer.share (services_of df top)
                    (Group.total (Frame.series df "Total Services"))
             /\ top_10_share insight
                = SimpleVisualizer.share
                    (Group.total (map (Frame.cell df "Total Services") (rows charted)))
                    (Group.total (Frame.series df "Total Services"))
       end.
Proof.
  intros Hne Htot Hcode Hdesc Hint Hexact Htext.
  unfold Group.exact in Hexact. apply Z.ltb_lt in Hexact.
  set (le := fun r1 r2 : Row =>
               SimpleVisualizer.desc_leb (Frame.cell df "Total Services" r1)
                 (Frame.cell df "Total Services" r2)).
  set (le' := fun r1 r2 : Row => (services_of df r2 <=? services_of df r1)%Z).
  assert (Hsort : Sort.sort le (rows df) = Sort.sort le' (rows df)).
  { apply sort_ext_in. intros x y Hx Hy. unfold le, le', services_of.
    destruct (Hint x Hx) as [zx ->], (Hint y Hy) as [zy ->]. reflexivity. }
  pose proof (descending_sorted (services_of df) (rows df)) as Hs.
  pose proof (sort_perm le' (rows df)) as Hp.
  fold le' in Hs.
  remember (Sort.sort le' (rows df)) as sorted eqn:Esorted.
  destruct sorted as [|top rest].
  { apply Permutation_nil in Hp. contradiction. }
  exists (mkDataFrame (columns df) (firstn 10 (top :: rest))), top.
  cbn [rows columns].
  assert (Hsub : forall r, In r (firstn 10 (top :: rest)) -> In r (rows df)).
  { intros r Hr. apply (Permutation_in _ Hp). apply (in_firstn _ _ _ Hr). }
  assert (Hall : forall r, In r (rows df) -> In r (top :: rest)).
  { intros r Hr. apply (Permutation_in _ (Permutation_sym Hp)). exact Hr. }
  assert (Htop : In top (rows df)) by (apply (Permutation_in _ Hp); left; reflexivity).
  split; [reflexivity|]. split.
  { rewrite length_firstn, (Permutation_length Hp). reflexivity. }
  split; [exact Hsub|]. split.
  { intros kept r Hkept Hr Hnot.
    apply (sorted_firstn_dominates _ 10 _ Hs kept r Hkept).
    apply Hall in Hr. rewrite <- (firstn_skipn 10 (top :: rest)) in Hr.
    apply in_app_or in Hr. destruct Hr as [Hr|Hr]; [contradiction|exact Hr]. }
  split; [left; reflexivity|]. split.
  { intros r Hr. apply Hall in Hr. destruct Hr as [<-|Hr]; [lia|].
    inversion Hs as [|? ? _ Hforall]; subst.
    rewrite List.Forall_forall in Hforall. apply Hforall. exact Hr. }
  unfold SimpleVisualizer.create_services_chart, SimpleVisualizer.sort_values_desc.
  rewrite Htot. cbn [bind]. fold le. rewrite Hsort.
  unfold SimpleVisualizer.head. cbn [rows columns].
  destruct (px_bar plt _) as [fig|e]; cbn [bind]; [|reflexivity].
  unfold SimpleVisualizer.iloc. cbn [rows firstn nth_error bind].
  rewrite (sum_of_integers (Frame.series df "Total Services")).
  2:{ intros c Hc. unfold Frame.series in Hc. apply in_map_iff in Hc as (r & <- & Hr).
      apply Hint. exact Hr. }
  2:{ exact Hexact. }
  cbn [bind].
  unfold Frame.series at 1. cbn [rows].
  change (Frame.cell (mkDataFrame (columns df) (top :: firstn 9 rest)))
    with (Frame.cell df).
  rewrite (sum_of_integers (map (Frame.cell df "Total Services") (top :: firstn 9 rest))).
  2:{ intros c Hc. apply in_map_iff in Hc as (r & <- & Hr). apply Hint, Hsub. exact Hr. }
  2:{ change (top :: firstn 9 rest) with (firstn 10 (top :: rest)).
      rewrite <- firstn_map.
      pose proof (magnitude_firstn 10 (map (Frame.cell df "Total Services") (top :: rest)))
        as Hfirst.
      rewrite (magnitude_perm _ _ (Permutation_map (Frame.cell df "Total Services") Hp))
        in Hfirst.
      lia. }
  cbn [bind]. unfold SimpleVisualizer.item.
  change (Frame.has_column (mkDataFrame (columns df) (top :: firstn 9 rest)))
    with (Frame.has_column df).
  change (Frame.cell (mkDataFrame (columns df) (top :: firstn 9 rest)))
    with (Frame.cell df).
  rewrite Hcode, Hdesc, Htot. cbn [bind].
  destruct (Htext top Htop) as [s Hs']. rewrite Hs'. cbn [SimpleVisualizer.first_30 bind].
  destruct (Hint top Htop) as [z Hz]. rewrite Hz. cbn [SimpleVisualizer.number bind].
  eexists. split; [reflexivity|]. cbn [top_code top_share top_10_share].
  split; [reflexivity|]. split; [|reflexivity].
  unfold services_of. rewrite Hz. reflexivity.
Qed.

Lemma services_chart_names_largest_witness :
  exists (charted : DataFrame) (top : Row),
    length (rows charted) = 10%nat
    /\ In top (rows Sample.top_services)
    /\ (110 <= services_of Sample.top_services top)%Z
    /\ Frame.len Sample.top_services = 11%nat.
Proof.
  destruct (services_chart_names_largest Sample.plotly Sample.top_services)
    as (charted & top & _ & Hlen & Hsub & _ & Htop & Hmost & _).
  - discriminate.
  - reflexivity.
  - reflexivity.
  - reflexivity.
  - intros r Hr. vm_compute in Hr.
    repeat (destruct Hr as [<-|Hr]; [eexists; reflexivity|]). destruct Hr.
  - reflexivity.
  - intros r Hr. vm_compute in Hr.
    repeat (destruct Hr as [<-|Hr]; [eexists; reflexivity|]). destruct Hr.
  - exists charted, top. split; [exact Hlen|]. split; [apply Hsub; exact Htop|].
    split; [|reflexivity].
    apply (Hmost [ CInt 99211; CStr "Office visit"; CInt 110 ]).
    vm_compute. tauto.
Defined.

(** ** Provider and quality metrics *)

(** X23. [get_quality_metrics] reads the column Rndrng_NPI whatever the
    table offers: on every non-empty table without that column it raises
    KeyError instead of returning an empty table. *)
Theorem quality_metrics_need_identifier (df : DataFrame) :
  Frame.empty df = false ->
  Frame.has_column df "Rndrng_NPI" = false ->
  Metrics.get_quality_metrics df = Raise (KeyError "Rndrng_NPI").
Proof.
  intros He Hnpi. unfold Metrics.get_quality_metrics. rewrite He, Hnpi.
  rewrite andb_false_r. cbn [andb].
  unfold require_columns. cbn [List.find]. rewrite Hnpi. reflexivity.
Qed.

Lemma quality_metrics_need_identifier_witness :
  Metrics.get_quality_metrics Sample.anonymous_records = Raise (KeyError "Rndrng_NPI").
Proof.
  apply (quality_metrics_need_identifier Sample.anonymous_records); reflexivity.
Defined.

(** X24. [get_provider_metrics] merges the count of services on Rndrng_NPI
    without a test for that column: on a non-empty table that has another
    grouping column, one of the metric columns and HCPCS_Cd, but no
    Rndrng_NPI, it never returns a table. *)
Theorem provider_metrics_need_identifier (df : DataFrame) :
  Frame.empty df = false ->
  Frame.has_column df "Rndrng_NPI" = false ->
  existsb (Frame.has_column df) provider_group_cols = true ->
  existsb (fun m => Frame.has_column df (fst m)) known_metrics = true ->
  Frame.has_column df "HCPCS_Cd" = true ->
  exists e, Metrics.get_provider_metrics df = Raise e.
Proof.
  intros He Hnpi Hgroup Hmetric Hcode. unfold Metrics.get_provider_metrics. rewrite He.
  assert (Hno : existsb (String.eqb "Rndrng_NPI")
                  (List.filter (Frame.has_column df) provider_group_cols) = false).
  { unfold provider_group_cols. cbn [List.filter]. rewrite Hnpi.
    destruct (Frame.has_column df "Rndrng_Prvdr_Last_Org_Name"),
      (Frame.has_column df "Rndrng_Prvdr_First_Name"),
      (Frame.has_column df "Rndrng_Prvdr_Type"); reflexivity. }
  destruct (List.filter (Frame.has_column df) provider_group_cols) as [|g gs] eqn:Eg.
  { apply existsb_exists in Hgroup as (c & Hc & Hhas).
    assert (H : In c (List.filter (Frame.has_column df) provider_group_cols))
      by (apply filter_In; split; assumption).
    rewrite Eg in H. destruct H. }
  destruct (List.filter (fun m => Frame.has_column df (fst m)) known_metrics)
    as [|m ms] eqn:Em.
  { apply existsb_exists in Hmetric as (c & Hc & Hhas).
    assert (H : In c (List.filter (fun m => Frame.has_column df (fst m)) known_metrics))
      by (apply filter_In; split; assumption).
    rewrite Em in H. destruct H. }
  rewrite Hcode, Hno.
  destruct (Group.groupby df (g :: gs)) as [groups|e]; cbn [bind]; [|eexists; reflexivity].
  destruct (agg_groups df groups (m :: ms)); cbn [bind]; eexists; reflexivity.
Qed.

Lemma provider_metrics_need_identifier_witness :
  exists e, Metrics.get_provider_metrics Sample.anonymous_records = Raise e.
Proof.
  apply (provider_metrics_need_identifier Sample.anonymous_records); reflexivity.
Defined.

Lemma agg_groups_keys df groups metrics provider_metrics :
  agg_groups df groups metrics = Ok provider_metrics ->
  map fst provider_metrics = map fst groups.
Proof.
  revert provider_metrics. induction groups as [|[k l] groups IH]; intros pm H.
  - cbn [agg_groups] in H. inversion H. reflexivity.
  - cbn [agg_groups] in H. apply bind_ok in H as (aggs & _ & H).
    apply bind_ok in H as (rest & Hrest & H). inversion H; subst pm.
    cbn [map fst]. rewrite (IH rest Hrest). reflexivity.
Qed.

Lemma groupby_keys df keys groups :
  Group.groupby df keys = Ok groups ->
  Permutation (map fst groups)
    (remove_dups (List.filter complete (map (key_of df keys) (rows df)))).
Proof.
  intros Hg. destruct (groupby_spec _ _ _ Hg) as [Hnd Hin].
  apply NoDup_Permutation; [exact Hnd|apply NoDup_remove_dups|].
  intros k. rewrite elem_of_remove_dups, !list_elem_of_In, filter_In, !in_map_iff. split.
  - intros ([k' l] & <- & Hkl). cbn [fst]. apply Hin in Hkl as (Hnan & Hl & Hne).
    destruct l as [|r0 l0]; [contradiction|].
    assert (Hr0 : In r0 (r0 :: l0)) by (left; reflexivity).
    rewrite Hl in Hr0. apply filter_In in Hr0 as [Hr0 Hk]. apply key_eqb_eq in Hk.
    split; [exists r0; split; assumption|]. unfold complete. rewrite Hnan. reflexivity.
  - intros [(r & Hk & Hr) Hc].
    exists (k, List.filter (fun r => Group.key_eqb (key_of df keys r) k) (rows df)).
    split; [reflexivity|]. apply Hin. split; [|split; [reflexivity|]].
    + unfold complete in Hc. destruct (existsb Group.is_nan k); [discriminate|reflexivity].
    + intros E.
      assert (H : In r (List.filter (fun r => Group.key_eqb (key_of df keys r) k) (rows df))).
      { apply filter_In. split; [exact Hr|]. apply key_eqb_eq. exact Hk. }
      rewrite E in H. destruct H.
Qed.

Lemma filter_length_perm {A : Type} (f : A -> bool) (l l' : list A) :
  Permutation l l' -> length (List.filter f l) = length (List.filter f l').
Proof.
  induction 1 as [|x l l' _ IH|x y l|l1 l2 l3 _ IH1 _ IH2]; cbn [List.filter].
  - reflexivity.
  - destruct (f x); cbn [length]; rewrite IH; reflexivity.
  - destruct (f x), (f y); reflexivity.
  - rewrite IH1. exact IH2.
Qed.

Lemma cell_eqb_sym a b : Frame.cell_eqb a b = Frame.cell_eqb b a.
Proof.
  destruct (Frame.cell_eqb a b) eqn:E1, (Frame.cell_eqb b a) eqn:E2; try reflexivity.
  - apply cell_eqb_eq in E1. subst. rewrite (proj2 (cell_eqb_eq b b) eq_refl) in E2.
    discriminate.
  - apply cell_eqb_eq in E2. subst. rewrite (proj2 (cell_eqb_eq a a) eq_refl) in E1.
    discriminate.
Qed.

Lemma matches_of_identifier df (groups : list (list Cell * list Row)) a :
  length (List.filter (fun us : Cell * nat => Frame.cell_eqb a (fst us))
            (map (fun kn => (hd CNaN (fst kn), snd kn)) (unique_services_of df groups)))
  = listings a (map fst groups).
Proof.
  unfold listings, unique_services_of.
  induction groups as [|[k l] groups IH]; [reflexivity|].
  cbn [map List.filter fst snd]. rewrite (cell_eqb_sym a (hd CNaN k)).
  destruct (Frame.cell_eqb (hd CNaN k) a); cbn [length]; rewrite IH; reflexivity.
Qed.

Lemma listings_cons npi k keys :
  listings npi (k :: keys)
  = ((if Frame.cell_eqb (hd CNaN k) npi then 1 else 0) + listings npi keys)%nat.
Proof.
  unfold listings. cbn [List.filter].
  destruct (Frame.cell_eqb (hd CNaN k) npi); reflexivity.
Qed.

Lemma merge_unique_services_count npi keys provider_metrics counts :
  (forall a, length (List.filter (fun us : Cell * nat => Frame.cell_eqb a (fst us)) counts)
             = listings a keys) ->
  (forall pm, In pm provider_metrics -> In (fst pm) keys) ->
  length (List.filter (fun rec => Frame.cell_eqb (hd CNaN (provider_key rec)) npi)
            (merge_unique_services provider_metrics counts))
  = (listings npi (map fst provider_metrics) * listings npi keys)%nat.
Proof.
  intros Hmatch Hkeys. unfold merge_unique_services.
  induction provider_metrics as [|pm rest IH]; [reflexivity|].
  cbn [flat_map]. rewrite List.filter_app, length_app.
  rewrite IH by (intros x Hx; apply Hkeys; right; exact Hx).
  cbn [map]. rewrite listings_cons.
  specialize (Hmatch (hd CNaN (fst pm))).
  assert (Hpos : (0 < listings (hd CNaN (fst pm)) keys)%nat).
  { unfold listings.
    assert (H : In (fst pm)
                  (List.filter (fun k => Frame.cell_eqb (hd CNaN k) (hd CNaN (fst pm))) keys)).
    { apply filter_In. split; [apply Hkeys; left; reflexivity|].
      apply cell_eqb_eq. reflexivity. }
    destruct (List.filter _ keys); [destruct H|cbn; lia]. }
  destruct (List.filter (fun us : Cell * nat => Frame.cell_eqb (hd CNaN (fst pm)) (fst us))
              counts) as [|u us] eqn:Em.
  { cbn [length] in Hmatch. lia. }
  cbv beta iota.
  destruct (Frame.cell_eqb (hd CNaN (fst pm)) npi) eqn:E.
  - apply cell_eqb_eq in E. rewrite E in Hmatch.
    assert (Hall : forall l : list (Cell * nat),
               List.filter (fun rec => Frame.cell_eqb (hd CNaN (provider_key rec)) npi)
                 (map (fun us => mkMetricRow (fst pm) (snd pm)
                                   (Some (CInt (Z.of_nat (snd us))))) l)
               = map (fun us => mkMetricRow (fst pm) (snd pm)
                                  (Some (CInt (Z.of_nat (snd us))))) l).
    { intros l. induction l as [|x l IHl]; [reflexivity|].
      cbn [map List.filter provider_key]. rewrite E.
      rewrite (proj2 (cell_eqb_eq npi npi) eq_refl). rewrite IHl. reflexivity. }
    pose proof (Hall (u :: us)) as Hu. cbn [map] in Hu. rewrite Hu.
    cbn [length] in Hmatch |- *. rewrite length_map. lia.
  - assert (Hnone : forall l : list (Cell * nat),
               List.filter (fun rec => Frame.cell_eqb (hd CNaN (provider_key rec)) npi)
                 (map (fun us => mkMetricRow (fst pm) (snd pm)
                                   (Some (CInt (Z.of_nat (snd us))))) l)
               = []).
    { intros l. induction l as [|x l IHl]; [reflexivity|].
      cbn [map List.filter provider_key]. rewrite E. exact IHl. }
    pose proof (Hnone (u :: us)) as Hu. cbn [map] in Hu. rewrite Hu.
    cbn [length]. lia.
Qed.

(** X25. [get_provider_metrics] joins the aggregated metrics with the
    counts of services on Rndrng_NPI alone, although both tables have one
    row per combination of the grouping columns.  So in a table it returns
    from a source with HCPCS_Cd, a provider listed under n combinations
    (two specialties, say) comes in n times n rows. *)
Theorem provider_metrics_repeat_listings
    (df : DataFrame) (labels : list string) (records : list MetricRow) :
  Metrics.get_provider_metrics df = Ok (MetricTable labels records) ->
  Frame.has_column df "HCPCS_Cd" = true ->
  forall npi,
    length (List.filter (fun rec => Frame.cell_eqb (hd CNaN (provider_key rec)) npi) records)
    = (listings npi (provider_keys df) * listings npi (provider_keys df))%nat.
Proof.
  unfold Metrics.get_provider_metrics, provider_keys. intros H Hcode npi.
  destruct (Frame.empty df); [discriminate|].
  destruct (List.filter (Frame.has_column df) provider_group_cols) as [|g gs] eqn:Eg;
    [discriminate|].
  destruct (List.filter (fun m => Frame.has_column df (fst m)) known_metrics)
    as [|m ms] eqn:Em.
  { apply bind_ok in H as (groups & _ & H). rewrite Hcode in H. discriminate. }
  apply bind_ok in H as (groups & Hg & H).
  apply bind_ok in H as (provider_metrics & Hagg & H).
  rewrite Hcode in H. apply bind_ok in H as (groups' & Hg' & H).
  rewrite Hg in Hg'. inversion Hg'; subst groups'; clear Hg'.
  destruct (existsb (String.eqb "Rndrng_NPI") (g :: gs)); [|discriminate].
  inversion H; subst labels records; clear H.
  pose proof (agg_groups_keys _ _ _ _ Hagg) as Hkeys.
  pose proof (groupby_keys _ _ _ Hg) as Hperm.
  rewrite (merge_unique_services_count npi (map fst groups)).
  - rewrite Hkeys. unfold listings.
    rewrite (filter_length_perm _ _ _ Hperm). reflexivity.
  - intros a. apply matches_of_identifier.
  - intros pm Hpm. rewrite <- Hkeys. apply in_map. exact Hpm.
Qed.

Lemma provider_metrics_repeat_listings_witness :
  exists labels records,
    Metrics.get_provider_metrics Sample.two_listings = Ok (MetricTable labels records)
    /\ length (List.filter
                 (fun rec => Frame.cell_eqb (hd CNaN (provider_key rec)) (CInt 1003000126))
                 records) = 4%nat
    /\ length records = 5%nat.
Proof.
  eexists. eexists. split; [vm_compute; reflexivity|]. split; [|reflexivity].
  rewrite (provider_metrics_repeat_listings Sample.two_listings _ _ eq_refl eq_refl).
  reflexivity.
Defined.

Lemma drop_duplicates_from_In seen rs x :
  In x (drop_duplicates_from seen rs) <-> In x rs /\ ~ In x seen.
Proof.
  revert seen. induction rs as [|r rs IH]; intros seen; cbn [drop_duplicates_from In].
  - tauto.
  - destruct (existsb (Group.key_eqb r) seen) eqn:E.
    + apply existsb_exists in E as (s & Hs & E). apply key_eqb_eq in E. subst s.
      rewrite IH. split; [tauto|]. intros [[->|Hin] Hnot]; [contradiction|tauto].
    + assert (Hr : ~ In r seen).
      { intros Hin.
        assert (H : existsb (Group.key_eqb r) seen = true).
        { apply existsb_exists. exists r. split; [exact Hin|apply key_eqb_refl]. }
        rewrite H in E. discriminate. }
      cbn [In]. rewrite IH. cbn [In]. split.
      * intros [<-|[Hin Hnot]]; [tauto|]. split; [tauto|]. intros H. apply Hnot. right. exact H.
      * intros [[<-|Hin] Hnot]; [left; reflexivity|].
        destruct (decide (r = x)) as [->|Hne]; [left; reflexivity|].
        right. split; [exact Hin|]. intros [H|H]; [congruence|contradiction].
Qed.

Lemma drop_duplicates_In rs x : In x (drop_duplicates rs) <-> In x rs.
Proof. unfold drop_duplicates. rewrite drop_duplicates_from_In. cbn [In]. tauto. Qed.

Lemma service_diversity_spec df groups c n :
  Group.groupby df [ "Rndrng_NPI" ] = Ok groups ->
  In (c, n) (map (fun kn => (hd CNaN (fst kn), snd kn)) (unique_services_of df groups)) <->
  c <> CNaN
  /\ In c (Frame.series df "Rndrng_NPI")
  /\ n = length
           (distinct
              (map (Frame.cell df "HCPCS_Cd")
                 (List.filter
                    (fun r => Frame.cell_eqb (Frame.cell df "Rndrng_NPI" r) c) (rows df)))).
Proof.
  intros Hg. unfold unique_services_of. rewrite map_map. cbn [fst snd].
  rewrite in_map_iff. split.
  - intros ([k l] & E & Hkl). cbn [fst snd] in E.
    apply (groups_by_column _ _ _ Hg) in Hkl as (c' & -> & Hc & Hin & ->).
    cbn [hd] in E. inversion E; subst. rewrite nunique_spec. repeat split; assumption.
  - intros (Hc & Hin & ->).
    exists ([c], List.filter (fun r => Frame.cell_eqb (Frame.cell df "Rndrng_NPI" r) c)
                   (rows df)).
    cbn [fst snd hd]. rewrite nunique_spec. split; [reflexivity|].
    apply (groups_by_column _ _ _ Hg). exists c. repeat split; assumption.
Qed.

Lemma merge_names_In {A B : Type} (make : Cell -> A -> list Cell -> B)
    (left : list (Cell * A)) (provider_names : list Row) (b : B) :
  In b (merge_names make left provider_names) <->
  exists c a names,
    In (c, a) left /\ In names provider_names /\ c = hd CNaN names
    /\ b = make c a (tl names).
Proof.
  unfold merge_names. rewrite in_flat_map. split.
  - intros ([c a] & Hl & Hb). apply in_map_iff in Hb as (names & <- & Hn).
    apply filter_In in Hn as [Hn E]. cbn [fst snd] in *. apply cell_eqb_eq in E.
    exists c, a, names. repeat split; assumption.
  - intros (c & a & names & Hl & Hn & E & ->). exists (c, a). split; [exact Hl|].
    apply in_map_iff. exists names. split; [reflexivity|].
    apply filter_In. split; [exact Hn|]. apply cell_eqb_eq. exact E.
Qed.

(** X26. [get_quality_metrics] on a non-empty table with Rndrng_NPI and
    HCPCS_Cd and no column named after quality: the table returned has, for
    every row of the source with an identifier, a row with that identifier,
    the number of distinct service codes among all the rows of the
    identifier, and the names of the source row; and it has no other row.
    A provider whose rows spell the name in two ways comes twice. *)
Theorem service_diversity_rows (df : DataFrame) :
  Frame.empty df = false ->
  List.filter is_quality_col (columns df) = [] ->
  Frame.has_column df "Rndrng_NPI" = true ->
  Frame.has_column df "HCPCS_Cd" = true ->
  exists table,
    Metrics.get_quality_metrics df = Ok (DiversityTable table)
    /\ columns table
       = [ "NPI"; "Service Diversity" ] ++ List.filter (Frame.has_column df) name_cols
    /\ forall row,
         In row (rows table) <->
         exists r,
           In r (rows df)
           /\ Frame.cell df "Rndrng_NPI" r <> CNaN
           /\ row
              = [ Frame.cell df "Rndrng_NPI" r;
                  CInt (Z.of_nat
                          (length
                             (distinct
                                (map (Frame.cell df "HCPCS_Cd")
                                   (List.filter
                                      (fun r' =>
                                         Frame.cell_eqb (Frame.cell df "Rndrng_NPI" r')
                                           (Frame.cell df "Rndrng_NPI" r))
                                      (rows df)))))) ]
                ++ key_of df (List.filter (Frame.has_column df) name_cols) r.
Proof.
  intros He Hq Hnpi Hcode. unfold Metrics.get_quality_metrics.
  rewrite He, Hq, Hnpi, Hcode. cbn [andb].
  assert (Hk : forallb (Frame.has_column df) [ "Rndrng_NPI" ] = true)
    by (cbn [forallb]; rewrite Hnpi; reflexivity).
  pose proof (groupby_ok _ _ Hk) as Hg. rewrite Hg. cbn [bind].
  set (groups := Sort.sort _ (Group.collect _)) in *.
  pose proof (fun c n => service_diversity_spec df groups c n Hg) as Hsd.
  set (service_diversity :=
         map (fun kn : list Cell * nat => (hd CNaN (fst kn), snd kn))
           (unique_services_of df groups)) in *.
  destruct (List.filter (Frame.has_column df) name_cols) as [|name names] eqn:En.
  - eexists. split; [reflexivity|]. split; [reflexivity|]. cbn [rows].
    intros row. rewrite in_map_iff. split.
    + intros ([c n] & <- & Hin). apply Hsd in Hin as (Hc & Hin & ->).
      unfold Frame.series in Hin. apply in_map_iff in Hin as (r & <- & Hr).
      exists r. split; [exact Hr|]. split; [exact Hc|]. reflexivity.
    + intros (r & Hr & Hc & ->). eexists (_, _). split; [reflexivity|].
      apply Hsd. split; [exact Hc|]. split; [|reflexivity].
      unfold Frame.series. apply in_map. exact Hr.
  - eexists. split; [reflexivity|]. split; [reflexivity|]. cbn [rows].
    intros row. rewrite merge_names_In. split.
    + intros (c & n & nm & Hin & Hnm & E & ->).
      apply (proj1 (drop_duplicates_In _ _)) in Hnm. unfold take_columns in Hnm.
      apply in_map_iff in Hnm as (r & <- & Hr).
      cbn [key_of map hd tl] in E |- *. subst c.
      apply Hsd in Hin as (Hc & _ & ->).
      exists r. split; [exact Hr|]. split; [exact Hc|]. reflexivity.
    + intros (r & Hr & Hc & ->).
      eexists _, _, (key_of df ("Rndrng_NPI" :: name :: names) r).
      split; [|split; [|split; [|reflexivity]]].
      * apply Hsd. split; [exact Hc|]. split; [|reflexivity].
        unfold Frame.series. apply in_map. exact Hr.
      * apply drop_duplicates_In. unfold take_columns. apply in_map. exact Hr.
      * reflexivity.
Qed.

Lemma service_diversity_rows_witness :
  exists table,
    Metrics.get_quality_metrics Sample.two_spellings = Ok (DiversityTable table)
    /\ In [ CInt 1003000126; CInt 2; CStr "Smith" ] (rows table)
    /\ In [ CInt 1003000126; CInt 2; CStr "SMITH" ] (rows table).
Proof.
  destruct (service_diversity_rows Sample.two_spellings) as (table & Ht & _ & Hrows);
    [reflexivity|reflexivity|reflexivity|reflexivity|].
  exists table. split; [exact Ht|]. split; apply Hrows.
  - exists [ CInt 1003000126; CStr "Smith"; CStr "99213" ].
    split; [left; reflexivity|]. split; [discriminate|reflexivity].
  - exists [ CInt 1003000126; CStr "SMITH"; CStr "G0008" ].
    split; [right; left; reflexivity|]. split; [discriminate|reflexivity].
Defined.
